(** * pymsdl_template: a shallow embedding of [setup.py]

    The build script [setup.py] of the Maven-Standard-Directory-Layout
    template for Python projects is embedded function by function.  Python
    values are modelled as follows:

    - [str] is [string]; characters are the code points below 256;
    - [dict] is an insertion-ordered association list ([dict V]);
    - an exception is a value of [exn], and a computation that may raise
      returns [result A];
    - the standard library and setuptools ([configparser], [pathlib],
      [json], [unittest], [find_namespace_packages]) are modelled by their
      documented behaviour, or taken as parameters where they read the
      file system. *)

From Stdlib Require Import String Ascii List Bool Arith ZArith Lia.
Import ListNotations.

Open Scope string_scope.
Open Scope list_scope.

(** String concatenation, Python's [+] on [str]. *)
Infix "+++" := String.append (at level 60, right associativity).

(** ** Exceptions and the error monad *)

Inductive exn : Type :=
| FileNotFoundError
| NotADirectoryError
| JSONDecodeError
| AttributeError
| TypeError
| ValueError
| ImportError
| KeyError
| NoSectionError
| NoOptionError
| DuplicateSectionError
| DuplicateOptionError
| InterpolationDepthError
| InterpolationSyntaxError
| InterpolationMissingOptionError
| OSError
| OptionError
| DistutilsError.

Inductive result (A : Type) : Type :=
| Ok (a : A)
| Raise (e : exn).

Arguments Ok {A} a.
Arguments Raise {A} e.

Definition bind {A B : Type} (m : result A) (k : A -> result B) : result B :=
  match m with
  | Ok a => k a
  | Raise e => Raise e
  end.

Notation "x <- m ;; k" := (bind m (fun x => k))
  (at level 61, m at next level, right associativity).
Notation "' p <- m ;; k" := (bind m (fun x => let p := x in k))
  (at level 61, p pattern, m at next level, right associativity).

Definition is_ok {A : Type} (m : result A) : bool :=
  match m with Ok _ => true | Raise _ => false end.

(** ** Python strings *)

Module Str.

Definition is_empty (s : string) : bool :=
  match s with EmptyString => true | String _ _ => false end.

Fixpoint drop (n : nat) (s : string) : string :=
  match n, s with
  | 0, _ => s
  | S _, EmptyString => EmptyString
  | S n', String _ r => drop n' r
  end.

(** [c in s] for a one-character [c]. *)
Fixpoint contains (c : ascii) (s : string) : bool :=
  match s with
  | EmptyString => false
  | String d r => Ascii.eqb c d || contains c r
  end.

(** [s.startswith(prefix)]. *)
Fixpoint startswith (s prefix : string) {struct prefix} : bool :=
  match prefix with
  | EmptyString => true
  | String c prefix' =>
      match s with
      | EmptyString => false
      | String d s' => Ascii.eqb c d && startswith s' prefix'
      end
  end.

(** [sep.join(parts)]. *)
Fixpoint join (sep : string) (parts : list string) : string :=
  match parts with
  | [] => ""
  | [p] => p
  | p :: rest => p +++ sep +++ join sep rest
  end.

(** The loop of [str.replace] for a non-empty [old]: occurrences are
    replaced from the left and do not overlap.  [fuel] bounds the number
    of positions visited. *)
Fixpoint replace_from (fuel : nat) (old new s : string) : string :=
  match fuel with
  | 0 => s
  | S fuel' =>
      if startswith s old
      then new +++ replace_from fuel' old new (drop (String.length old) s)
      else match s with
           | EmptyString => EmptyString
           | String c r => String c (replace_from fuel' old new r)
           end
  end.

(** With an empty [old], Python puts [new] before every character and at
    the end. *)
Fixpoint interleave (new s : string) : string :=
  match s with
  | EmptyString => new
  | String c r => new +++ String c (interleave new r)
  end.

(** [s.replace(old, new)]. *)
Definition replace (old new s : string) : string :=
  if is_empty old then interleave new s
  else replace_from (String.length s) old new s.

(** The characters at which [str.splitlines] breaks a line. *)
Definition is_linebreak (c : ascii) : bool :=
  let n := nat_of_ascii c in
  Nat.eqb n 10 || Nat.eqb n 13 || Nat.eqb n 11 || Nat.eqb n 12
  || Nat.eqb n 28 || Nat.eqb n 29 || Nat.eqb n 30 || Nat.eqb n 133.

Definition CR : ascii := ascii_of_nat 13.
Definition LF : ascii := ascii_of_nat 10.

(** [cur] holds the characters of the line being read. *)
Fixpoint splitlines_from (cur s : string) : list string :=
  match s with
  | EmptyString => if is_empty cur then [] else [cur]
  | String c r =>
      if is_linebreak c then
        match r with
        | String d r' =>
            if Ascii.eqb c CR && Ascii.eqb d LF
            then cur :: splitlines_from "" r'
            else cur :: splitlines_from "" r
        | EmptyString => cur :: splitlines_from "" r
        end
      else splitlines_from (cur +++ String c "") r
  end.

(** [s.splitlines()]. *)
Definition splitlines (s : string) : list string := splitlines_from "" s.

(** The loop of [str.split(sep)] for a non-empty [sep]. *)
Fixpoint split_from (fuel : nat) (sep cur s : string) : list string :=
  match fuel with
  | 0 => [cur +++ s]
  | S fuel' =>
      match s with
      | EmptyString => [cur]
      | String c r =>
          if startswith s sep
          then cur :: split_from fuel' sep "" (drop (String.length sep) s)
          else split_from fuel' sep (cur +++ String c "") r
      end
  end.

(** [s.split(sep)] with a separator given; an empty separator raises. *)
Definition split (sep s : string) : result (list string) :=
  if is_empty sep then Raise ValueError
  else Ok (split_from (String.length s) sep "" s).

(** [s[:p]] and [s[p:]] for [p = s.find(c)], the whole of [s] and the
    empty string when [c] is not in [s]. *)
Fixpoint break_at (c : ascii) (s : string) : string * string :=
  match s with
  | EmptyString => (EmptyString, EmptyString)
  | String d r =>
      if Ascii.eqb c d then (EmptyString, s)
      else let (before, rest) := break_at c r in (String d before, rest)
  end.

(** [s.lstrip(c)] for a one-character [c]. *)
Fixpoint lstrip (c : ascii) (s : string) : string :=
  match s with
  | EmptyString => EmptyString
  | String d r => if Ascii.eqb c d then lstrip c r else s
  end.

(** [Py_ISSPACE]: the white space of C, which [PyLong_FromString] skips
    before the sign and after the digits. *)
Definition is_space (c : ascii) : bool :=
  let n := nat_of_ascii c in
  (Nat.leb 9 n && Nat.leb n 13) || Nat.eqb n 32.

(** [Py_UNICODE_ISSPACE] from 127 to 255: the next-line control and the
    no-break space. *)
Definition is_unicode_space (c : ascii) : bool :=
  let n := nat_of_ascii c in
  Nat.eqb n 133 || Nat.eqb n 160.

Fixpoint is_ascii (s : string) : bool :=
  match s with
  | EmptyString => true
  | String c r => Nat.ltb (nat_of_ascii c) 128 && is_ascii r
  end.

(** The loop of [_PyUnicode_TransformDecimalAndSpaceToASCII]: a space
    above ASCII becomes a blank; any other character from 127 on, none of
    which is a decimal digit below 256, becomes a question mark that ends
    the string. *)
Fixpoint to_ascii_from (s : string) : string :=
  match s with
  | EmptyString => EmptyString
  | String c r =>
      if Nat.ltb (nat_of_ascii c) 127 then String c (to_ascii_from r)
      else if is_unicode_space c then String " " (to_ascii_from r)
      else "?"
  end.

(** [_PyUnicode_TransformDecimalAndSpaceToASCII]: an ASCII string is
    returned as it is. *)
Definition to_ascii (s : string) : string :=
  if is_ascii s then s else to_ascii_from s.

Fixpoint lstrip_space (s : string) : string :=
  match s with
  | EmptyString => EmptyString
  | String c r => if is_space c then lstrip_space r else s
  end.

Definition digit (c : ascii) : option Z :=
  let n := nat_of_ascii c in
  if Nat.leb 48 n && Nat.leb n 57 then Some (Z.of_nat (n - 48)) else None.

(** The scan of the decimal digits: single underscores between digits are
    passed over, two in a row or one at the end are refused.  The value
    read, the number of digits and what follows them. *)
Fixpoint scan_digits (acc : Z) (count : nat) (prev_underscore : bool) (s : string)
  : option (Z * nat * string) :=
  match s with
  | EmptyString => if prev_underscore then None else Some (acc, count, EmptyString)
  | String c r =>
      if Ascii.eqb c "_"
      then (if prev_underscore then None else scan_digits acc count true r)
      else match digit c with
           | Some d => scan_digits (10 * acc + d) (S count) false r
           | None => if prev_underscore then None else Some (acc, count, s)
           end
  end.

(** [sys.get_int_max_str_digits()], as it is unless configured. *)
Definition MAX_STR_DIGITS : nat := 4300.

(** [int(s)] for a string, in base ten: [PyLong_FromUnicodeObject] on the
    string made ASCII.  White space, a sign, digits that do not start with
    an underscore, white space, and nothing more; more digits than
    [MAX_STR_DIGITS] are refused (Python 3.11, and 3.10 from 3.10.7). *)
Definition int (s : string) : result Z :=
  let s := lstrip_space (to_ascii s) in
  let (sign, body) :=
    match s with
    | String "-" r => ((-1)%Z, r)
    | String "+" r => (1%Z, r)
    | _ => (1%Z, s)
    end in
  match body with
  | String "_" _ => Raise ValueError
  | _ =>
      match scan_digits 0 0 false body with
      | Some (n, count, rest) =>
          if Nat.eqb count 0 then Raise ValueError
          else if Nat.ltb MAX_STR_DIGITS count then Raise ValueError
          else if is_empty (lstrip_space rest) then Ok (sign * n)%Z
          else Raise ValueError
      | None => Raise ValueError
      end
  end.

(** [str.lower] on the code points below 256: A-Z and the Latin-1
    capitals, the multiplication sign apart. *)
Definition lower_char (c : ascii) : ascii :=
  let n := nat_of_ascii c in
  if (Nat.leb 65 n && Nat.leb n 90)
     || (Nat.leb 192 n && Nat.leb n 222 && negb (Nat.eqb n 215))
  then ascii_of_nat (n + 32) else c.

Fixpoint lower (s : string) : string :=
  match s with
  | EmptyString => EmptyString
  | String c r => String (lower_char c) (lower r)
  end.

End Str.

(** ** Python dictionaries

    A [dict] keeps its keys in insertion order; assigning to a key that is
    present keeps the key's position. *)

Definition dict (V : Type) : Type := list (string * V).

Module Dict.

Section Ops.
Context {V : Type}.

(** [d.get(k)], with [None] for a missing key. *)
Fixpoint get (k : string) (d : dict V) : option V :=
  match d with
  | [] => None
  | (k', v) :: rest => if String.eqb k k' then Some v else get k rest
  end.

(** [k in d]. *)
Definition mem (k : string) (d : dict V) : bool :=
  match get k d with Some _ => true | None => false end.

(** [d[k] = v]. *)
Fixpoint set (k : string) (v : V) (d : dict V) : dict V :=
  match d with
  | [] => [(k, v)]
  | (k', v') :: rest =>
      if String.eqb k k' then (k', v) :: rest else (k', v') :: set k v rest
  end.

(** [d.update(other)]: the items of [other] are assigned in order. *)
Definition update (d other : dict V) : dict V :=
  fold_left (fun acc kv => set (fst kv) (snd kv) acc) other d.

(** [dict(items)] and the dict comprehension [{k: v for ...}]. *)
Definition of_items (items : list (string * V)) : dict V :=
  update [] items.

(** [list(d.keys())]. *)
Definition keys (d : dict V) : list string := map fst d.

(** [del d[k]] for a key that is present; every item under [k] goes. *)
Definition remove (k : string) (d : dict V) : dict V :=
  filter (fun kv => negb (String.eqb k (fst kv))) d.

End Ops.

End Dict.

(** [for x in xs: body], threading a state; an exception ends the loop. *)
Fixpoint for_each {A S : Type} (xs : list A) (body : A -> S -> result S) (s : S)
  : result S :=
  match xs with
  | [] => Ok s
  | x :: rest => s' <- body x s ;; for_each rest body s'
  end.

(** [x in xs] for a list of strings. *)
Definition str_in (x : string) (xs : list string) : bool :=
  existsb (String.eqb x) xs.

(** [[f(x) for x in xs]] where [f] may raise: the first exception ends the
    comprehension. *)
Fixpoint mapM {A B : Type} (f : A -> result B) (xs : list A) : result (list B) :=
  match xs with
  | [] => Ok []
  | x :: rest => y <- f x ;; ys <- mapM f rest ;; Ok (y :: ys)
  end.

(** ** Constants of [setup.py] *)

Definition MAIN_FOLDER : string := "src/main".
Definition SRC_FOLDER : string := MAIN_FOLDER +++ "/python".
Definition RESOURCES_FOLDER : string := MAIN_FOLDER +++ "/resources".
Definition TEST_FOLDER : string := "src/test".
Definition TEST_SRC_FOLDER : string := TEST_FOLDER +++ "/python".
Definition TEST_RESOURCES_FOLDER : string := TEST_FOLDER +++ "/resources".

Definition PROJECT_INI_FILE_PATH : string := "project.ini".
Definition INIT_ENV_VAR_SECTION : string := "ENV".
Definition INI_PROJECT_SECTION : string := "PROJECT".
Definition INI_ENTRY_POINT_SECTION : string := INI_PROJECT_SECTION +++ ".ENTRY_POINTS".

Definition DEFAULT_TEST_FILE_PATTERN : string := "*[Tt]est*.py".
Definition DEFAULT_USE_PIPENV : bool := true.
Definition DEFAULT_LONG_DESCRIPTION_FILE : string := "README.md".
Definition DEFAULT_LONG_DESCRIPTION_CONTENT_TYPE : string := "text/markdown".

(** ** pathlib on POSIX

    A path is its root (empty, [/] or [//]) and its components; empty
    components and [.] are dropped when a string is parsed, [..] is kept. *)

Module Path.

Record t : Type := { root : string; names : list string }.

Definition sep : string := "/".

(** [splitroot] of the POSIX flavour: exactly two leading slashes are kept
    as a root of their own. *)
Definition splitroot (part : string) : string * string :=
  match part with
  | String "/" _ =>
      let stripped := Str.lstrip "/" part in
      if Nat.eqb (String.length part - String.length stripped) 2
      then (sep +++ sep, stripped)
      else (sep, stripped)
  | _ => ("", part)
  end.

Definition is_component (x : string) : bool :=
  negb (Str.is_empty x) && negb (String.eqb x ".").

(** [Path(s)]. *)
Definition of_string (s : string) : t :=
  let (r, rel) := splitroot s in
  {| root := r;
     names := filter is_component
                (Str.split_from (String.length rel) sep "" rel) |}.

(** [p.joinpath(other)]: an absolute [other] replaces [p]. *)
Definition joinpath (p : t) (other : string) : t :=
  let o := of_string other in
  if Str.is_empty (root o)
  then {| root := root p; names := names p ++ names o |}
  else o.

(** [str(p)]; the empty path prints as [.]. *)
Definition to_string (p : t) : string :=
  let s := root p +++ Str.join sep (names p) in
  if Str.is_empty s then "." else s.

(** [p.as_posix()]. *)
Definition as_posix (p : t) : string := to_string p.

(** [p.absolute()] in the working directory [cwd]. *)
Definition absolute (cwd : string) (p : t) : t :=
  if Str.is_empty (root p)
  then {| root := root (of_string cwd);
          names := names (of_string cwd) ++ names p |}
  else p.

End Path.

(** ** The module search path

    The first statements of the main block, on [sys.path] as a list;
    [cwd] is the working directory of the process. *)

(** [xs.append(x)]. *)
Definition list_append {A : Type} (xs : list A) (x : A) : list A := xs ++ [x].

Definition layout_root (cwd folder : string) : string :=
  Path.as_posix (Path.absolute cwd (Path.of_string folder)).

Definition configure_sys_path (cwd : string) (sys_path : list string) : list string :=
  let sys_path := list_append sys_path (layout_root cwd SRC_FOLDER) in
  let sys_path := list_append sys_path (layout_root cwd RESOURCES_FOLDER) in
  let sys_path := list_append sys_path (layout_root cwd TEST_SRC_FOLDER) in
  let sys_path := list_append sys_path (layout_root cwd TEST_RESOURCES_FOLDER) in
  sys_path.

(** The four layout roots in the order source, resource, test-source,
    test-resource. *)
Definition layout_roots (cwd : string) : list string :=
  [layout_root cwd SRC_FOLDER; layout_root cwd RESOURCES_FOLDER;
   layout_root cwd TEST_SRC_FOLDER; layout_root cwd TEST_RESOURCES_FOLDER].

(** ** The package mapper

    setuptools' [find_namespace_packages] scans the file system: it is a
    parameter, from the directory scanned to the dotted names found, in
    the order found. *)

Section PackageMapper.

Variable find_namespace_packages : string -> list string.

Definition find_resources_packages (resources_folder : string)
    (excluded_packages : list string) : list string :=
  filter (fun pkg => negb (str_in pkg excluded_packages))
         (find_namespace_packages resources_folder).

Definition to_packages_dir (folder_path : string) (packages : list string)
  : dict string :=
  Dict.of_items
    (map (fun pkg =>
            (pkg,
             Path.as_posix
               (Path.joinpath (Path.of_string folder_path)
                              (Str.replace "." "/" pkg))))
         packages).

(** The package arguments the main block computes for [setup]. *)
Record PackageConfiguration : Type := {
  src_packages : list string;
  resources_packages : list string;
  src_packages_dir : dict string;
  resources_packages_dir : dict string;
  packages : list string;
  package_dir : dict string
}.

Definition package_configuration : PackageConfiguration :=
  let src_packages := find_namespace_packages SRC_FOLDER in
  let resources_packages := find_resources_packages RESOURCES_FOLDER src_packages in
  let src_packages_dir := [("", SRC_FOLDER)] in
  let resources_packages_dir := to_packages_dir RESOURCES_FOLDER resources_packages in
  {| src_packages := src_packages;
     resources_packages := resources_packages;
     src_packages_dir := src_packages_dir;
     resources_packages_dir := resources_packages_dir;
     packages := src_packages ++ resources_packages;
     package_dir := Dict.update resources_packages_dir src_packages_dir |}.

End PackageMapper.

(** ** The clean command

    The files below the working directory are a tree: a directory maps
    names to nodes.  Paths are relative to the working directory and are
    followed name by name; symbolic links and permissions are not
    modelled, so that removing a directory that is there succeeds. *)

#[warnings="-register-all"]
Inductive node : Type :=
| File
| Dir (entries : dict node).

Module FS.

(** The entries of the working directory. *)
Definition t : Type := dict node.

Fixpoint find (names : list string) (n : node) : option node :=
  match names with
  | [] => Some n
  | x :: rest =>
      match n with
      | Dir entries =>
          match Dict.get x entries with
          | Some child => find rest child
          | None => None
          end
      | File => None
      end
  end.

Definition is_dir_names (fs : t) (names : list string) : bool :=
  match find names (Dir fs) with
  | Some (Dir _) => true
  | _ => false
  end.

(** [dir_path.is_dir()]. *)
Definition is_dir (fs : t) (dir_path : Path.t) : bool :=
  is_dir_names fs (Path.names dir_path).

(** [shutil.rmtree]: the directory at the path goes with all it holds; a
    path that is missing, or is a file, raises. *)
Fixpoint rmtree_names (names : list string) (entries : dict node)
  : result (dict node) :=
  match names with
  | [] => Raise OSError
  | x :: rest =>
      match Dict.get x entries with
      | None => Raise FileNotFoundError
      | Some File => Raise NotADirectoryError
      | Some (Dir children) =>
          match rest with
          | [] => Ok (Dict.remove x entries)
          | _ :: _ =>
              children' <- rmtree_names rest children ;;
              Ok (Dict.set x (Dir children') entries)
          end
      end
  end.

Definition rmtree (fs : t) (dir_path : Path.t) : result t :=
  rmtree_names (Path.names dir_path) fs.

(** [fnmatch] for a pattern of literal characters, [?] and [*]; bracket
    expressions are not modelled. *)
Fixpoint fnmatch (pattern name : string) : bool :=
  match pattern with
  | EmptyString => Str.is_empty name
  | String "*" pattern' =>
      (fix star (n : string) : bool :=
         fnmatch pattern' n
         || match n with
            | EmptyString => false
            | String _ n' => star n'
            end) name
  | String "?" pattern' =>
      match name with
      | EmptyString => false
      | String _ name' => fnmatch pattern' name'
      end
  | String c pattern' =>
      match name with
      | EmptyString => false
      | String d name' => Ascii.eqb c d && fnmatch pattern' name'
      end
  end.

(** The paths [rglob] yields below a node, for the names [sel] selects: the
    selected entries of a directory first, then those of its
    subdirectories, each in listing order. *)
Fixpoint rglob_names (sel : string -> bool) (n : node) : list (list string) :=
  match n with
  | File => []
  | Dir entries =>
      map (fun e => [fst e]) (filter (fun e => sel (fst e)) entries)
      ++ flat_map (fun e => map (cons (fst e)) (rglob_names sel (snd e))) entries
  end.

(** [Path(".").rglob(pattern)], as the list of the paths it yields on the
    tree as it is when the loop starts.  pathlib yields them one by one
    while the loop body removes directories; what a removal takes away
    from the traversal are paths below the removed directory, which are
    no directories any more when the loop body tests them. *)
Definition rglob (fs : t) (pattern : string) : list Path.t :=
  map (fun names => {| Path.root := ""; Path.names := names |})
      (rglob_names (fnmatch pattern) (Dir fs)).

End FS.

(** What a command acts on: the files and the lines printed so far. *)
Record World : Type := { files : FS.t; stdout : list string }.

Definition print (line : string) (w : World) : World :=
  {| files := files w; stdout := stdout w ++ [line] |}.

Module CleanCommand.

Record t : Type := { build : bool; dist : bool; egg_info : bool; all : bool }.

Definition BUILD_PATH : Path.t := Path.of_string "./build".
Definition DIST_PATH : Path.t := Path.of_string "./dist".
Definition EGG_INFO_PATTERN : string := "*.egg-info".

Definition initialize_options (self : t) : t :=
  {| build := false; dist := false; egg_info := false; all := false |}.

(** The command as setuptools creates it, before any option is set. *)
Definition create : t :=
  initialize_options
    {| build := false; dist := false; egg_info := false; all := false |}.

Definition finalize_options (self : t) : t :=
  let self :=
    if negb (build self || dist self || egg_info self || all self)
    then {| build := build self; dist := dist self;
            egg_info := egg_info self; all := true |}
    else self in
  if all self
  then {| build := true; dist := true; egg_info := true; all := all self |}
  else self.

Definition _rmdir_if_exists (dir_path : Path.t) (w : World) : result World :=
  if FS.is_dir (files w) dir_path then
    let w := print (" |- Remove " +++ Path.to_string dir_path +++ " directory") w in
    fs' <- FS.rmtree (files w) dir_path ;;
    Ok {| files := fs'; stdout := stdout w |}
  else Ok w.

Definition run (self : t) (w : World) : result World :=
  let w := print "Running clean command..." w in
  w <- (if build self then _rmdir_if_exists BUILD_PATH w else Ok w) ;;
  w <- (if dist self then _rmdir_if_exists DIST_PATH w else Ok w) ;;
  w <- (if egg_info self
        then for_each (FS.rglob (files w) EGG_INFO_PATTERN) _rmdir_if_exists w
        else Ok w) ;;
  Ok (print "Clean command done" w).

End CleanCommand.

(** A project after a build: [build], [dist], an egg-info directory next
    to the sources and one nested in another. *)
Definition built_project : FS.t :=
  [("build", Dir [("lib", Dir [("app.py", File)])]);
   ("dist", Dir [("app-1.0.tar.gz", File)]);
   ("src", Dir [("main", Dir [("python", Dir [("app.egg-info", Dir [("PKG-INFO", File)]);
                                             ("app", Dir [("main.py", File)])])])]);
   ("old.egg-info", Dir [("inner.egg-info", Dir [])]);
   ("notes.egg-info", File)].

(** ** The test command

    unittest's loader and runner, setuptools' package finder and the file
    test are the parameters of the command ([TestEnv]). *)

(** A test as unittest has it: a test case, or a suite of tests. *)
#[warnings="-register-all"]
Inductive Test : Type :=
| TestCase (id : string)
| Suite (tests : list Test).

(** A [TestSuite], by the tests it holds. *)
Definition TestSuite : Type := list Test.

Fixpoint countTest (t : Test) : nat :=
  match t with
  | TestCase _ => 1
  | Suite tests => list_sum (map countTest tests)
  end.

(** [suite.countTestCases()]. *)
Definition countTestCases (suite : TestSuite) : nat :=
  list_sum (map countTest suite).

(** [suite.addTests(tests)]: every test of [tests] is added at the end. *)
Definition addTests (suite tests : TestSuite) : TestSuite :=
  fold_left (fun acc test => acc ++ [test]) tests suite.

(** The test cases of a test, in running order. *)
Fixpoint casesTest (t : Test) : list string :=
  match t with
  | TestCase id => [id]
  | Suite tests => flat_map casesTest tests
  end.

Definition cases (suite : TestSuite) : list string := flat_map casesTest suite.

Record TestEnv : Type := {
  (** [find_namespace_packages(where)] *)
  env_find_namespace_packages : string -> list string;
  (** [Path(path).is_file()] *)
  env_is_file : string -> bool;
  (** [defaultTestLoader.discover(start_dir, top_level_dir, pattern)] *)
  env_discover : string -> string -> string -> result TestSuite;
  (** [TextTestRunner().run(suite).wasSuccessful()] *)
  env_run : TestSuite -> bool;
  (** [sys.version] *)
  py_version : string
}.

(** The state of a run of the command: the suite collected, the
    directories given to the loader, the lines written to [sys.stderr]. *)
Record TestRun : Type := {
  suite : TestSuite;
  discovered : list string;
  stderr : list string
}.

Module TestCommand.

Record t : Type := { test_src_folder : Path.t; test_file_pattern : string }.

(** [TestCommand.__init__], which [test_command_class_factory] calls with
    the folder and the pattern. *)
Definition create (test_src_folder test_file_pattern : string) : t :=
  {| test_src_folder := Path.of_string test_src_folder;
     test_file_pattern := test_file_pattern |}.

Definition warning_message (namespace_package : string) : string :=
  "WARNING: Your python version is >= 3.11. So your tests in your namespace package"
  +++ " '" +++ namespace_package +++ "' will probably run twice" +++ String Str.LF ""
  +++ "   This is due to an issue that should be fixed in python 3.11."
  +++ " In this case it means issue https://bugs.python.org/issue23882 is fixed"
  +++ " and you can remove the _add_namespace_pkg_tests_workaround method from"
  +++ " TestCommand class in setup.py file".

Definition _namespace_pkg_workaround_version_warning (env : TestEnv)
    (namespace_package : string) (r : TestRun) : result TestRun :=
  version <- Str.split "." (py_version env) ;;
  match version with
  | [] => Ok r
  | first :: others =>
      major <- Str.int first ;;
      minor <- match others with
               | second :: _ => Str.int second
               | [] => Ok 0%Z
               end ;;
      if (3 <? major)%Z || ((major =? 3)%Z && (11 <=? minor)%Z)
      then Ok {| suite := suite r; discovered := discovered r;
                 stderr := stderr r ++ [warning_message namespace_package] |}
      else Ok r
  end.

(** [_discover]: the suite found, and the state with the call recorded. *)
Definition _discover (env : TestEnv) (self : t) (pkg_path : option Path.t)
    (r : TestRun) : result (TestSuite * TestRun) :=
  let test_dir :=
    Path.as_posix (match pkg_path with
                   | Some path => path
                   | None => test_src_folder self
                   end) in
  found <- env_discover env test_dir test_dir (test_file_pattern self) ;;
  Ok (found, {| suite := suite r; discovered := discovered r ++ [test_dir];
                stderr := stderr r |}).

(** The directory of a package below the test sources. *)
Definition pkg_path (self : t) (pkg : string) : Path.t :=
  Path.joinpath (test_src_folder self) (Str.replace "." "/" pkg).

(** Whether the package has no [__init__.py]. *)
Definition lacks_init (env : TestEnv) (self : t) (pkg : string) : bool :=
  negb (env_is_file env
          (Path.to_string (Path.joinpath (pkg_path self pkg) "__init__.py"))).

Definition _add_namespace_pkg_tests_workaround (env : TestEnv) (self : t)
    (r : TestRun) : result TestRun :=
  for_each
    (env_find_namespace_packages env (Path.to_string (test_src_folder self)))
    (fun pkg r =>
       if lacks_init env self pkg then
         r <- _namespace_pkg_workaround_version_warning env pkg r ;;
         '(namespace_suite, r) <- _discover env self (Some (pkg_path self pkg)) r ;;
         if Nat.ltb 0 (countTestCases namespace_suite)
         then Ok {| suite := addTests (suite r) namespace_suite;
                    discovered := discovered r; stderr := stderr r |}
         else Ok r
       else Ok r)
    r.

(** The suite [run] gives to the runner. *)
Definition collect (env : TestEnv) (self : t) : result TestRun :=
  '(test_suite, r) <- _discover env self None
                        {| suite := []; discovered := []; stderr := [] |} ;;
  _add_namespace_pkg_tests_workaround env self
    {| suite := test_suite; discovered := discovered r; stderr := stderr r |}.

Definition run (env : TestEnv) (self : t) : result TestRun :=
  r <- collect env self ;;
  if env_run env (suite r) then Ok r else Raise DistutilsError.

End TestCommand.

Definition test_command_class_factory (test_src_folder test_file_pattern : string)
  : TestCommand.t :=
  TestCommand.create test_src_folder test_file_pattern.

(** A test root with the module [test_app.py] and the directory [ns]
    without [__init__.py], holding [test_ns.py]; Python 3.10. *)
Definition sample_test_env : TestEnv :=
  {| env_find_namespace_packages := fun folder =>
       if String.eqb folder TEST_SRC_FOLDER then ["ns"] else [];
     env_is_file := fun _ => false;
     env_discover := fun start_dir _ _ =>
       if String.eqb start_dir TEST_SRC_FOLDER
       then Ok [Suite [Suite [TestCase "test_app.AppTest.test_main"]]]
       else if String.eqb start_dir (TEST_SRC_FOLDER +++ "/ns")
       then Ok [Suite [Suite [TestCase "test_ns.NsTest.test_ns"]]]
       else Raise ImportError;
     env_run := fun _ => true;
     py_version := "3.10.4 (main, Jun 29 2022, 12:14:53) [GCC 11.2.0]" |}.

(** ** The run command

    [runpy.run_module] is a parameter: what running a module under the
    name [__main__] raises, if anything.  Only exceptions that derive
    from [Exception] are modelled. *)

Module RunCommand.

Record t : Type := { module : option string }.

Definition initialize_options (self : t) : t := {| module := None |}.

Definition create : t := initialize_options {| module := None |}.

Definition finalize_options (self : t) : result t :=
  match module self with
  | None => Raise OptionError
  | Some name => if Str.is_empty name then Raise OptionError else Ok self
  end.

Definition run (run_module : option string -> result unit) (self : t) : result unit :=
  match run_module (module self) with
  | Ok _ => Ok tt
  | Raise _ => Raise DistutilsError
  end.

End RunCommand.

(** ** configparser

    [ConfigParser(interpolation=ExtendedInterpolation())], by its default
    values and its sections.  A parser is strict, uses [DEFAULT] as its
    default section and lower-cases option names.  Exceptions carry no
    message. *)

Module ConfigParser.

Record t : Type := {
  _defaults : dict string;
  _sections : dict (dict string)
}.

Definition default_section : string := "DEFAULT".
Definition MAX_INTERPOLATION_DEPTH : nat := 10.

(** A parser that has read nothing. *)
Definition empty : t := {| _defaults := []; _sections := [] |}.

Definition optionxform (optionstr : string) : string := Str.lower optionstr.

Definition has_section (parser : t) (section : string) : bool :=
  Dict.mem section (_sections parser).

(** [_unify_values]: the values of a section chained before the defaults,
    as the function that looks an option up. *)
Definition _unify_values (parser : t) (section : string)
  : result (string -> option string) :=
  match Dict.get section (_sections parser) with
  | Some sectiondict =>
      Ok (fun option =>
            match Dict.get option sectiondict with
            | Some value => Some value
            | None => Dict.get option (_defaults parser)
            end)
  | None =>
      if String.eqb section default_section
      then Ok (fun option => Dict.get option (_defaults parser))
      else Raise NoSectionError
  end.

(** The defaults updated with the values of a section: what [items]
    iterates on. *)
Definition section_items (parser : t) (section : string)
  : result (dict string) :=
  match Dict.get section (_sections parser) with
  | Some sectiondict => Ok (Dict.update (_defaults parser) sectiondict)
  | None =>
      if String.eqb section default_section
      then Ok (_defaults parser)
      else Raise NoSectionError
  end.

(** [get(section, option, raw=True)]. *)
Definition get_raw (parser : t) (section option : string) : result string :=
  d <- _unify_values parser section ;;
  match d (optionxform option) with
  | Some value => Ok value
  | None => Raise NoOptionError
  end.

(** A match of [_KEYCRE], the expression [\$\{([^}]+)\}], at the start of
    [rest]: the group and what follows the match. *)
Definition keycre_match (rest : string) : option (string * string) :=
  match rest with
  | String "$" (String "{" after) =>
      match Str.break_at "}" after with
      | (EmptyString, _) => None
      | (_, EmptyString) => None
      | (group, String _ tail) => Some (group, tail)
      end
  | _ => None
  end.

(** [_KEYCRE.sub('', s)]: the matches are taken out from the left. *)
Fixpoint keycre_strip (fuel : nat) (s : string) : string :=
  match fuel with
  | 0 => s
  | S fuel' =>
      match s with
      | EmptyString => EmptyString
      | String c r =>
          match keycre_match s with
          | Some (_, tail) => keycre_strip fuel' tail
          | None => String c (keycre_strip fuel' r)
          end
      end
  end.

(** [ExtendedInterpolation.before_set]: the value is kept when, escaped
    dollars and references apart, it holds no dollar. *)
Definition before_set (value : string) : result string :=
  let tmp_value := Str.replace "$$" "" value in
  let tmp_value := keycre_strip (String.length tmp_value) tmp_value in
  if Str.contains "$" tmp_value then Raise ValueError else Ok value.

(** The [while rest:] loop of [ExtendedInterpolation._interpolate_some],
    which consumes [rest] from the left and returns what it appends to
    [accum]; [fuel] bounds its iterations by the length of [rest].  [map]
    looks an option of the current section up, and [deeper value section
    map] is the call of [_interpolate_some] one level down. *)
Fixpoint _interpolate_loop
    (deeper : string -> string -> (string -> option string) -> result string)
    (parser : t) (section : string) (map : string -> option string)
    (fuel : nat) (rest : string) : result string :=
  match fuel with
  | 0 => Ok EmptyString
  | S fuel' =>
      let (plain, rest) := Str.break_at "$" rest in
      match rest with
      | EmptyString => Ok plain
      | String _ after =>
          match after with
          | String "$" rest' =>
              accum <- _interpolate_loop deeper parser section map fuel' rest' ;;
              Ok (plain +++ "$" +++ accum)
          | String "{" _ =>
              match keycre_match rest with
              | None => Raise InterpolationSyntaxError
              | Some (group, rest') =>
                  let path := Str.split_from (String.length group) ":" "" group in
                  found <-
                    match path with
                    | [name] =>
                        let opt := optionxform name in
                        match map opt with
                        | Some v => Ok (section, v)
                        | None => Raise InterpolationMissingOptionError
                        end
                    | [sect; name] =>
                        let opt := optionxform name in
                        match get_raw parser sect opt with
                        | Ok v => Ok (sect, v)
                        | Raise _ => Raise InterpolationMissingOptionError
                        end
                    | _ => Raise InterpolationSyntaxError
                    end ;;
                  let (sect, v) := found : string * string in
                  piece <-
                    (if Str.contains "$" v
                     then
                       d <- section_items parser sect ;;
                       deeper v sect (fun option => Dict.get option d)
                     else Ok v) ;;
                  accum <- _interpolate_loop deeper parser section map fuel' rest' ;;
                  Ok (plain +++ piece +++ accum)
              end
          | _ => Raise InterpolationSyntaxError
          end
      end
  end.

(** [ExtendedInterpolation._interpolate_some].  [budget] is what is left
    of the interpolation depth, [MAX_INTERPOLATION_DEPTH + 1 - depth]. *)
Fixpoint _interpolate_some (budget : nat) (parser : t) (rest section : string)
    (map : string -> option string) : result string :=
  match budget with
  | 0 => Raise InterpolationDepthError
  | S budget' =>
      _interpolate_loop
        (fun value sect map' => _interpolate_some budget' parser value sect map')
        parser section map (String.length rest) rest
  end.

(** [ExtendedInterpolation.before_get]. *)
Definition before_get (parser : t) (section value : string)
    (defaults : string -> option string) : result string :=
  _interpolate_some MAX_INTERPOLATION_DEPTH parser value section defaults.

(** [get(section, option)]. *)
Definition get (parser : t) (section option : string) : result string :=
  d <- _unify_values parser section ;;
  match d (optionxform option) with
  | Some value => before_get parser section value d
  | None => Raise NoOptionError
  end.

(** [has_option(section, option)]. *)
Definition has_option (parser : t) (section option : string) : bool :=
  if Str.is_empty section || String.eqb section default_section
  then Dict.mem (optionxform option) (_defaults parser)
  else match Dict.get section (_sections parser) with
       | None => false
       | Some sectiondict =>
           Dict.mem (optionxform option) sectiondict
           || Dict.mem (optionxform option) (_defaults parser)
       end.

(** [options(section)]: the options of the section, then the defaults it
    does not set. *)
Definition options (parser : t) (section : string) : result (list string) :=
  match Dict.get section (_sections parser) with
  | Some sectiondict => Ok (Dict.keys (Dict.update sectiondict (_defaults parser)))
  | None => Raise NoSectionError
  end.

(** [items(section)]. *)
Definition items (parser : t) (section : string)
  : result (list (string * string)) :=
  d <- section_items parser section ;;
  mapM (fun kv =>
          value <- before_get parser section (snd kv)
                     (fun option => Dict.get option d) ;;
          Ok (fst kv, value))
       d.

(** [dict(parser[section])]: the keys of the section proxy, each with the
    value the proxy gives for it. *)
Definition section_to_dict (parser : t) (section : string)
  : result (dict string) :=
  if negb (String.eqb section default_section) && negb (has_section parser section)
  then Raise KeyError
  else
    keys <- (if String.eqb section default_section
             then Ok (Dict.keys (_defaults parser))
             else options parser section) ;;
    pairs <- mapM (fun key =>
                     if has_option parser section key
                     then value <- get parser section key ;; Ok (key, value)
                     else Raise KeyError)
                  keys ;;
    Ok (Dict.of_items pairs).

Definition add_section (parser : t) (section : string) : result t :=
  if String.eqb section default_section then Raise ValueError
  else if Dict.mem section (_sections parser) then Raise DuplicateSectionError
  else Ok {| _defaults := _defaults parser;
             _sections := Dict.set section [] (_sections parser) |}.

(** [set(section, option, value)]. *)
Definition set (parser : t) (section option value : string) : result t :=
  value <- (if Str.is_empty value then Ok value else before_set value) ;;
  if Str.is_empty section || String.eqb section default_section
  then Ok {| _defaults := Dict.set (optionxform option) value (_defaults parser);
             _sections := _sections parser |}
  else match Dict.get section (_sections parser) with
       | Some sectdict =>
           Ok {| _defaults := _defaults parser;
                 _sections := Dict.set section
                                (Dict.set (optionxform option) value sectdict)
                                (_sections parser) |}
       | None => Raise NoSectionError
       end.

(** What [read_dict] has added so far: a section, or an option of a
    section. *)
Definition element : Type := string * option string.

Definition element_eqb (a b : element) : bool :=
  String.eqb (fst a) (fst b)
  && match snd a, snd b with
     | None, None => true
     | Some x, Some y => String.eqb x y
     | _, _ => false
     end.

Definition added (e : element) (elements_added : list element) : bool :=
  existsb (element_eqb e) elements_added.

(** The inner loop of [read_dict], on the options of one section. *)
Definition read_keys (section : string) (keys : dict string)
    (state : t * list element) : result (t * list element) :=
  for_each keys
    (fun kv state =>
       let (parser, elements_added) := state : t * list element in
       let key := optionxform (fst kv) in
       if added (section, Some key) elements_added
       then Raise DuplicateOptionError
       else
         parser <- set parser section key (snd kv) ;;
         Ok (parser, (section, Some key) :: elements_added))
    state.

(** [read_dict(dictionary)]. *)
Definition read_dict (parser : t) (dictionary : dict (dict string)) : result t :=
  state <- for_each dictionary
             (fun entry state =>
                let (parser, elements_added) := state : t * list element in
                let section := fst entry in
                parser <- match add_section parser section with
                          | Ok parser' => Ok parser'
                          | Raise e =>
                              if added (section, None) elements_added
                              then Raise e else Ok parser
                          end ;;
                read_keys section (snd entry)
                  (parser, (section, None) :: elements_added))
             (parser, []) ;;
  Ok (fst state).

(** [parser[key] = value] for a [dict] made for the assignment. *)
Definition setitem (parser : t) (key : string) (value : dict string) : result t :=
  let parser :=
    if String.eqb key default_section
    then {| _defaults := []; _sections := _sections parser |}
    else if Dict.mem key (_sections parser)
    then {| _defaults := _defaults parser;
            _sections := Dict.set key [] (_sections parser) |}
    else parser in
  read_dict parser [(key, value)].

End ConfigParser.

(** ** The configuration resolver and the entry point loader *)

(** What [ConfigParser.read] finds at a path: [None] for a file that is
    not there, which [read] passes over, or the defaults and sections a
    file parses to.  Files that do not parse are not modelled. *)
Definition IniFiles : Type := string -> option ConfigParser.t.

Definition read (inis : IniFiles) (path : string) : ConfigParser.t :=
  match inis path with
  | Some parsed => parsed
  | None => ConfigParser.empty
  end.

(** The environment snapshot, [esc_env_vars]. *)
Definition esc_env_vars (os_environ : dict string) : dict string :=
  Dict.of_items
    (map (fun kv => (fst kv, Str.replace "$" "$$" (snd kv))) os_environ).

Definition load_project_ini_file (inis : IniFiles) (os_environ : dict string)
    (project_ini_file_path environment_section : string) : result ConfigParser.t :=
  let esc_env_vars := esc_env_vars os_environ in
  let config_parser := read inis project_ini_file_path in
  if ConfigParser.has_section config_parser environment_section then
    from_file <- ConfigParser.section_to_dict config_parser environment_section ;;
    ConfigParser.setitem config_parser environment_section
      (Dict.update from_file esc_env_vars)
  else
    ConfigParser.setitem config_parser environment_section esc_env_vars.

Definition load_entry_points (config_parser : ConfigParser.t)
    (entry_point_section : string) : result (option (dict (list string))) :=
  if negb (ConfigParser.has_section config_parser entry_point_section)
  then Ok None
  else
    items <- ConfigParser.items config_parser entry_point_section ;;
    Ok (Some (Dict.of_items
                (map (fun kv => (fst kv, Str.splitlines (snd kv))) items))).

(** A [project.ini] with an [ENV] section that sets [http_proxy], and an
    entry point whose value starts on the line after its key. *)
Definition sample_ini : ConfigParser.t :=
  {| ConfigParser._defaults := [];
     ConfigParser._sections :=
       [("PROJECT", [("name", "demo"); ("home", "${ENV:home}/demo")]);
        ("PROJECT.ENTRY_POINTS",
         [("console_scripts", String Str.LF "demo = demo.main:run")]);
        ("ENV", [("http_proxy", "http://proxy.from.file:3128")])] |}.

Definition sample_inis : IniFiles :=
  fun path => if String.eqb path PROJECT_INI_FILE_PATH then Some sample_ini else None.

Definition sample_environ : dict string :=
  [("HOME", "/home/dev"); ("http_proxy", "http://proxy.from.env:8080");
   ("PS1", "\u$ ")].

(** ** The dependency lister *)

(** A JSON document as [json.load] returns it: an object is a [dict].  A
    number keeps its literal. *)
#[warnings="-register-all"]
Inductive json : Type :=
| JNull
| JBool (b : bool)
| JNumber (literal : string)
| JString (s : string)
| JArray (items : list json)
| JObject (fields : dict json).

(** What [open(path)] followed by [json.load] finds at a path. *)
Inductive json_file : Type :=
| NoFile
| NotJson
| Json (content : json).

(** The files the dependency lister reads: [read_text path] is the content
    of a text file, [read_json path] a file given to [json.load]. *)
Record Files : Type := {
  read_text : string -> option string;
  read_json : string -> json_file
}.

(** [obj.get(key, default)]; only a [dict] has the method. *)
Definition json_get (obj : json) (key : string) (default : json) : result json :=
  match obj with
  | JObject fields =>
      Ok (match Dict.get key fields with Some v => v | None => default end)
  | _ => Raise AttributeError
  end.

(** [obj.items()]. *)
Definition json_items (obj : json) : result (list (string * json)) :=
  match obj with
  | JObject fields => Ok fields
  | _ => Raise AttributeError
  end.

(** [s + v] for a [str] [s]: [v] has to be a [str] too. *)
Definition str_add (s : string) (v : json) : result string :=
  match v with
  | JString t => Ok (s +++ t)
  | _ => Raise TypeError
  end.

Definition read_file (fs : Files) (file_path : string) : result string :=
  match read_text fs file_path with
  | Some content => Ok content
  | None => Raise FileNotFoundError
  end.

Definition json_load (fs : Files) (path : string) : result json :=
  match read_json fs path with
  | Json content => Ok content
  | NotJson => Raise JSONDecodeError
  | NoFile => Raise FileNotFoundError
  end.

Definition get_deps_from_pipfile (fs : Files) (section pipfile_path : string)
  : result (list string) :=
  pipfile_content <- json_load fs pipfile_path ;;
  entries <- json_get pipfile_content section (JObject []) ;;
  items <- json_items entries ;;
  mapM (fun '(package, detail) =>
          version <- json_get detail "version" (JString "") ;;
          str_add package version)
       items.

Definition get_deps_from_requirements (fs : Files) (requirements_path : string)
  : result (list string) :=
  content <- read_file fs requirements_path ;;
  Ok (Str.splitlines content).

Definition get_deps (fs : Files) (use_pipfile : bool) : result (list string) :=
  if use_pipfile then get_deps_from_pipfile fs "default" "Pipfile.lock"
  else get_deps_from_requirements fs "requirements.txt".

(** The version constraint recorded in a detail object of the lock file,
    empty when none is recorded. *)
Definition recorded_version (detail : json) : string :=
  match detail with
  | JObject fields =>
      match Dict.get "version" fields with
      | Some (JString v) => v
      | _ => ""
      end
  | _ => ""
  end.

(** A detail object as the lock file format has it: an object whose
    [version], when recorded, is a string. *)
Definition detail_ok (detail : json) : bool :=
  match detail with
  | JObject fields =>
      match Dict.get "version" fields with
      | None | Some (JString _) => true
      | Some _ => false
      end
  | _ => false
  end.

(** The files of a project whose only lock file is [lock]. *)
Definition lock_only (lock : json) : Files :=
  {| read_text := fun _ => None;
     read_json := fun path =>
       if String.eqb path "Pipfile.lock" then Json lock else NoFile |}.

(** A project with the package [app] under both roots and [conf] under the
    resources root only. *)
Definition sample_packages (folder : string) : list string :=
  if String.eqb folder SRC_FOLDER then ["app"; "app.core"]
  else if String.eqb folder RESOURCES_FOLDER then ["app"; "conf"]
  else [].

(** Induction on a tree of files, with the hypothesis for every entry of a
    directory. *)
Fixpoint node_induction (P : node -> Prop)
    (HFile : P File)
    (HDir : forall entries, Forall (fun e => P (snd e)) entries -> P (Dir entries))
    (n : node) : P n :=
  match n with
  | File => HFile
  | Dir entries =>
      HDir entries
        ((fix each (es : dict node) : Forall (fun e => P (snd e)) es :=
            match es with
            | [] => Forall_nil _
            | e :: rest =>
                Forall_cons e (node_induction P HFile HDir (snd e)) (each rest)
            end) entries)
  end.

(** A value with every dollar doubled. *)
Fixpoint double_dollars (value : string) : string :=
  match value with
  | EmptyString => EmptyString
  | String c rest =>
      if Ascii.eqb c "$"
      then String "$" (String "$" (double_dollars rest))
      else String c (double_dollars rest)
  end.

(** The value stored for an option of a section, as the option is
    spelled in the parser. *)
Definition stored (parser : ConfigParser.t) (section name : string)
  : option string :=
  match Dict.get section (ConfigParser._sections parser) with
  | Some sectiondict => Dict.get name sectiondict
  | None => None
  end.

(** The lines of a value that are not empty: what the specification says
    the entry point loader returns for a key. *)
Definition nonempty_lines (value : string) : list string :=
  filter (fun line => negb (Str.is_empty line)) (Str.splitlines value).

(** The option names of a parser as [read] leaves them: lower-cased, and
    once in the defaults and in each section. *)
Definition normalized (names : list string) : Prop :=
  NoDup names /\ Forall (fun name => ConfigParser.optionxform name = name) names.

Definition well_formed (parser : ConfigParser.t) : Prop :=
  normalized (Dict.keys (ConfigParser._defaults parser))
  /\ forall section sectiondict,
      Dict.get section (ConfigParser._sections parser) = Some sectiondict ->
      normalized (Dict.keys sectiondict).

(** A [project.ini] whose [ENV] section sets [home], and an environment
    that sets [HOME]. *)
Definition home_ini : IniFiles :=
  fun path =>
    if String.eqb path PROJECT_INI_FILE_PATH
    then Some {| ConfigParser._defaults := [];
                 ConfigParser._sections := [("ENV", [("home", "/srv/demo")])] |}
    else None.

Definition home_environ : dict string := [("HOME", "/home/dev")].

(** The packages below the test sources without [__init__.py], in the
    order the package finder gives them. *)
Definition marker_less (env : TestEnv) (self : TestCommand.t) : list string :=
  filter (TestCommand.lacks_init env self)
    (env_find_namespace_packages env
       (Path.to_string (TestCommand.test_src_folder self))).

(** Discovery scoped to the directory of a package. *)
Definition discover_in (env : TestEnv) (self : TestCommand.t) (pkg : string)
  : result TestSuite :=
  env_discover env
    (Path.as_posix (TestCommand.pkg_path self pkg))
    (Path.as_posix (TestCommand.pkg_path self pkg))
    (TestCommand.test_file_pattern self).

(** [fs'] has no directory that [fs] lacks: what removals lead to. *)
Definition fs_le (fs' fs : FS.t) : Prop :=
  forall names, FS.is_dir_names fs' names = true -> FS.is_dir_names fs names = true.

(** No directory of [fs] has a name that [sel] selects. *)
Definition no_selected_dir (sel : string -> bool) (fs : FS.t) : Prop :=
  forall names name,
    sel name = true -> FS.is_dir_names fs (names ++ [name]) = false.


(** Whether a string holds none of the characters that end a line. *)
Fixpoint no_linebreak (s : string) : bool :=
  match s with
  | EmptyString => true
  | String c r => negb (Str.is_linebreak c) && no_linebreak r
  end.

(** A text file with one specifier per line, every line ended by a line
    feed. *)
Fixpoint unlines (specs : list string) : string :=
  match specs with
  | [] => EmptyString
  | spec :: rest => spec +++ String Str.LF (unlines rest)
  end.

(** The files of a project whose only dependency file is
    [requirements.txt]. *)
Definition requirements_only (content : string) : Files :=
  {| read_text := fun path =>
       if String.eqb path "requirements.txt" then Some content else None;
     read_json := fun _ => NoFile |}.

(** What the lock file has to hold for the dependency lister to return:
    an object whose [default] section, when there is one, is an object of
    details that are objects with a string for [version], if any. *)
Definition lock_ok (file : json_file) : bool :=
  match file with
  | Json (JObject top) =>
      match Dict.get "default" top with
      | None => true
      | Some (JObject entries) => forallb (fun e => detail_ok (snd e)) entries
      | Some _ => false
      end
  | _ => false
  end.

(** A dotted package name, by its segments. *)
Definition dotted (segments : list string) : string := Str.join "." segments.

(** A segment of a package name: not empty, and with neither a dot nor a
    slash in it. *)
Definition is_segment (s : string) : bool :=
  negb (Str.is_empty s) && negb (Str.contains "." s) && negb (Str.contains "/" s).

(** A string with [new] in the place of every [old]: what [str.replace]
    does for one-character arguments. *)
Fixpoint subst_char (old new : ascii) (s : string) : string :=
  match s with
  | EmptyString => EmptyString
  | String c r =>
      String (if Ascii.eqb old c then new else c) (subst_char old new r)
  end.

(** The pieces of a string between the occurrences of a character: what
    [str.split] does for a one-character separator.  [cur] holds the
    piece being read. *)
Fixpoint split_char (sep : ascii) (cur s : string) : list string :=
  match s with
  | EmptyString => [cur]
  | String c r =>
      if Ascii.eqb sep c then cur :: split_char sep "" r
      else split_char sep (cur +++ String c "") r
  end.

(** What is at a path below the working directory: a directory, a file,
    or nothing. *)
Inductive kind : Type := IsDir | IsFile.

Definition kind_at (fs : FS.t) (names : list string) : option kind :=
  match FS.find names (Dir fs) with
  | Some (Dir _) => Some IsDir
  | Some File => Some IsFile
  | None => None
  end.

(** Whether a path goes through a directory the clean command is set to
    remove: [build] or [dist] at the top, or a name that matches the
    egg-info pattern anywhere. *)
Definition targeted (self : CleanCommand.t) (names : list string) : bool :=
  (CleanCommand.build self
   && match names with
      | first :: _ => String.eqb first "build"
      | [] => false
      end)
  || (CleanCommand.dist self
      && match names with
         | first :: _ => String.eqb first "dist"
         | [] => false
         end)
  || (CleanCommand.egg_info self
      && existsb (FS.fnmatch CleanCommand.EGG_INFO_PATTERN) names).

(** A pattern that is to be matched character by character. *)
Fixpoint is_literal (pattern : string) : bool :=
  match pattern with
  | EmptyString => true
  | String c rest =>
      negb (Ascii.eqb c "*") && negb (Ascii.eqb c "?") && is_literal rest
  end.

(** A test root whose packages all have [__init__.py], under a Python
    whose version string does not start with a number. *)
Definition classic_test_env : TestEnv :=
  {| env_find_namespace_packages := fun _ => ["pkg"; "pkg.sub"];
     env_is_file := fun _ => true;
     env_discover := fun _ _ _ => Ok [Suite [TestCase "pkg.test_a.ATest.test_a"]];
     env_run := fun _ => true;
     py_version := "unknown" |}.

(** The test root of [sample_test_env] under Python 3.12. *)
Definition python312_test_env : TestEnv :=
  {| env_find_namespace_packages := env_find_namespace_packages sample_test_env;
     env_is_file := env_is_file sample_test_env;
     env_discover := env_discover sample_test_env;
     env_run := env_run sample_test_env;
     py_version := "3.12.1 (main, Dec  8 2023, 05:40:51) [GCC 11.4.0]" |}.

(** A value with its dollars taken out. *)
Fixpoint without_dollars (value : string) : string :=
  match value with
  | EmptyString => EmptyString
  | String c rest =>
      if Ascii.eqb c "$" then without_dollars rest
      else String c (without_dollars rest)
  end.

(** A value [set] takes: the empty one, or one that [before_set] lets
    through. *)
Definition settable (value : string) : bool :=
  Str.is_empty value || is_ok (ConfigParser.before_set value).

(** The environment section [load_project_ini_file] makes when the file
    has none: the variables in order, names lower-cased, dollars doubled. *)
Definition environment_section (os_environ : dict string) : dict string :=
  map (fun kv => (ConfigParser.optionxform (fst kv), double_dollars (snd kv)))
      os_environ.

(** An environment with two variables that differ by case only. *)
Definition twin_environ : dict string := [("Path", "/bin"); ("PATH", "/usr/bin")].

(** An environment that sets a proxy only. *)
Definition proxy_environ : dict string :=
  [("http_proxy", "http://proxy.from.env:8080")].

(** A reference to an option of another section, as extended
    interpolation writes it. *)
Definition reference (section option_name : string) : string :=
  "${" +++ section +++ ":" +++ option_name +++ "}".

(** ** The main block

    [get] and [getboolean] with a fallback, as the main block calls
    them, and the arguments it gives to [setup]. *)

(** [parser.get(section, option, fallback=...)]: [None] stands for the
    fallback, which is returned when the section or the option is
    missing; an error of the interpolation is raised all the same. *)
Definition get_fallback (parser : ConfigParser.t) (section option_name : string)
  : result (option string) :=
  match ConfigParser._unify_values parser section with
  | Raise NoSectionError => Ok None
  | Raise e => Raise e
  | Ok d =>
      match d (ConfigParser.optionxform option_name) with
      | None => Ok None
      | Some value =>
          value <- ConfigParser.before_get parser section value d ;;
          Ok (Some value)
      end
  end.

(** The value read, or the fallback given. *)
Definition or_fallback (fallback : string) (value : option string) : string :=
  match value with
  | Some v => v
  | None => fallback
  end.

(** [ConfigParser.BOOLEAN_STATES], looked up by [_convert_to_boolean]. *)
Definition BOOLEAN_STATES : dict bool :=
  [("1", true); ("yes", true); ("true", true); ("on", true);
   ("0", false); ("no", false); ("false", false); ("off", false)].

Definition _convert_to_boolean (value : string) : result bool :=
  match Dict.get (Str.lower value) BOOLEAN_STATES with
  | Some b => Ok b
  | None => Raise ValueError
  end.

(** [parser.getboolean(section, option, fallback=...)]: the fallback
    stands in for a missing section or option only. *)
Definition getboolean_fallback (parser : ConfigParser.t)
    (section option_name : string) (fallback : bool) : result bool :=
  match ConfigParser.get parser section option_name with
  | Ok value => _convert_to_boolean value
  | Raise NoSectionError => Ok fallback
  | Raise NoOptionError => Ok fallback
  | Raise e => Raise e
  end.

Module Setup.

(** The keyword arguments of the call of [setup]; for [cmdclass], the
    test command made by the factory. *)
Record t : Type := {
  name : option string;
  version : option string;
  author : option string;
  url : option string;
  author_email : option string;
  description : option string;
  long_description : string;
  long_description_content_type : string;
  license : option string;
  packages : list string;
  package_dir : dict string;
  package_data : dict (list string);
  include_package_data : bool;
  install_requires : list string;
  entry_points : option (dict (list string));
  test_command : TestCommand.t
}.

End Setup.

(** What the main block reads: the working directory and [sys.path], the
    package finder, the ini files, the environment and the other files. *)
Record Project : Type := {
  cwd : string;
  sys_path : list string;
  find_packages : string -> list string;
  ini_files : IniFiles;
  os_environ : dict string;
  project_files : Files
}.

(** The main block: [sys.path] as it leaves it, and the arguments it
    calls [setup] with, unless an exception stops it before the call. *)
Definition main (p : Project) : list string * result Setup.t :=
  let sys_path := configure_sys_path (cwd p) (sys_path p) in
  let pkgs := package_configuration (find_packages p) in
  (sys_path,
  cfg_parser <- load_project_ini_file (ini_files p) (os_environ p)
                  PROJECT_INI_FILE_PATH INIT_ENV_VAR_SECTION ;;
  name <- get_fallback cfg_parser INI_PROJECT_SECTION "name" ;;
  version <- get_fallback cfg_parser INI_PROJECT_SECTION "version" ;;
  author <- get_fallback cfg_parser INI_PROJECT_SECTION "author" ;;
  url <- get_fallback cfg_parser INI_PROJECT_SECTION "url" ;;
  author_email <- get_fallback cfg_parser INI_PROJECT_SECTION "email" ;;
  description <- get_fallback cfg_parser INI_PROJECT_SECTION "description" ;;
  long_description_file <-
    get_fallback cfg_parser INI_PROJECT_SECTION "long_description_file" ;;
  long_description <-
    read_file (project_files p)
      (or_fallback DEFAULT_LONG_DESCRIPTION_FILE long_description_file) ;;
  long_description_content_type <-
    get_fallback cfg_parser INI_PROJECT_SECTION "long_description_content_type" ;;
  license <- get_fallback cfg_parser INI_PROJECT_SECTION "license" ;;
  use_pipenv <- getboolean_fallback cfg_parser INI_PROJECT_SECTION "use_pipenv"
                  DEFAULT_USE_PIPENV ;;
  install_requires <- get_deps (project_files p) use_pipenv ;;
  entry_points <- load_entry_points cfg_parser INI_ENTRY_POINT_SECTION ;;
  test_file_pattern <-
    get_fallback cfg_parser INI_PROJECT_SECTION "test_file_pattern" ;;
  Ok {| Setup.name := name;
         Setup.version := version;
         Setup.author := author;
         Setup.url := url;
         Setup.author_email := author_email;
         Setup.description := description;
         Setup.long_description := long_description;
         Setup.long_description_content_type :=
           or_fallback DEFAULT_LONG_DESCRIPTION_CONTENT_TYPE
             long_description_content_type;
         Setup.license := license;
         Setup.packages := packages pkgs;
         Setup.package_dir := package_dir pkgs;
         Setup.package_data := [("", ["*"])];
         Setup.include_package_data := true;
         Setup.install_requires := install_requires;
         Setup.entry_points := entry_points;
         Setup.test_command :=
           test_command_class_factory TEST_SRC_FOLDER
             (or_fallback DEFAULT_TEST_FILE_PATTERN test_file_pattern) |}).

(** What the file gives for an option of the project section, its
    defaults included. *)
Definition project_value (parser : ConfigParser.t) (key : string) : option string :=
  match ConfigParser._unify_values parser INI_PROJECT_SECTION with
  | Ok d => d (ConfigParser.optionxform key)
  | Raise _ => None
  end.

(** A project with a read-me and a lock file, and no [project.ini]. *)
Definition bare_project : Project :=
  {| cwd := "/home/dev/project";
     sys_path := ["/usr/lib/python3"];
     find_packages := sample_packages;
     ini_files := fun _ => None;
     os_environ := sample_environ;
     project_files :=
       {| read_text := fun path =>
            if String.eqb path "README.md" then Some "# demo" else None;
          read_json := fun path =>
            if String.eqb path "Pipfile.lock"
            then Json (JObject [("default",
                                 JObject [("requests",
                                           JObject [("version", JString "==2.0")])])])
            else NoFile |} |}.

(** The same project with a [project.ini] that turns pipenv off, and a
    [requirements.txt]. *)
Definition requirements_project : Project :=
  {| cwd := cwd bare_project;
     sys_path := sys_path bare_project;
     find_packages := find_packages bare_project;
     ini_files := fun path =>
       if String.eqb path PROJECT_INI_FILE_PATH
       then Some {| ConfigParser._defaults := [];
                    ConfigParser._sections :=
                      [("PROJECT", [("name", "demo"); ("use_pipenv", "No")])] |}
       else None;
     os_environ := os_environ bare_project;
     project_files :=
       {| read_text := fun path =>
            if String.eqb path "README.md" then Some "# demo"
            else if String.eqb path "requirements.txt"
                 then Some (unlines ["flask>=1.0"]) else None;
          read_json := read_json (project_files bare_project) |} |}.

(** The same project with an answer for pipenv that is not a boolean. *)
Definition undecided_project : Project :=
  {| cwd := cwd bare_project;
     sys_path := sys_path bare_project;
     find_packages := find_packages bare_project;
     ini_files := fun path =>
       if String.eqb path PROJECT_INI_FILE_PATH
       then Some {| ConfigParser._defaults := [];
                    ConfigParser._sections := [("PROJECT", [("use_pipenv", "maybe")])] |}
       else None;
     os_environ := os_environ bare_project;
     project_files := project_files requirements_project |}.

(** The bare project without its read-me. *)
Definition undocumented_project : Project :=
  {| cwd := cwd bare_project;
     sys_path := sys_path bare_project;
     find_packages := find_packages bare_project;
     ini_files := ini_files bare_project;
     os_environ := os_environ bare_project;
     project_files :=
       {| read_text := fun _ => None;
          read_json := read_json (project_files bare_project) |} |}.

(** The bare project with the sample [project.ini], which declares entry
    points. *)
Definition entry_points_project : Project :=
  {| cwd := cwd bare_project;
     sys_path := sys_path bare_project;
     find_packages := find_packages bare_project;
     ini_files := sample_inis;
     os_environ := os_environ bare_project;
     project_files := project_files bare_project |}.

(** The directory of the package named by [segments] below the test
    sources: the components of the test source folder followed by the
    segments, joined by slashes. *)
Definition package_directory (self : TestCommand.t) (segments : list string)
  : string :=
  Path.to_string
    {| Path.root := Path.root (TestCommand.test_src_folder self);
       Path.names := Path.names (TestCommand.test_src_folder self) ++ segments |}.

(** The marker file of a classic package: [__init__.py] in the directory
    of the package. *)
Definition marker_file (self : TestCommand.t) (segments : list string) : string :=
  Path.to_string
    {| Path.root := Path.root (TestCommand.test_src_folder self);
       Path.names := Path.names (TestCommand.test_src_folder self)
                     ++ segments ++ ["__init__.py"] |}.

(** The packages, by their segments, whose marker file is missing. *)
Definition without_marker (env : TestEnv) (self : TestCommand.t)
    (pkgs : list (list string)) : list (list string) :=
  filter (fun segments => negb (env_is_file env (marker_file self segments))) pkgs.

(** Discovery scoped to a directory: the loader called with the directory
    as start and as top level, and the pattern of the command. *)
Definition scoped_discovery (env : TestEnv) (self : TestCommand.t)
    (directory : string) : result TestSuite :=
  env_discover env directory directory (TestCommand.test_file_pattern self).

(** A test root with the module [test_app.py], the classic package [core],
    the directories [ns] and [ns/deep] without [__init__.py], each with a
    test module, and the directory [empty] without [__init__.py], whose
    test module holds no test case; Python 3.10. *)
Definition layered_test_env : TestEnv :=
  {| env_find_namespace_packages := fun folder =>
       if String.eqb folder TEST_SRC_FOLDER
       then ["core"; "ns"; "ns.deep"; "empty"] else [];
     env_is_file := fun path =>
       String.eqb path (TEST_SRC_FOLDER +++ "/core/__init__.py");
     env_discover := fun start_dir _ _ =>
       if String.eqb start_dir TEST_SRC_FOLDER
       then Ok [Suite [Suite [TestCase "test_app.AppTest.test_main"]];
                Suite [Suite [TestCase "core.test_core.CoreTest.test_core"]]]
       else if String.eqb start_dir (TEST_SRC_FOLDER +++ "/ns")
       then Ok [Suite [Suite [TestCase "test_ns.NsTest.test_ns"]]]
       else if String.eqb start_dir (TEST_SRC_FOLDER +++ "/ns/deep")
       then Ok [Suite [Suite [TestCase "test_deep.DeepTest.test_deep"]]]
       else if String.eqb start_dir (TEST_SRC_FOLDER +++ "/empty")
       then Ok [Suite []]
       else Raise ImportError;
     env_run := fun _ => true;
     py_version := "3.10.4 (main, Jun 29 2022, 12:14:53) [GCC 11.2.0]" |}.

(** Whatever is at a path of [fs'] is at that path of [fs] too, as a
    directory or as a file alike: what removals lead to. *)
Definition only_removes (fs' fs : FS.t) : Prop :=
  forall names,
    kind_at fs' names = kind_at fs names \/ kind_at fs' names = None.

(** * Properties *)

Example replace_dollar : Str.replace "$" "$$" "a$b$$" = "a$$b$$$$".
Proof. reflexivity. Qed.

Example replace_dots : Str.replace "." "/" "a.b.c" = "a/b/c".
Proof. reflexivity. Qed.

Example replace_pairs : Str.replace "$$" "" "$$$a$$" = "$a".
Proof. reflexivity. Qed.

Example splitlines_blank :
  Str.splitlines (String Str.LF ("a" +++ String Str.LF (String Str.LF "b")))
  = [""; "a"; ""; "b"].
Proof. reflexivity. Qed.

Example splitlines_crlf :
  Str.splitlines ("a" +++ String Str.CR (String Str.LF "b") +++ String Str.LF "")
  = ["a"; "b"].
Proof. reflexivity. Qed.

Example split_version : Str.split "." "3.10.4 (main)" = Ok ["3"; "10"; "4 (main)"].
Proof. reflexivity. Qed.

Example lower_home : Str.lower "HOME_dir" = "home_dir".
Proof. reflexivity. Qed.

(** ** Dependency lister *)

Lemma mapM_lock_entries (entries : dict json) :
  forallb (fun e => detail_ok (snd e)) entries = true ->
  mapM (fun '(package, detail) =>
          version <- json_get detail "version" (JString "") ;;
          str_add package version) entries
  = Ok (map (fun e => fst e +++ recorded_version (snd e)) entries).
Proof.
  induction entries as [|[package detail] rest IH]; intros Hok.
  - reflexivity.
  - simpl in Hok. apply andb_true_iff in Hok as [Hd Hrest].
    simpl. rewrite (IH Hrest).
    destruct detail as [| | | | |fields]; try discriminate.
    simpl in *. destruct (Dict.get "version" fields) as [[| | |v| |]|];
      try discriminate; reflexivity.
Qed.

(** C5: in lock mode the dependency lister reads the [default] section of
    [Pipfile.lock] and returns, for each entry in order, the package name
    followed by its recorded version constraint (nothing when no version is
    recorded); for the lock file
    [{"default": {"requests": {"version": "==2.0"}}}] that is
    [["requests==2.0"]]. *)
Theorem get_deps_lock_mode (fs : Files) (top entries : dict json)
    (Hfile : read_json fs "Pipfile.lock" = Json (JObject top))
    (Hsection : Dict.get "default" top = Some (JObject entries))
    (Hdetails : forallb (fun e => detail_ok (snd e)) entries = true) :
  get_deps fs true
  = Ok (map (fun e => fst e +++ recorded_version (snd e)) entries)
  /\ (entries = [("requests", JObject [("version", JString "==2.0")])] ->
      get_deps fs true = Ok ["requests==2.0"]).
Proof.
  assert (Hgen : get_deps fs true
                 = Ok (map (fun e => fst e +++ recorded_version (snd e)) entries)).
  { unfold get_deps, get_deps_from_pipfile, json_load.
    rewrite Hfile. simpl. rewrite Hsection. simpl.
    apply mapM_lock_entries, Hdetails. }
  split; [exact Hgen|].
  intros ->. rewrite Hgen. reflexivity.
Qed.

Lemma get_deps_lock_mode_witness :
  get_deps
    (lock_only
       (JObject [("default",
                  JObject [("requests", JObject [("version", JString "==2.0")])])]))
    true
  = Ok ["requests==2.0"].
Proof.
  apply (get_deps_lock_mode
           (lock_only
              (JObject [("default",
                         JObject [("requests",
                                   JObject [("version", JString "==2.0")])])]))
           [("default",
             JObject [("requests", JObject [("version", JString "==2.0")])])]
           [("requests", JObject [("version", JString "==2.0")])]);
    reflexivity.
Defined.

(** C10: when the lock file parses to an object without a [default]
    section, the dependency lister returns the empty list and raises
    nothing. *)
Theorem get_deps_lock_without_default (fs : Files) (top : dict json)
    (Hfile : read_json fs "Pipfile.lock" = Json (JObject top))
    (Hmissing : Dict.get "default" top = None) :
  get_deps fs true = Ok [].
Proof.
  unfold get_deps, get_deps_from_pipfile, json_load.
  rewrite Hfile. simpl. rewrite Hmissing. reflexivity.
Qed.

Lemma get_deps_lock_without_default_witness :
  get_deps (lock_only (JObject [("develop", JObject [])])) true = Ok [].
Proof.
  apply (get_deps_lock_without_default
           (lock_only (JObject [("develop", JObject [])]))
           [("develop", JObject [])]);
    reflexivity.
Defined.

(** ** pathlib, the module search path *)

Example path_dot_build : Path.of_string "./build" = {| Path.root := ""; Path.names := ["build"] |}.
Proof. reflexivity. Qed.

Example path_absolute_src :
  layout_root "/home/dev/project" SRC_FOLDER = "/home/dev/project/src/main/python".
Proof. reflexivity. Qed.

Example path_to_packages_dir :
  to_packages_dir RESOURCES_FOLDER ["conf"; "conf.db"]
  = [("conf", "src/main/resources/conf"); ("conf.db", "src/main/resources/conf/db")].
Proof. reflexivity. Qed.

(** ** Dictionaries *)

Section DictFacts.
Context {V : Type}.

Lemma dict_get_set_same (k : string) (v : V) (d : dict V) :
  Dict.get k (Dict.set k v d) = Some v.
Proof.
  induction d as [|[k' v'] rest IH]; simpl.
  - now rewrite String.eqb_refl.
  - destruct (String.eqb k k') eqn:E; simpl; rewrite E; auto.
Qed.

Lemma dict_get_set_other (k k' : string) (v : V) (d : dict V) :
  k <> k' -> Dict.get k (Dict.set k' v d) = Dict.get k d.
Proof.
  intros Hne. induction d as [|[k0 v0] rest IH]; simpl.
  - destruct (String.eqb k k') eqn:E; auto.
    apply String.eqb_eq in E. contradiction.
  - destruct (String.eqb k' k0) eqn:E'; simpl.
    + apply String.eqb_eq in E'. subst k0.
      destruct (String.eqb k k') eqn:E; auto.
      apply String.eqb_eq in E. contradiction.
    + now rewrite IH.
Qed.

Lemma dict_get_update_absent (k : string) (other d : dict V) :
  ~ In k (Dict.keys other) ->
  Dict.get k (Dict.update d other) = Dict.get k d.
Proof.
  unfold Dict.update. revert d.
  induction other as [|[k' v'] rest IH]; intros d Hnot; simpl.
  - reflexivity.
  - rewrite IH.
    + apply dict_get_set_other. intros ->. apply Hnot. now left.
    + intros Hin. apply Hnot. now right.
Qed.

Lemma dict_get_update_last (k : string) (v : V) (other d : dict V) :
  Dict.get k other = Some v ->
  NoDup (Dict.keys other) ->
  Dict.get k (Dict.update d other) = Some v.
Proof.
  unfold Dict.update. revert d.
  induction other as [|[k' v'] rest IH]; intros d Hget Hnd; simpl in *.
  - discriminate.
  - inversion Hnd as [|? ? Hnotin Hnd']; subst.
    destruct (String.eqb k k') eqn:E.
    + apply String.eqb_eq in E. subst k'. injection Hget as ->.
      change (Dict.get k (Dict.update (Dict.set k v d) rest) = Some v).
      rewrite dict_get_update_absent by exact Hnotin.
      apply dict_get_set_same.
    + now apply IH.
Qed.

Lemma dict_get_in_keys (k : string) (v : V) (d : dict V) :
  Dict.get k d = Some v -> In k (Dict.keys d).
Proof.
  induction d as [|[k' v'] rest IH]; simpl; [discriminate|].
  destruct (String.eqb k k') eqn:E.
  - apply String.eqb_eq in E. now left.
  - intros H. right. now apply IH.
Qed.

Lemma dict_get_none_keys (k : string) (d : dict V) :
  ~ In k (Dict.keys d) -> Dict.get k d = None.
Proof.
  induction d as [|[k' v'] rest IH]; simpl; [reflexivity|].
  intros Hnot. destruct (String.eqb k k') eqn:E.
  - apply String.eqb_eq in E. exfalso. apply Hnot. now left.
  - apply IH. intros Hin. apply Hnot. now right.
Qed.

End DictFacts.

Lemma str_in_iff (x : string) (xs : list string) :
  str_in x xs = true <-> In x xs.
Proof.
  unfold str_in. rewrite existsb_exists. split.
  - intros [y [Hin Heq]]. apply String.eqb_eq in Heq. now subst.
  - intros Hin. exists x. split; [exact Hin | apply String.eqb_refl].
Qed.

(** ** The module search path *)

(** C2, as the code has it: the four layout roots are appended to
    [sys.path], after every entry that was there, in the order source,
    resource, test-source, test-resource. *)
Theorem sys_path_roots_appended (cwd : string) (sys_path : list string) :
  configure_sys_path cwd sys_path = sys_path ++ layout_roots cwd.
Proof.
  unfold configure_sys_path, list_append, layout_roots.
  repeat rewrite <- app_assoc. reflexivity.
Qed.

(** C2, as the spec has it, fails: with one entry on [sys.path] the result
    is not the four roots followed by that entry, and its first entry is
    the old one. *)
Lemma sys_path_roots_not_prepended :
  configure_sys_path "/project" ["/usr/lib/python3"]
    <> layout_roots "/project" ++ ["/usr/lib/python3"]
  /\ hd "" (configure_sys_path "/project" ["/usr/lib/python3"])
     = "/usr/lib/python3".
Proof.
  split; [discriminate | reflexivity].
Qed.

(** ** The package mapper *)

Lemma find_resources_packages_spec (fnp : string -> list string)
    (resources_folder : string) (excluded : list string) (pkg : string) :
  In pkg (find_resources_packages fnp resources_folder excluded)
  <-> In pkg (fnp resources_folder) /\ ~ In pkg excluded.
Proof.
  unfold find_resources_packages. rewrite filter_In, negb_true_iff.
  split; intros [Hin Hex]; split; try exact Hin.
  - intros Hmem. apply str_in_iff in Hmem. congruence.
  - destruct (str_in pkg excluded) eqn:E; [|reflexivity].
    apply str_in_iff in E. contradiction.
Qed.

Lemma to_packages_dir_keys (folder : string) (pkgs : list string) (name : string) :
  ~ In name pkgs -> Dict.get name (to_packages_dir folder pkgs) = None.
Proof.
  intros Hnot. unfold to_packages_dir, Dict.of_items.
  rewrite dict_get_update_absent; [reflexivity|].
  unfold Dict.keys. rewrite map_map. simpl. now rewrite map_id.
Qed.

(** C6: a dotted name discovered under both the sources root and the
    resources root is in the sources package set, and is neither in the
    resources packages nor a key of the resources package map; the
    resources packages are exactly the names discovered under the
    resources root that are not source packages. *)
Theorem resources_exclude_sources (find_namespace_packages : string -> list string)
    (sources_root resources_root name : string)
    (Hsrc : In name (find_namespace_packages sources_root))
    (Hres : In name (find_namespace_packages resources_root)) :
  let src_packages := find_namespace_packages sources_root in
  let resources_packages :=
    find_resources_packages find_namespace_packages resources_root src_packages in
  In name src_packages
  /\ ~ In name resources_packages
  /\ Dict.get name (to_packages_dir resources_root resources_packages) = None
  /\ resources_packages
     = filter (fun pkg => negb (str_in pkg src_packages))
              (find_namespace_packages resources_root)
  /\ (forall pkg, In pkg resources_packages
                  <-> In pkg (find_namespace_packages resources_root)
                      /\ ~ In pkg src_packages).
Proof.
  intros src_packages resources_packages.
  assert (Hnot : ~ In name resources_packages).
  { unfold resources_packages. rewrite find_resources_packages_spec.
    intros [_ Hex]. now apply Hex. }
  split; [exact Hsrc|]. split; [exact Hnot|].
  split; [now apply to_packages_dir_keys|].
  split; [reflexivity|].
  intros pkg. apply find_resources_packages_spec.
Qed.

Lemma resources_exclude_sources_witness :
  In "app" (sample_packages SRC_FOLDER)
  /\ ~ In "app" (find_resources_packages sample_packages RESOURCES_FOLDER
                   (sample_packages SRC_FOLDER))
  /\ find_resources_packages sample_packages RESOURCES_FOLDER
       (sample_packages SRC_FOLDER) = ["conf"].
Proof.
  pose proof (resources_exclude_sources sample_packages
                SRC_FOLDER RESOURCES_FOLDER "app") as H.
  simpl in H.
  destruct H as [H1 [H2 _]].
  - now left.
  - now left.
  - repeat split; [exact H1 | exact H2].
Defined.

(** The same for the package arguments of the main block. *)
Lemma package_configuration_excludes (fnp : string -> list string) (name : string) :
  In name (fnp SRC_FOLDER) ->
  In name (fnp RESOURCES_FOLDER) ->
  In name (src_packages (package_configuration fnp))
  /\ ~ In name (resources_packages (package_configuration fnp))
  /\ Dict.get name (resources_packages_dir (package_configuration fnp)) = None.
Proof.
  intros Hs Hr. simpl.
  assert (Hnot : ~ In name (find_resources_packages fnp RESOURCES_FOLDER
                              (fnp SRC_FOLDER))).
  { rewrite find_resources_packages_spec. intros [_ Hex]. now apply Hex. }
  repeat split; [exact Hs | exact Hnot | now apply to_packages_dir_keys].
Qed.

(** ** The clean command *)

Example fnmatch_egg_info :
  FS.fnmatch "*.egg-info" "app.egg-info" = true
  /\ FS.fnmatch "*.egg-info" ".egg-info" = true
  /\ FS.fnmatch "*.egg-info" "app.egg-info.bak" = false.
Proof. repeat split. Qed.

Example clean_built_project :
  CleanCommand.run (CleanCommand.finalize_options CleanCommand.create)
    {| files := built_project; stdout := [] |}
  = Ok {| files := [("src", Dir [("main", Dir [("python", Dir [("app", Dir [("main.py", File)])])])]);
                    ("notes.egg-info", File)];
          stdout := ["Running clean command...";
                     " |- Remove build directory";
                     " |- Remove dist directory";
                     " |- Remove old.egg-info directory";
                     " |- Remove src/main/python/app.egg-info directory";
                     "Clean command done"] |}.
Proof. reflexivity. Qed.

Lemma dict_get_remove_same {V : Type} (k : string) (d : dict V) :
  Dict.get k (Dict.remove k d) = None.
Proof.
  induction d as [|[k' v'] rest IH]; simpl; [reflexivity|].
  destruct (String.eqb k k') eqn:E; simpl; [exact IH|].
  now rewrite E.
Qed.

Lemma dict_get_remove_other {V : Type} (k k' : string) (d : dict V) :
  k <> k' -> Dict.get k (Dict.remove k' d) = Dict.get k d.
Proof.
  intros Hne. induction d as [|[k0 v0] rest IH]; simpl; [reflexivity|].
  destruct (String.eqb k' k0) eqn:E; simpl.
  - apply String.eqb_eq in E. subst k0.
    destruct (String.eqb k k') eqn:E'; [|exact IH].
    apply String.eqb_eq in E'. contradiction.
  - now rewrite IH.
Qed.

Lemma dict_get_In {V : Type} (k : string) (v : V) (d : dict V) :
  Dict.get k d = Some v -> In (k, v) d.
Proof.
  induction d as [|[k' v'] rest IH]; simpl; [discriminate|].
  destruct (String.eqb k k') eqn:E.
  - apply String.eqb_eq in E. intros [= ->]. left. now subst.
  - intros H. right. now apply IH.
Qed.

Lemma is_dir_names_cons (fs : FS.t) (x : string) (names : list string) :
  FS.is_dir_names fs (x :: names)
  = match Dict.get x fs with
    | Some (Dir children) => FS.is_dir_names children names
    | _ => false
    end.
Proof.
  unfold FS.is_dir_names. simpl.
  destruct (Dict.get x fs) as [[|children]|]; try reflexivity.
  destruct names; reflexivity.
Qed.

Lemma fs_le_refl (fs : FS.t) : fs_le fs fs.
Proof. intros names H. exact H. Qed.

Lemma fs_le_trans (a b c : FS.t) : fs_le a b -> fs_le b c -> fs_le a c.
Proof. intros Hab Hbc names H. apply Hbc, Hab, H. Qed.

Lemma rmtree_names_shrinks (names : list string) :
  forall entries entries',
    FS.rmtree_names names entries = Ok entries' ->
    fs_le entries' entries /\ FS.is_dir_names entries' names = false.
Proof.
  induction names as [|x rest IH]; intros entries entries' Hrm; simpl in Hrm.
  - discriminate.
  - destruct (Dict.get x entries) as [[|children]|] eqn:Hx; try discriminate.
    destruct rest as [|y rest'].
    + injection Hrm as <-. split.
      * intros [|z q] Hq; [reflexivity|].
        rewrite is_dir_names_cons in Hq |- *.
        destruct (String.eqb z x) eqn:E.
        -- apply String.eqb_eq in E. subst z.
           now rewrite dict_get_remove_same in Hq.
        -- apply String.eqb_neq in E.
           now rewrite dict_get_remove_other in Hq by exact E.
      * rewrite is_dir_names_cons. now rewrite dict_get_remove_same.
    + destruct (FS.rmtree_names (y :: rest') children) as [children'|] eqn:Hin;
        simpl in Hrm; [|discriminate].
      injection Hrm as <-.
      destruct (IH _ _ Hin) as [Hle Hgone]. split.
      * intros [|z q] Hq; [reflexivity|].
        rewrite is_dir_names_cons in Hq |- *.
        destruct (String.eqb z x) eqn:E.
        -- apply String.eqb_eq in E. subst z.
           rewrite dict_get_set_same in Hq. rewrite Hx. now apply Hle.
        -- apply String.eqb_neq in E.
           now rewrite dict_get_set_other in Hq by exact E.
      * rewrite is_dir_names_cons, dict_get_set_same. exact Hgone.
Qed.

Lemma rmtree_names_ok (names : list string) :
  forall entries,
    names <> [] ->
    FS.is_dir_names entries names = true ->
    exists entries', FS.rmtree_names names entries = Ok entries'.
Proof.
  induction names as [|x rest IH]; intros entries Hne Hdir.
  - contradiction.
  - rewrite is_dir_names_cons in Hdir. simpl.
    destruct (Dict.get x entries) as [[|children]|]; try discriminate.
    destruct rest as [|y rest'].
    + eexists. reflexivity.
    + destruct (IH children) as [children' Hc]; [discriminate | exact Hdir |].
      rewrite Hc. simpl. eexists. reflexivity.
Qed.

Lemma rglob_names_selected (sel : string -> bool) (n : node) :
  forall names, In names (FS.rglob_names sel n) ->
    exists parent name, names = parent ++ [name] /\ sel name = true.
Proof.
  induction n as [|entries IH] using node_induction; intros names Hin.
  - contradiction.
  - simpl in Hin. apply in_app_or in Hin as [Hin|Hin].
    + apply in_map_iff in Hin as [e [<- He]].
      apply filter_In in He as [_ Hsel].
      exists [], (fst e). now split.
    + apply in_flat_map in Hin as [e [He Hin]].
      apply in_map_iff in Hin as [rest [<- Hrest]].
      rewrite Forall_forall in IH.
      destruct (IH e He rest Hrest) as [parent [name [-> Hsel]]].
      exists (fst e :: parent), name. now split.
Qed.

Lemma rglob_names_complete (sel : string -> bool) (parent : list string) :
  forall (fs : FS.t) (name : string),
    sel name = true ->
    FS.is_dir_names fs (parent ++ [name]) = true ->
    In (parent ++ [name]) (FS.rglob_names sel (Dir fs)).
Proof.
  induction parent as [|x rest IH]; intros fs name Hsel Hdir; simpl in *.
  - apply in_or_app. left.
    rewrite is_dir_names_cons in Hdir.
    destruct (Dict.get name fs) as [[|children]|] eqn:Hget; try discriminate.
    apply dict_get_In in Hget.
    apply in_map_iff. exists (name, Dir children). split; [reflexivity|].
    apply filter_In. now split.
  - apply in_or_app. right.
    rewrite is_dir_names_cons in Hdir.
    destruct (Dict.get x fs) as [[|children]|] eqn:Hget; try discriminate.
    apply dict_get_In in Hget.
    apply in_flat_map. exists (x, Dir children). split; [exact Hget|].
    simpl. apply in_map. now apply IH.
Qed.

Lemma rmdir_if_exists_spec (dir_path : Path.t) (w : World) :
  Path.names dir_path <> [] ->
  exists w',
    CleanCommand._rmdir_if_exists dir_path w = Ok w'
    /\ fs_le (files w') (files w)
    /\ FS.is_dir (files w') dir_path = false.
Proof.
  intros Hne. unfold CleanCommand._rmdir_if_exists.
  destruct (FS.is_dir (files w) dir_path) eqn:Hdir.
  - unfold FS.is_dir in Hdir.
    destruct (rmtree_names_ok _ (files w) Hne Hdir) as [fs' Hrm].
    unfold FS.rmtree. simpl. rewrite Hrm. simpl.
    destruct (rmtree_names_shrinks _ _ _ Hrm) as [Hle Hgone].
    eexists. split; [reflexivity|]. now split.
  - exists w. split; [reflexivity|]. split; [apply fs_le_refl | exact Hdir].
Qed.


Lemma fs_le_not_dir (fs' fs : FS.t) (dir_path : Path.t) :
  fs_le fs' fs -> FS.is_dir fs dir_path = false -> FS.is_dir fs' dir_path = false.
Proof.
  intros Hle Hnot. unfold FS.is_dir in *.
  destruct (FS.is_dir_names fs' (Path.names dir_path)) eqn:E; [|reflexivity].
  apply Hle in E. congruence.
Qed.

Lemma for_each_rmdir_spec (paths : list Path.t) :
  forall w,
    (forall p, In p paths -> Path.names p <> []) ->
    exists w',
      for_each paths CleanCommand._rmdir_if_exists w = Ok w'
      /\ fs_le (files w') (files w)
      /\ forall p, In p paths -> FS.is_dir (files w') p = false.
Proof.
  induction paths as [|p rest IH]; intros w Hne; simpl.
  - exists w. split; [reflexivity|]. split; [apply fs_le_refl|]. contradiction.
  - destruct (rmdir_if_exists_spec p w) as [w1 [Hstep [Hle1 Hgone1]]].
    { apply Hne. now left. }
    rewrite Hstep. simpl.
    destruct (IH w1) as [w' [Hrest [Hle Hgone]]].
    { intros q Hq. apply Hne. now right. }
    exists w'. split; [exact Hrest|]. split.
    + eapply fs_le_trans; eassumption.
    + intros q [<-|Hq]; [|now apply Hgone].
      eapply fs_le_not_dir; eassumption.
Qed.







(** The three removals of [run], between its two messages. *)
Lemma clean_run_unfold (self : CleanCommand.t) (w : World) :
  CleanCommand.run self w
  = w' <- (w1 <- (if CleanCommand.build self
                  then CleanCommand._rmdir_if_exists CleanCommand.BUILD_PATH
                         (print "Running clean command..." w)
                  else Ok (print "Running clean command..." w)) ;;
           w2 <- (if CleanCommand.dist self
                  then CleanCommand._rmdir_if_exists CleanCommand.DIST_PATH w1
                  else Ok w1) ;;
           (if CleanCommand.egg_info self
            then for_each (FS.rglob (files w2) CleanCommand.EGG_INFO_PATTERN)
                   CleanCommand._rmdir_if_exists w2
            else Ok w2)) ;;
    Ok (print "Clean command done" w').
Proof.
  unfold CleanCommand.run.
  destruct (if CleanCommand.build self then _ else _) as [w1|]; simpl; [|reflexivity].
  destruct (if CleanCommand.dist self then _ else _) as [w2|]; simpl; reflexivity.
Qed.


(** C8: the clean command with no flag set and the clean command with
    [all] set (whatever the other flags) are the same command after
    [finalize_options]: the four flags are on, so that [run] removes
    [build], [dist] and the egg-info directories, and does the same on
    every file system. *)
Theorem clean_default_is_all :
  let no_flag := CleanCommand.finalize_options CleanCommand.create in
  (forall build dist egg_info,
      CleanCommand.finalize_options
        {| CleanCommand.build := build; CleanCommand.dist := dist;
           CleanCommand.egg_info := egg_info; CleanCommand.all := true |}
      = no_flag)
  /\ CleanCommand.build no_flag = true
  /\ CleanCommand.dist no_flag = true
  /\ CleanCommand.egg_info no_flag = true
  /\ forall build dist egg_info w,
      CleanCommand.run no_flag w
      = CleanCommand.run
          (CleanCommand.finalize_options
             {| CleanCommand.build := build; CleanCommand.dist := dist;
                CleanCommand.egg_info := egg_info; CleanCommand.all := true |}) w.
Proof.
  assert (Hall : forall build dist egg_info,
             CleanCommand.finalize_options
               {| CleanCommand.build := build; CleanCommand.dist := dist;
                  CleanCommand.egg_info := egg_info; CleanCommand.all := true |}
             = CleanCommand.finalize_options CleanCommand.create).
  { intros [] [] []; reflexivity. }
  cbv zeta. split; [exact Hall|].
  repeat (split; [reflexivity|]).
  intros build dist egg_info w. now rewrite Hall.
Qed.


(** ** The test command *)

Example int_literals :
  Str.int "10" = Ok 10%Z /\ Str.int " 3 " = Ok 3%Z /\ Str.int "1_0" = Ok 10%Z
  /\ Str.int "-7" = Ok (-7)%Z /\ Str.int "4 (main)" = Raise ValueError
  /\ Str.int "" = Raise ValueError
  /\ Str.int (String (ascii_of_nat 28) "3") = Raise ValueError
  /\ Str.int (String "3" (String (ascii_of_nat 31) "")) = Raise ValueError
  /\ Str.int (String (ascii_of_nat 160) "3") = Ok 3%Z
  /\ Str.int "+ 3" = Raise ValueError /\ Str.int "3__0" = Raise ValueError
  /\ Str.int "_3" = Raise ValueError /\ Str.int "3_" = Raise ValueError
  /\ Str.int "007" = Ok 7%Z.
Proof. repeat split. Qed.

Example sample_test_run :
  TestCommand.run sample_test_env
    (test_command_class_factory TEST_SRC_FOLDER DEFAULT_TEST_FILE_PATTERN)
  = Ok {| suite := [Suite [Suite [TestCase "test_app.AppTest.test_main"]];
                    Suite [Suite [TestCase "test_ns.NsTest.test_ns"]]];
          discovered := ["src/test/python"; "src/test/python/ns"];
          stderr := [] |}.
Proof. reflexivity. Qed.

Lemma addTests_app (suite tests : TestSuite) : addTests suite tests = suite ++ tests.
Proof.
  unfold addTests. revert suite.
  induction tests as [|t rest IH]; intros suite; simpl.
  - now rewrite app_nil_r.
  - rewrite IH, <- app_assoc. reflexivity.
Qed.

Lemma countTest_cases (t : Test) : countTest t = List.length (casesTest t).
Proof.
  revert t. fix IH 1. intros [id|tests]; simpl; [reflexivity|].
  induction tests as [|t rest IHrest]; simpl; [reflexivity|].
  rewrite length_app, IH, IHrest. reflexivity.
Qed.

Lemma countTestCases_cases (suite : TestSuite) :
  countTestCases suite = List.length (cases suite).
Proof.
  unfold countTestCases, cases.
  induction suite as [|t rest IH]; simpl; [reflexivity|].
  rewrite length_app, countTest_cases, IH. reflexivity.
Qed.

Lemma cases_app (a b : TestSuite) : cases (a ++ b) = cases a ++ cases b.
Proof. unfold cases. apply flat_map_app. Qed.

Lemma version_warning_keeps (env : TestEnv) (pkg : string) (r r' : TestRun) :
  TestCommand._namespace_pkg_workaround_version_warning env pkg r = Ok r' ->
  suite r' = suite r /\ discovered r' = discovered r.
Proof.
  unfold TestCommand._namespace_pkg_workaround_version_warning.
  destruct (Str.split "." (py_version env)) as [[|first others]|]; simpl;
    try discriminate.
  - intros [= <-]. now split.
  - destruct (Str.int first) as [major|]; simpl; [|discriminate].
    destruct (match others with [] => Ok 0%Z | second :: _ => Str.int second end)
      as [minor|]; simpl; [|discriminate].
    destruct ((3 <? major)%Z || ((major =? 3)%Z && (11 <=? minor)%Z));
      intros [= <-]; now split.
Qed.

(** What the loop of the workaround does, package by package. *)
Lemma workaround_loop (env : TestEnv) (self : TestCommand.t) (pkgs : list string) :
  forall r r',
    for_each pkgs
      (fun pkg r =>
         if TestCommand.lacks_init env self pkg then
           r <- TestCommand._namespace_pkg_workaround_version_warning env pkg r ;;
           '(namespace_suite, r) <-
              TestCommand._discover env self (Some (TestCommand.pkg_path self pkg)) r ;;
           if Nat.ltb 0 (countTestCases namespace_suite)
           then Ok {| suite := addTests (suite r) namespace_suite;
                      discovered := discovered r; stderr := stderr r |}
           else Ok r
         else Ok r)
      r = Ok r' ->
    discovered r'
    = discovered r
      ++ map (fun pkg => Path.as_posix (TestCommand.pkg_path self pkg))
           (filter (TestCommand.lacks_init env self) pkgs)
    /\ exists found,
        mapM (discover_in env self) (filter (TestCommand.lacks_init env self) pkgs)
        = Ok found
        /\ suite r'
           = suite r
             ++ concat (filter (fun ns => Nat.ltb 0 (countTestCases ns)) found).
Proof.
  induction pkgs as [|pkg rest IH]; intros r r' Hrun; simpl in Hrun.
  - injection Hrun as <-. simpl. rewrite app_nil_r. split; [reflexivity|].
    exists []. split; [reflexivity|]. simpl. now rewrite app_nil_r.
  - simpl. destruct (TestCommand.lacks_init env self pkg) eqn:Hlacks.
    + destruct (TestCommand._namespace_pkg_workaround_version_warning env pkg r)
        as [r1|] eqn:Hwarn; simpl in Hrun; [|discriminate].
      apply version_warning_keeps in Hwarn as [Hs1 Hd1].
      unfold TestCommand._discover in Hrun.
      fold (discover_in env self pkg) in Hrun.
      destruct (discover_in env self pkg) as [ns|] eqn:Hns; simpl in Hrun;
        [|discriminate].
      simpl. rewrite Hns. simpl.
      destruct (Nat.ltb 0 (countTestCases ns)) eqn:Hcount; simpl in Hrun;
        apply IH in Hrun as [Hd [found [Hfound Hs]]]; simpl in Hd, Hs;
        rewrite Hfound; simpl; (split; [rewrite Hd, Hd1, <- app_assoc; reflexivity|]);
        exists (ns :: found); (split; [reflexivity|]); simpl; rewrite Hcount, Hs.
      * simpl. rewrite addTests_app, Hs1, <- app_assoc. reflexivity.
      * now rewrite Hs1.
    + simpl in Hrun. now apply IH.
Qed.

(** ** configparser *)

Example sample_load :
  exists cfg,
    load_project_ini_file sample_inis sample_environ PROJECT_INI_FILE_PATH
      INIT_ENV_VAR_SECTION = Ok cfg
    /\ Dict.get "ENV" (ConfigParser._sections cfg)
       = Some [("http_proxy", "http://proxy.from.env:8080");
               ("home", "/home/dev"); ("ps1", "\u$$ ")]
    /\ ConfigParser.get cfg "PROJECT" "home" = Ok "/home/dev/demo"
    /\ ConfigParser.get cfg "ENV" "PS1" = Ok "\u$ ".
Proof. eexists. repeat split. Qed.

(** ** The environment snapshot *)

#[local] Arguments Ascii.eqb : simpl never.
#[local] Arguments String.eqb : simpl never.

Lemma replace_from_dollar (v : string) :
  forall fuel, String.length v <= fuel ->
    Str.replace_from fuel "$" "$$" v = double_dollars v.
Proof.
  induction v as [|c r IH]; intros fuel Hfuel.
  - destruct fuel; reflexivity.
  - destruct fuel as [|fuel']; simpl in Hfuel; [lia|].
    simpl. rewrite Ascii.eqb_sym.
    destruct (Ascii.eqb c "$") eqn:E; simpl; rewrite IH by lia; reflexivity.
Qed.

Lemma replace_dollar_doubles (v : string) :
  Str.replace "$" "$$" v = double_dollars v.
Proof.
  unfold Str.replace. simpl. now apply replace_from_dollar.
Qed.

Lemma break_at_doubled (v : string) :
  exists plain tail,
    v = plain +++ tail
    /\ Str.break_at "$" (double_dollars v) = (plain, double_dollars tail)
    /\ (tail = "" \/ exists tail', tail = String "$" tail').
Proof.
  induction v as [|c r [plain [tail [Hv [Hbreak Htail]]]]].
  - exists "", "". repeat split. now left.
  - destruct (Ascii.eqb c "$") eqn:E.
    + apply Ascii.eqb_eq in E. subst c.
      exists "", (String "$" r). repeat split. right. now exists r.
    + exists (String c plain), tail. split; [simpl; now rewrite Hv|].
      split; [|exact Htail].
      simpl. rewrite E. simpl. rewrite Ascii.eqb_sym, E, Hbreak. reflexivity.
Qed.

Lemma length_double_dollars (v : string) :
  String.length v <= String.length (double_dollars v).
Proof.
  induction v as [|c r IH]; simpl; [lia|].
  destruct (Ascii.eqb c "$"); simpl; lia.
Qed.

Lemma string_length_append (a b : string) :
  String.length (a +++ b) = String.length a + String.length b.
Proof. induction a as [|c a IH]; simpl; [reflexivity | now rewrite IH]. Qed.

Lemma string_append_empty (a : string) : a +++ "" = a.
Proof. induction a as [|c a IH]; simpl; [reflexivity | now rewrite IH]. Qed.

Lemma double_dollars_append (a b : string) :
  double_dollars (a +++ b) = double_dollars a +++ double_dollars b.
Proof.
  induction a as [|c a IH]; simpl; [reflexivity|].
  destruct (Ascii.eqb c "$"); simpl; now rewrite IH.
Qed.

(** The interpolation loop reads a doubled value back, whatever the parser
    and the section hold. *)
Lemma interpolate_loop_doubled
    (deeper : string -> string -> (string -> option string) -> result string)
    (parser : ConfigParser.t) (section : string) (map : string -> option string) :
  forall fuel v,
    String.length (double_dollars v) <= fuel ->
    ConfigParser._interpolate_loop deeper parser section map fuel (double_dollars v)
    = Ok v.
Proof.
  induction fuel as [|fuel IH]; intros v Hfuel.
  - pose proof (length_double_dollars v).
    destruct v; [reflexivity | simpl in *; lia].
  - destruct (break_at_doubled v) as [plain [tail [Hv [Hbreak Htail]]]].
    cbn [ConfigParser._interpolate_loop]. rewrite Hbreak.
    destruct Htail as [->|[tail' ->]].
    + simpl. rewrite Hv. now rewrite string_append_empty.
    + cbn [double_dollars]. rewrite Ascii.eqb_refl.
      rewrite IH.
      * simpl. now rewrite Hv.
      * rewrite Hv, double_dollars_append, string_length_append in Hfuel.
        cbn [double_dollars] in Hfuel. rewrite Ascii.eqb_refl in Hfuel.
        simpl in Hfuel. lia.
Qed.

Lemma before_get_doubled (parser : ConfigParser.t) (section v : string)
    (map : string -> option string) :
  ConfigParser.before_get parser section (double_dollars v) map = Ok v.
Proof.
  unfold ConfigParser.before_get. simpl.
  now apply interpolate_loop_doubled.
Qed.

Lemma dict_set_keys {V : Type} (k : string) (v : V) (d : dict V) :
  Dict.keys (Dict.set k v d)
  = if Dict.mem k d then Dict.keys d else Dict.keys d ++ [k].
Proof.
  unfold Dict.mem. induction d as [|[k' v'] rest IH]; simpl; [reflexivity|].
  destruct (String.eqb k k') eqn:E; simpl; [reflexivity|].
  rewrite IH. now destruct (Dict.get k rest).
Qed.

Lemma dict_get_none_not_in {V : Type} (k : string) (d : dict V) :
  Dict.get k d = None -> ~ In k (Dict.keys d).
Proof.
  induction d as [|[k' v'] rest IH]; simpl; [tauto|].
  destruct (String.eqb k k') eqn:E; [discriminate|].
  apply String.eqb_neq in E. intros Hnone [Heq|Hin]; [congruence|].
  now apply IH.
Qed.

Lemma dict_set_nodup {V : Type} (k : string) (v : V) (d : dict V) :
  NoDup (Dict.keys d) -> NoDup (Dict.keys (Dict.set k v d)).
Proof.
  intros Hnd. rewrite dict_set_keys. unfold Dict.mem.
  destruct (Dict.get k d) eqn:Hget; [exact Hnd|].
  apply dict_get_none_not_in in Hget.
  apply NoDup_app; [exact Hnd | repeat constructor; intros [] | ].
  intros x Hx [Heq|[]]. subst x. contradiction.
Qed.

Lemma dict_update_nodup {V : Type} (other d : dict V) :
  NoDup (Dict.keys d) -> NoDup (Dict.keys (Dict.update d other)).
Proof.
  unfold Dict.update. revert d.
  induction other as [|[k v] rest IH]; intros d Hnd; simpl; [exact Hnd|].
  apply IH. now apply dict_set_nodup.
Qed.

Lemma dict_get_map_values {V W : Type} (f : V -> W) (k : string) (d : dict V) :
  Dict.get k (map (fun kv => (fst kv, f (snd kv))) d)
  = option_map f (Dict.get k d).
Proof.
  induction d as [|[k' v'] rest IH]; simpl; [reflexivity|].
  destruct (String.eqb k k'); [reflexivity | exact IH].
Qed.

Lemma dict_of_items_get {V : Type} (k : string) (v : V) (items : list (string * V)) :
  NoDup (Dict.keys items) ->
  Dict.get k items = Some v ->
  Dict.get k (Dict.of_items items) = Some v.
Proof.
  intros Hnd Hget. unfold Dict.of_items. now apply dict_get_update_last.
Qed.

Lemma esc_env_vars_get (os_environ : dict string) (name value : string) :
  NoDup (Dict.keys os_environ) ->
  Dict.get name os_environ = Some value ->
  Dict.get name (esc_env_vars os_environ) = Some (double_dollars value).
Proof.
  intros Hnd Hget. unfold esc_env_vars. apply dict_of_items_get.
  - unfold Dict.keys. rewrite map_map. exact Hnd.
  - rewrite dict_get_map_values, Hget. simpl.
    now rewrite replace_dollar_doubles.
Qed.

(** C4: for a variable of the environment, the snapshot holds the value
    with every dollar doubled, and the interpolation of the doubled value
    is the value itself, in every parser and section. *)
Theorem env_snapshot_round_trip (os_environ : dict string) (name value : string)
    (Hkeys : NoDup (Dict.keys os_environ))
    (Hvar : Dict.get name os_environ = Some value) :
  Dict.get name (esc_env_vars os_environ) = Some (Str.replace "$" "$$" value)
  /\ Str.replace "$" "$$" value = double_dollars value
  /\ forall parser section map,
      ConfigParser.before_get parser section (Str.replace "$" "$$" value) map
      = Ok value.
Proof.
  rewrite replace_dollar_doubles.
  split; [now apply esc_env_vars_get|].
  split; [reflexivity|].
  intros parser section map. apply before_get_doubled.
Qed.

Lemma env_snapshot_round_trip_witness :
  Dict.get "PS1" (esc_env_vars sample_environ) = Some "\u$$ "
  /\ ConfigParser.before_get sample_ini "ENV" "\u$$ "
       (fun name => Dict.get name (esc_env_vars sample_environ))
     = Ok "\u$ ".
Proof.
  destruct (env_snapshot_round_trip sample_environ "PS1" "\u$ ") as [Hget [_ Hback]].
  - repeat constructor; simpl; intuition discriminate.
  - reflexivity.
  - split; [exact Hget|]. apply Hback.
Defined.

(** ** The configuration resolver *)

Lemma lower_char_idempotent (c : ascii) :
  Str.lower_char (Str.lower_char c) = Str.lower_char c.
Proof.
  destruct c as [[] [] [] [] [] [] [] []]; vm_compute; reflexivity.
Qed.

Lemma optionxform_idempotent (name : string) :
  ConfigParser.optionxform (ConfigParser.optionxform name)
  = ConfigParser.optionxform name.
Proof.
  unfold ConfigParser.optionxform.
  induction name as [|c r IH]; simpl; [reflexivity|].
  now rewrite lower_char_idempotent, IH.
Qed.

(** A section name other than the empty one and [DEFAULT]. *)
Lemma regular_section (section : string) :
  section <> "" -> section <> ConfigParser.default_section ->
  Str.is_empty section || String.eqb section ConfigParser.default_section = false.
Proof.
  intros Hne Hnd. apply orb_false_iff. split.
  - destruct section; [contradiction | reflexivity].
  - now apply String.eqb_neq.
Qed.

Lemma set_stores (parser parser' : ConfigParser.t) (section key value : string) :
  section <> "" -> section <> ConfigParser.default_section ->
  ConfigParser.set parser section key value = Ok parser' ->
  stored parser' section (ConfigParser.optionxform key) = Some value
  /\ forall name, name <> ConfigParser.optionxform key ->
       stored parser' section name = stored parser section name.
Proof.
  intros Hne Hnd. unfold ConfigParser.set.
  destruct (if Str.is_empty value then Ok value else ConfigParser.before_set value)
    as [r|] eqn:Hr; simpl; [|discriminate].
  assert (Hvalue : r = value).
  { destruct (Str.is_empty value); [now injection Hr|].
    unfold ConfigParser.before_set in Hr.
    destruct (Str.contains _ _); [discriminate | now injection Hr]. }
  subst r.
  rewrite regular_section by assumption.
  unfold stored.
  destruct (Dict.get section (ConfigParser._sections parser)) as [sectdict|] eqn:Hs;
    [|discriminate].
  intros [= <-]. simpl. rewrite dict_get_set_same. split.
  - apply dict_get_set_same.
  - intros name Hname. now apply dict_get_set_other.
Qed.

Lemma added_cons (e e' : ConfigParser.element) (elements : list ConfigParser.element) :
  ConfigParser.added e elements = true ->
  ConfigParser.added e (e' :: elements) = true.
Proof.
  unfold ConfigParser.added. simpl. intros ->. apply orb_true_r.
Qed.

Lemma added_head (e : ConfigParser.element) (elements : list ConfigParser.element) :
  ConfigParser.added e (e :: elements) = true.
Proof.
  unfold ConfigParser.added, ConfigParser.element_eqb. simpl.
  rewrite String.eqb_refl. destruct (snd e); [rewrite String.eqb_refl|]; reflexivity.
Qed.

(** An option [read_dict] has added keeps its value to the end of the
    loop: a second assignment to it would raise. *)
Lemma read_keys_keeps (section : string) (keys : dict string) :
  section <> "" -> section <> ConfigParser.default_section ->
  forall parser elements parser' elements' name,
    ConfigParser.read_keys section keys (parser, elements) = Ok (parser', elements') ->
    ConfigParser.added (section, Some name) elements = true ->
    stored parser' section name = stored parser section name.
Proof.
  intros Hne Hnd.
  induction keys as [|[key value] rest IH];
    intros parser elements parser' elements' name Hrun Hadded.
  - now injection Hrun as <- <-.
  - unfold ConfigParser.read_keys in Hrun. simpl in Hrun.
    destruct (ConfigParser.added (section, Some (ConfigParser.optionxform key)) elements)
      eqn:Hkey; [discriminate|].
    destruct (ConfigParser.set parser section (ConfigParser.optionxform key) value)
      as [parser1|] eqn:Hset; simpl in Hrun; [|discriminate].
    fold (ConfigParser.read_keys section rest
            (parser1, (section, Some (ConfigParser.optionxform key)) :: elements))
      in Hrun.
    rewrite (IH _ _ _ _ name Hrun) by now apply added_cons.
    destruct (set_stores _ _ _ _ _ Hne Hnd Hset) as [_ Hother].
    apply Hother. rewrite optionxform_idempotent. intros ->. congruence.
Qed.

(** Every item [read_dict] reads is stored under its lower-cased key. *)
Lemma read_keys_stores (section : string) (keys : dict string) :
  section <> "" -> section <> ConfigParser.default_section ->
  forall parser elements parser' elements' key value,
    ConfigParser.read_keys section keys (parser, elements) = Ok (parser', elements') ->
    In (key, value) keys ->
    stored parser' section (ConfigParser.optionxform key) = Some value.
Proof.
  intros Hne Hnd.
  induction keys as [|[key0 value0] rest IH];
    intros parser elements parser' elements' key value Hrun Hin.
  - contradiction.
  - unfold ConfigParser.read_keys in Hrun. simpl in Hrun.
    destruct (ConfigParser.added (section, Some (ConfigParser.optionxform key0)) elements)
      eqn:Hkey; [discriminate|].
    destruct (ConfigParser.set parser section (ConfigParser.optionxform key0) value0)
      as [parser1|] eqn:Hset; simpl in Hrun; [|discriminate].
    fold (ConfigParser.read_keys section rest
            (parser1, (section, Some (ConfigParser.optionxform key0)) :: elements))
      in Hrun.
    destruct Hin as [[= -> ->]|Hin].
    + rewrite (read_keys_keeps _ _ Hne Hnd _ _ _ _ _ Hrun) by apply added_head.
      destruct (set_stores _ _ _ _ _ Hne Hnd Hset) as [Hsame _].
      now rewrite optionxform_idempotent in Hsame.
    + exact (IH _ _ _ _ _ _ Hrun Hin).
Qed.

Lemma setitem_stores (parser cfg : ConfigParser.t) (section : string)
    (value : dict string) (key v : string) :
  section <> "" -> section <> ConfigParser.default_section ->
  ConfigParser.setitem parser section value = Ok cfg ->
  In (key, v) value ->
  stored cfg section (ConfigParser.optionxform key) = Some v.
Proof.
  intros Hne Hnd Hset Hin.
  unfold ConfigParser.setitem, ConfigParser.read_dict in Hset. simpl in Hset.
  match type of Hset with
  | context [ConfigParser.add_section ?p section] =>
      destruct (ConfigParser.add_section p section) as [p1|e]; simpl in Hset
  end;
    match type of Hset with
    | context [ConfigParser.read_keys ?s ?ks ?st] =>
        destruct (ConfigParser.read_keys s ks st) as [[p2 els2]|] eqn:Hkeys;
          simpl in Hset; [|discriminate]
    end;
    injection Hset as <-;
    exact (read_keys_stores _ _ Hne Hnd _ _ _ _ _ _ Hkeys Hin).
Qed.

Lemma stored_get (cfg : ConfigParser.t) (section name value : string) :
  stored cfg section (ConfigParser.optionxform name) = Some (double_dollars value) ->
  ConfigParser.get cfg section name = Ok value.
Proof.
  unfold stored, ConfigParser.get, ConfigParser._unify_values.
  destruct (Dict.get section (ConfigParser._sections cfg)) as [sectiondict|];
    [|discriminate].
  intros Hstored. simpl. rewrite Hstored. apply before_get_doubled.
Qed.

(** Whatever the file holds, a variable of the environment is in the
    environment section of the configuration that [load_project_ini_file]
    returns, with the value it has in the environment. *)
Lemma load_env_value (inis : IniFiles) (os_environ : dict string)
    (path section name value : string) (cfg : ConfigParser.t) :
  section <> "" -> section <> ConfigParser.default_section ->
  NoDup (Dict.keys os_environ) ->
  Dict.get name os_environ = Some value ->
  load_project_ini_file inis os_environ path section = Ok cfg ->
  stored cfg section (ConfigParser.optionxform name) = Some (double_dollars value).
Proof.
  intros Hne Hnd Hkeys Hvar Hload.
  pose proof (esc_env_vars_get _ _ _ Hkeys Hvar) as Hesc.
  unfold load_project_ini_file in Hload.
  destruct (ConfigParser.has_section (read inis path) section).
  - destruct (ConfigParser.section_to_dict (read inis path) section)
      as [from_file|]; simpl in Hload; [|discriminate].
    eapply setitem_stores; try eassumption.
    apply dict_get_In. apply dict_get_update_last; [exact Hesc|].
    unfold esc_env_vars, Dict.of_items. apply dict_update_nodup. constructor.
  - eapply setitem_stores; try eassumption.
    now apply dict_get_In.
Qed.

(** C1, as the code has it: for a key that is both in the environment
    section of the file and in the environment, the configuration that
    [load_project_ini_file] returns holds the value of the environment,
    stored with its dollars doubled. *)
Theorem env_value_wins (inis : IniFiles) (os_environ : dict string)
    (path section name file_value env_value : string)
    (file cfg : ConfigParser.t)
    (Hnonempty : section <> "")
    (Hregular : section <> ConfigParser.default_section)
    (Hfile : inis path = Some file)
    (Hfile_key : stored file section name = Some file_value)
    (Hkeys : NoDup (Dict.keys os_environ))
    (Henv : Dict.get name os_environ = Some env_value)
    (Hload : load_project_ini_file inis os_environ path section = Ok cfg) :
  ConfigParser.get cfg section name = Ok env_value
  /\ stored cfg section (ConfigParser.optionxform name)
     = Some (Str.replace "$" "$$" env_value).
Proof.
  pose proof (load_env_value _ _ _ _ _ _ _ Hnonempty Hregular Hkeys Henv Hload)
    as Hstored.
  split; [now apply stored_get|].
  now rewrite replace_dollar_doubles.
Qed.

Lemma env_value_wins_witness :
  exists cfg,
    load_project_ini_file sample_inis sample_environ PROJECT_INI_FILE_PATH
      INIT_ENV_VAR_SECTION = Ok cfg
    /\ ConfigParser.get cfg INIT_ENV_VAR_SECTION "http_proxy"
       = Ok "http://proxy.from.env:8080".
Proof.
  eexists. split; [reflexivity|].
  apply (env_value_wins sample_inis sample_environ PROJECT_INI_FILE_PATH
           INIT_ENV_VAR_SECTION "http_proxy" "http://proxy.from.file:3128"
           "http://proxy.from.env:8080" sample_ini);
    try reflexivity; try discriminate.
  repeat constructor; simpl; intuition discriminate.
Defined.

(** C1, as the spec has it, fails: [http_proxy] is set in the [ENV]
    section of the file and in the environment, and the configuration
    holds the value of the environment, not that of the file. *)
Lemma file_value_does_not_win :
  stored sample_ini INIT_ENV_VAR_SECTION "http_proxy"
  = Some "http://proxy.from.file:3128"
  /\ Dict.get "http_proxy" sample_environ = Some "http://proxy.from.env:8080"
  /\ exists cfg,
      load_project_ini_file sample_inis sample_environ PROJECT_INI_FILE_PATH
        INIT_ENV_VAR_SECTION = Ok cfg
      /\ ConfigParser.get cfg INIT_ENV_VAR_SECTION "http_proxy"
         <> Ok "http://proxy.from.file:3128".
Proof.
  split; [reflexivity|]. split; [reflexivity|].
  eexists. split; [reflexivity|]. discriminate.
Qed.

(** A key of the file that differs from a variable of the environment by
    its case only: both lower-case to the same option, and [read_dict]
    raises. *)
Example load_case_collision :
  load_project_ini_file home_ini home_environ PROJECT_INI_FILE_PATH
    INIT_ENV_VAR_SECTION = Raise DuplicateOptionError.
Proof. reflexivity. Qed.

(** ** The entry point loader *)

Lemma dict_in_keys_get {V : Type} (k : string) (d : dict V) :
  In k (Dict.keys d) -> exists v, Dict.get k d = Some v.
Proof.
  induction d as [|[k' v'] rest IH]; simpl; [contradiction|].
  intros [->|Hin].
  - rewrite String.eqb_refl. now exists v'.
  - destruct (String.eqb k k'); [now exists v' | now apply IH].
Qed.

Lemma dict_in_get {V : Type} (k : string) (v : V) (d : dict V) :
  NoDup (Dict.keys d) -> In (k, v) d -> Dict.get k d = Some v.
Proof.
  induction d as [|[k' v'] rest IH]; simpl; [contradiction|].
  intros Hnd [[= -> ->]|Hin].
  - now rewrite String.eqb_refl.
  - inversion Hnd as [|? ? Hnot Hnd']; subst.
    destruct (String.eqb k k') eqn:E; [|now apply IH].
    apply String.eqb_eq in E. subst k'. exfalso. apply Hnot.
    change k with (fst (k, v)). now apply in_map.
Qed.

Lemma dict_set_absent {V : Type} (k : string) (v : V) (d : dict V) :
  ~ In k (Dict.keys d) -> Dict.set k v d = d ++ [(k, v)].
Proof.
  induction d as [|[k' v'] rest IH]; simpl; intros Hnot; [reflexivity|].
  destruct (String.eqb k k') eqn:E.
  - apply String.eqb_eq in E. exfalso. apply Hnot. now left.
  - rewrite IH; [reflexivity|]. intros Hin. apply Hnot. now right.
Qed.

Lemma dict_update_fresh {V : Type} (other d : dict V) :
  NoDup (Dict.keys (d ++ other)) -> Dict.update d other = d ++ other.
Proof.
  unfold Dict.update. revert d.
  induction other as [|[k v] rest IH]; intros d Hnd; simpl.
  - now rewrite app_nil_r.
  - assert (Hfresh : ~ In k (Dict.keys d)).
    { unfold Dict.keys in *. rewrite map_app in Hnd. simpl in Hnd.
      apply NoDup_remove_2 in Hnd. intros Hin. apply Hnd.
      apply in_or_app. now left. }
    rewrite dict_set_absent by exact Hfresh.
    rewrite IH; rewrite <- app_assoc; [reflexivity | exact Hnd].
Qed.

(** A dict comprehension over items with distinct keys lists them as they
    come. *)
Lemma dict_of_items_fresh {V : Type} (items : list (string * V)) :
  NoDup (Dict.keys items) -> Dict.of_items items = items.
Proof.
  intros Hnd. unfold Dict.of_items. now rewrite dict_update_fresh.
Qed.

Lemma dict_get_update {V : Type} (k : string) (other d : dict V) :
  NoDup (Dict.keys other) ->
  Dict.get k (Dict.update d other)
  = match Dict.get k other with
    | Some v => Some v
    | None => Dict.get k d
    end.
Proof.
  intros Hnd. destruct (Dict.get k other) as [v|] eqn:Hget.
  - now apply dict_get_update_last.
  - apply dict_get_update_absent. now apply dict_get_none_not_in.
Qed.

Lemma mapM_in {A B : Type} (f : A -> result B) (xs : list A) (ys : list B) (x : A) :
  mapM f xs = Ok ys -> In x xs -> exists y, f x = Ok y /\ In y ys.
Proof.
  revert ys. induction xs as [|x' rest IH]; intros ys Hrun Hin; [contradiction|].
  simpl in Hrun. destruct (f x') as [y'|] eqn:Hy; simpl in Hrun; [|discriminate].
  destruct (mapM f rest) as [ys'|]; simpl in Hrun; [|discriminate].
  injection Hrun as <-. destruct Hin as [->|Hin].
  - exists y'. split; [exact Hy | now left].
  - destruct (IH ys' eq_refl Hin) as [y [Hf Hin']]. exists y. split; [exact Hf | now right].
Qed.

Lemma mapM_keys {V W : Type} (f : string * V -> result W) (d : dict V) (out : dict W) :
  mapM (fun kv => value <- f kv ;; Ok (fst kv, value)) d = Ok out ->
  Dict.keys out = Dict.keys d.
Proof.
  revert out. induction d as [|kv rest IH]; intros out Hrun; simpl in Hrun.
  - now injection Hrun as <-.
  - destruct (f kv) as [w|]; simpl in Hrun; [|discriminate].
    destruct (mapM _ rest) as [out'|]; simpl in Hrun; [|discriminate].
    injection Hrun as <-. simpl. now rewrite (IH out' eq_refl).
Qed.

(** The interpolation depends on [map] by the options it looks up only. *)
Lemma interpolate_loop_ext
    (deeper : string -> string -> (string -> option string) -> result string)
    (parser : ConfigParser.t) (section : string) (map map' : string -> option string) :
  (forall name, map name = map' name) ->
  forall fuel rest,
    ConfigParser._interpolate_loop deeper parser section map fuel rest
    = ConfigParser._interpolate_loop deeper parser section map' fuel rest.
Proof.
  intros Hmap. induction fuel as [|fuel IH]; intros rest; [reflexivity|].
  cbn [ConfigParser._interpolate_loop].
  destruct (Str.break_at "$" rest) as [plain tail].
  destruct tail as [|c after]; [reflexivity|].
  destruct after as [|c' rest']; [reflexivity|].
  destruct c' as [[] [] [] [] [] [] [] []]; try reflexivity.
  - destruct (ConfigParser.keycre_match _) as [[group rest'']|]; [|reflexivity].
    destruct (Str.split_from _ ":" "" group) as [|name [|name' [|]]];
      try reflexivity; simpl.
    + rewrite Hmap.
      destruct (map' (ConfigParser.optionxform name)) as [v|]; simpl; [|reflexivity].
      destruct (if Str.contains "$" v then _ else _) as [piece|]; simpl;
        [now rewrite IH | reflexivity].
    + destruct (ConfigParser.get_raw parser name (ConfigParser.optionxform name'))
        as [v|]; simpl; [|reflexivity].
      destruct (if Str.contains "$" v then _ else _) as [piece|]; simpl;
        [now rewrite IH | reflexivity].
  - now rewrite IH.
Qed.

Lemma before_get_ext (parser : ConfigParser.t) (section value : string)
    (map map' : string -> option string) :
  (forall name, map name = map' name) ->
  ConfigParser.before_get parser section value map
  = ConfigParser.before_get parser section value map'.
Proof.
  intros Hmap. unfold ConfigParser.before_get. simpl.
  now apply interpolate_loop_ext.
Qed.

(** C3, as the code has it: the entry point loader returns [None] exactly
    when the parser has no such section; otherwise it returns the items
    of the section, each value split by [splitlines], empty lines kept;
    so every key of the section is mapped to the lines of its value. *)
Theorem entry_points_lines (config_parser : ConfigParser.t) (section : string) :
  (load_entry_points config_parser section = Ok None
   <-> ConfigParser.has_section config_parser section = false)
  /\ (forall items,
        ConfigParser.has_section config_parser section = true ->
        ConfigParser.items config_parser section = Ok items ->
        load_entry_points config_parser section
        = Ok (Some (Dict.of_items
                      (map (fun kv => (fst kv, Str.splitlines (snd kv))) items))))
  /\ (forall sectiondict entry_points,
        well_formed config_parser ->
        Dict.get section (ConfigParser._sections config_parser) = Some sectiondict ->
        load_entry_points config_parser section = Ok (Some entry_points) ->
        forall key, In key (Dict.keys sectiondict) ->
          exists value,
            ConfigParser.get config_parser section key = Ok value
            /\ Dict.get key entry_points = Some (Str.splitlines value)).
Proof.
  split; [|split].
  - unfold load_entry_points.
    destruct (ConfigParser.has_section config_parser section); simpl.
    + split; [|discriminate].
      destruct (ConfigParser.items config_parser section); discriminate.
    + split; reflexivity.
  - intros items Hhas Hitems. unfold load_entry_points.
    rewrite Hhas, Hitems. reflexivity.
  - intros sectiondict entry_points [[Hdefaults _] Hsections] Hget Hload key Hkey.
    destruct (Hsections _ _ Hget) as [Hnodup Hlower].
    unfold load_entry_points, ConfigParser.has_section, Dict.mem in Hload.
    rewrite Hget in Hload. simpl in Hload.
    destruct (ConfigParser.items config_parser section) as [items|] eqn:Hitems;
      simpl in Hload; [|discriminate].
    injection Hload as <-.
    unfold ConfigParser.items, ConfigParser.section_items in Hitems.
    rewrite Hget in Hitems. simpl in Hitems.
    set (d := Dict.update (ConfigParser._defaults config_parser) sectiondict) in *.
    destruct (dict_in_keys_get _ _ Hkey) as [raw Hraw].
    assert (Hd : Dict.get key d = Some raw).
    { unfold d. now apply dict_get_update_last. }
    destruct (mapM_in _ _ _ (key, raw) Hitems (dict_get_In _ _ _ Hd))
      as [[key' value] [Hvalue Hin]].
    simpl in Hvalue.
    destruct (ConfigParser.before_get config_parser section raw
                (fun option => Dict.get option d)) as [value'|] eqn:Hinterp;
      simpl in Hvalue; [|discriminate].
    injection Hvalue as <- <-.
    assert (Hkeys : NoDup (Dict.keys items)).
    { rewrite (mapM_keys _ _ _ Hitems). unfold d. now apply dict_update_nodup. }
    exists value'. split.
    + unfold ConfigParser.get, ConfigParser._unify_values. rewrite Hget. simpl.
      rewrite Forall_forall in Hlower. rewrite (Hlower _ Hkey), Hraw.
      rewrite <- Hinterp. apply before_get_ext. intros name.
      unfold d. now rewrite dict_get_update.
    + apply dict_of_items_get.
      * unfold Dict.keys. rewrite map_map. exact Hkeys.
      * rewrite dict_get_map_values, (dict_in_get _ _ _ Hkeys Hin). reflexivity.
Qed.

Lemma sample_ini_well_formed : well_formed sample_ini.
Proof.
  split.
  - split; constructor.
  - intros section sectiondict Hget. unfold sample_ini in Hget. simpl in Hget.
    repeat match type of Hget with
           | (if ?b then _ else _) = _ =>
               destruct b;
               [injection Hget as <-; split;
                [repeat constructor; simpl; intuition discriminate
                | repeat constructor] |]
           end.
    discriminate.
Qed.

Lemma entry_points_lines_witness :
  exists value,
    ConfigParser.get sample_ini INI_ENTRY_POINT_SECTION "console_scripts" = Ok value
    /\ Dict.get "console_scripts"
         [("console_scripts", [""; "demo = demo.main:run"])]
       = Some (Str.splitlines value).
Proof.
  destruct (entry_points_lines sample_ini INI_ENTRY_POINT_SECTION) as [_ [_ Hkeys]].
  apply (Hkeys [("console_scripts", String Str.LF "demo = demo.main:run")]).
  - exact sample_ini_well_formed.
  - reflexivity.
  - reflexivity.
  - now left.
Defined.

(** C3, as the spec has it, fails: a value that starts on the line after
    its key begins with a line break, and the empty line before it is in
    the result, which so is not the list of the non-empty lines. *)
Lemma entry_points_keep_empty_lines :
  exists cfg,
    load_project_ini_file sample_inis sample_environ PROJECT_INI_FILE_PATH
      INIT_ENV_VAR_SECTION = Ok cfg
    /\ stored cfg INI_ENTRY_POINT_SECTION "console_scripts"
       = Some (String Str.LF "demo = demo.main:run")
    /\ load_entry_points cfg INI_ENTRY_POINT_SECTION
       = Ok (Some [("console_scripts", [""; "demo = demo.main:run"])])
    /\ load_entry_points cfg INI_ENTRY_POINT_SECTION
       <> Ok (Some [("console_scripts",
                     nonempty_lines (String Str.LF "demo = demo.main:run"))]).
Proof.
  eexists. split; [reflexivity|]. split; [reflexivity|].
  split; [reflexivity | discriminate].
Qed.

(** ** Fuel

    The loops that consume a string take its length for fuel; any larger
    amount gives the same result, so that none of them stops for want of
    fuel. *)

Lemma break_at_length (c : ascii) (s : string) :
  String.length (fst (Str.break_at c s)) + String.length (snd (Str.break_at c s))
  = String.length s.
Proof.
  induction s as [|d r IH]; simpl; [reflexivity|].
  destruct (Ascii.eqb c d); simpl; [reflexivity|].
  destruct (Str.break_at c r) as [before rest]. simpl in *. lia.
Qed.

Lemma keycre_match_length (rest group tail : string) :
  ConfigParser.keycre_match rest = Some (group, tail) ->
  String.length tail < String.length rest.
Proof.
  unfold ConfigParser.keycre_match.
  destruct rest as [|c [|c' after]]; try discriminate;
    [destruct c as [[] [] [] [] [] [] [] []]; discriminate|].
  destruct c as [[] [] [] [] [] [] [] []]; try discriminate.
  destruct c' as [[] [] [] [] [] [] [] []]; try discriminate.
  pose proof (break_at_length "}" after) as Hlen.
  destruct (Str.break_at "}" after) as [[|g group'] [|c tail']]; try discriminate.
  intros [= <- <-]. simpl in *. lia.
Qed.

Lemma interpolate_loop_fuel
    (deeper : string -> string -> (string -> option string) -> result string)
    (parser : ConfigParser.t) (section : string) (map : string -> option string) :
  forall fuel fuel' rest,
    String.length rest <= fuel ->
    String.length rest <= fuel' ->
    ConfigParser._interpolate_loop deeper parser section map fuel rest
    = ConfigParser._interpolate_loop deeper parser section map fuel' rest.
Proof.
  induction fuel as [|fuel IH]; intros fuel' rest Hfuel Hfuel'.
  - destruct rest; [|simpl in Hfuel; lia]. destruct fuel'; reflexivity.
  - destruct fuel' as [|fuel'].
    { destruct rest; [reflexivity | simpl in Hfuel'; lia]. }
    cbn [ConfigParser._interpolate_loop].
    pose proof (break_at_length "$" rest) as Hlen.
    destruct (Str.break_at "$" rest) as [plain tail]. simpl in Hlen.
    destruct tail as [|c after]; [reflexivity|].
    destruct after as [|c' rest']; [reflexivity|].
    destruct c' as [[] [] [] [] [] [] [] []]; try reflexivity.
    + destruct (ConfigParser.keycre_match _) as [[group rest'']|] eqn:Hmatch;
        [|reflexivity].
      apply keycre_match_length in Hmatch. simpl in Hmatch, Hlen.
      rewrite (IH fuel' rest'') by lia. reflexivity.
    + simpl in Hlen. rewrite (IH fuel' rest') by lia. reflexivity.
Qed.

Lemma startswith_length (s prefix : string) :
  Str.startswith s prefix = true -> String.length prefix <= String.length s.
Proof.
  revert s. induction prefix as [|c p IH]; intros s; simpl; [lia|].
  destruct s as [|d r]; [discriminate|].
  intros H. apply andb_true_iff in H as [_ H]. apply IH in H. simpl. lia.
Qed.

Lemma drop_length (n : nat) (s : string) :
  String.length (Str.drop n s) = String.length s - n.
Proof.
  revert s. induction n as [|n IH]; intros s; simpl; [lia|].
  destruct s as [|c r]; simpl; [reflexivity | apply IH].
Qed.

Lemma replace_from_fuel (old new : string) :
  old <> "" ->
  forall fuel fuel' s,
    String.length s <= fuel ->
    String.length s <= fuel' ->
    Str.replace_from fuel old new s = Str.replace_from fuel' old new s.
Proof.
  intros Hold. induction fuel as [|fuel IH]; intros fuel' s Hfuel Hfuel'.
  - destruct s; [|simpl in Hfuel; lia]. destruct fuel'; [reflexivity|].
    simpl. destruct old; [contradiction | reflexivity].
  - destruct fuel' as [|fuel'].
    { destruct s; [|simpl in Hfuel'; lia]. simpl.
      destruct old; [contradiction | reflexivity]. }
    simpl. destruct (Str.startswith s old) eqn:Hstart.
    + apply startswith_length in Hstart.
      assert (0 < String.length old) by (destruct old; [contradiction | simpl; lia]).
      rewrite (IH fuel') by (rewrite drop_length; lia). reflexivity.
    + destruct s as [|c r]; [reflexivity|]. simpl in *.
      rewrite (IH fuel') by lia. reflexivity.
Qed.

Lemma split_from_fuel (sep : string) :
  sep <> "" ->
  forall fuel fuel' cur s,
    String.length s <= fuel ->
    String.length s <= fuel' ->
    Str.split_from fuel sep cur s = Str.split_from fuel' sep cur s.
Proof.
  intros Hsep. induction fuel as [|fuel IH]; intros fuel' cur s Hfuel Hfuel'.
  - destruct s; [|simpl in Hfuel; lia]. destruct fuel'; simpl;
      [reflexivity | now rewrite string_append_empty].
  - destruct fuel' as [|fuel'].
    { destruct s; [|simpl in Hfuel'; lia]. simpl. now rewrite string_append_empty. }
    simpl. destruct s as [|c r]; [reflexivity|].
    destruct (Str.startswith (String c r) sep) eqn:Hstart.
    + apply startswith_length in Hstart.
      assert (0 < String.length sep) by (destruct sep; [contradiction | simpl; lia]).
      rewrite (IH fuel') by (rewrite drop_length; lia). reflexivity.
    + simpl in *. rewrite (IH fuel') by lia. reflexivity.
Qed.

Lemma keycre_strip_fuel :
  forall fuel fuel' s,
    String.length s <= fuel ->
    String.length s <= fuel' ->
    ConfigParser.keycre_strip fuel s = ConfigParser.keycre_strip fuel' s.
Proof.
  induction fuel as [|fuel IH]; intros fuel' s Hfuel Hfuel'.
  - destruct s; [|simpl in Hfuel; lia]. destruct fuel'; reflexivity.
  - destruct fuel' as [|fuel'].
    { destruct s; [reflexivity | simpl in Hfuel'; lia]. }
    cbn [ConfigParser.keycre_strip]. destruct s as [|c r]; [reflexivity|].
    destruct (ConfigParser.keycre_match (String c r)) as [[group tail]|] eqn:Hmatch.
    + apply keycre_match_length in Hmatch. simpl in *.
      apply IH; lia.
    + simpl in *. rewrite (IH fuel') by lia. reflexivity.
Qed.

(** ** The run command *)

Lemma run_needs_module (self : RunCommand.t) :
  RunCommand.module self = None \/ RunCommand.module self = Some "" ->
  RunCommand.finalize_options self = Raise OptionError.
Proof.
  unfold RunCommand.finalize_options. intros [-> | ->]; reflexivity.
Qed.

Lemma run_wraps_exceptions (run_module : option string -> result unit)
    (self : RunCommand.t) (e : exn) :
  run_module (RunCommand.module self) = Raise e ->
  RunCommand.run run_module self = Raise DistutilsError.
Proof.
  unfold RunCommand.run. now intros ->.
Qed.

(** * Further properties *)

(** ** The dependency lister, further *)

Lemma mapM_lock_entries_ok (entries : dict json) :
  is_ok (mapM (fun '(package, detail) =>
                 version <- json_get detail "version" (JString "") ;;
                 str_add package version) entries)
  = forallb (fun e => detail_ok (snd e)) entries.
Proof.
  induction entries as [|[package detail] rest IH]; [reflexivity|].
  cbn [mapM forallb snd]. rewrite <- IH.
  destruct detail as [| | | | |fields]; try reflexivity.
  cbn [json_get detail_ok bind].
  destruct (Dict.get "version" fields) as [[| | |v| |]|]; cbn [str_add bind andb];
    try reflexivity;
    destruct (mapM _ rest); reflexivity.
Qed.

(** X1: in lock mode the dependency lister returns exactly when
    [Pipfile.lock] is there, parses to an object, and its [default]
    section, if any, is an object of details that are objects whose
    [version], if any, is a string; [requirements.txt] plays no part. *)
Theorem get_deps_lock_returns_iff (fs : Files) :
  is_ok (get_deps fs true) = lock_ok (read_json fs "Pipfile.lock").
Proof.
  unfold get_deps, get_deps_from_pipfile, json_load, lock_ok.
  destruct (read_json fs "Pipfile.lock") as [| |[| | | | |top]]; try reflexivity.
  cbn [bind json_get].
  destruct (Dict.get "default" top) as [[| | | | |entries]|]; try reflexivity.
  cbn [bind json_items]. apply mapM_lock_entries_ok.
Qed.

(** X2: the file selected by the mode is the only one read: without
    [Pipfile.lock] lock mode raises [FileNotFoundError] whatever
    [requirements.txt] holds, and without [requirements.txt] requirements
    mode raises it whatever the lock file holds. *)
Theorem get_deps_no_fallback (fs : Files) :
  (read_json fs "Pipfile.lock" = NoFile ->
   get_deps fs true = Raise FileNotFoundError)
  /\ (read_text fs "requirements.txt" = None ->
      get_deps fs false = Raise FileNotFoundError)
  /\ (forall fs',
        read_json fs' "Pipfile.lock" = read_json fs "Pipfile.lock" ->
        get_deps fs' true = get_deps fs true)
  /\ (forall fs',
        read_text fs' "requirements.txt" = read_text fs "requirements.txt" ->
        get_deps fs' false = get_deps fs false).
Proof.
  unfold get_deps, get_deps_from_pipfile, get_deps_from_requirements,
    json_load, read_file.
  repeat split.
  - now intros ->.
  - now intros ->.
  - now intros fs' ->.
  - now intros fs' ->.
Qed.

Lemma get_deps_no_fallback_witness :
  get_deps (requirements_only "requests==2.0") true = Raise FileNotFoundError
  /\ get_deps
       (lock_only (JObject [("default", JObject [])])) false
     = Raise FileNotFoundError.
Proof.
  split.
  - apply (get_deps_no_fallback (requirements_only "requests==2.0")). reflexivity.
  - apply (get_deps_no_fallback (lock_only (JObject [("default", JObject [])]))).
    reflexivity.
Defined.

Lemma no_linebreak_append (a b : string) :
  no_linebreak (a +++ b) = no_linebreak a && no_linebreak b.
Proof.
  induction a as [|c a IH]; simpl; [reflexivity|].
  now rewrite IH, andb_assoc.
Qed.

Lemma splitlines_from_no_break (n : nat) :
  forall s cur line,
    String.length s <= n ->
    no_linebreak cur = true ->
    In line (Str.splitlines_from cur s) ->
    no_linebreak line = true.
Proof.
  induction n as [|n IH]; intros s cur line Hlen Hcur Hin.
  - destruct s; [|simpl in Hlen; lia].
    simpl in Hin. destruct (Str.is_empty cur); [contradiction|].
    destruct Hin as [<-|[]]. exact Hcur.
  - destruct s as [|c r].
    { simpl in Hin. destruct (Str.is_empty cur); [contradiction|].
      destruct Hin as [<-|[]]. exact Hcur. }
    cbn [Str.splitlines_from] in Hin. simpl in Hlen.
    destruct (Str.is_linebreak c) eqn:Hc.
    + destruct r as [|d r'].
      * destruct Hin as [<-|Hin]; [exact Hcur | contradiction].
      * destruct (Ascii.eqb c Str.CR && Ascii.eqb d Str.LF);
          (destruct Hin as [<-|Hin]; [exact Hcur|]).
        -- apply (IH r' "" line); [simpl in Hlen; lia | reflexivity | exact Hin].
        -- apply (IH (String d r') "" line); [lia | reflexivity | exact Hin].
    + apply (IH r (cur +++ String c "") line); [lia | | exact Hin].
      rewrite no_linebreak_append, Hcur. simpl. now rewrite Hc.
Qed.

(** X3: in requirements mode no specifier returned holds a line break,
    whatever the file holds. *)
Theorem requirements_lines_unbroken (fs : Files) (specs : list string) (spec : string)
    (Hdeps : get_deps fs false = Ok specs)
    (Hspec : In spec specs) :
  no_linebreak spec = true.
Proof.
  unfold get_deps, get_deps_from_requirements, read_file in Hdeps.
  destruct (read_text fs "requirements.txt") as [content|]; [|discriminate].
  injection Hdeps as <-.
  now apply (splitlines_from_no_break (String.length content) content "" spec).
Qed.

Lemma requirements_lines_unbroken_witness :
  no_linebreak "requests==2.0" = true.
Proof.
  apply (requirements_lines_unbroken
           (requirements_only
              ("requests==2.0" +++ String Str.CR (String Str.LF "flask")))
           ["requests==2.0"; "flask"] "requests==2.0").
  - reflexivity.
  - now left.
Defined.

Lemma splitlines_from_line (line : string) :
  forall cur rest,
    no_linebreak line = true ->
    Str.splitlines_from cur (line +++ String Str.LF rest)
    = (cur +++ line) :: Str.splitlines_from "" rest.
Proof.
  induction line as [|c r IH]; intros cur rest Hline.
  - simpl. rewrite string_append_empty. destruct rest; reflexivity.
  - simpl in Hline. apply andb_true_iff in Hline as [Hc Hr].
    apply negb_true_iff in Hc.
    cbn [String.append Str.splitlines_from]. rewrite Hc.
    rewrite IH by exact Hr. f_equal.
    clear. induction cur as [|e cur IHc]; simpl; [reflexivity | now rewrite IHc].
Qed.

Lemma splitlines_unlines (specs : list string) :
  forallb no_linebreak specs = true ->
  Str.splitlines (unlines specs) = specs.
Proof.
  unfold Str.splitlines.
  induction specs as [|spec rest IH]; intros Hspecs; [reflexivity|].
  simpl in Hspecs. apply andb_true_iff in Hspecs as [Hspec Hrest].
  cbn [unlines]. rewrite splitlines_from_line by exact Hspec.
  simpl. now rewrite IH.
Qed.

(** X4: a [requirements.txt] written one specifier per line, each line
    ended by a line feed, is read back as the list of the specifiers,
    blank lines included. *)
Theorem requirements_round_trip (fs : Files) (specs : list string)
    (Hspecs : forallb no_linebreak specs = true)
    (Hfile : read_text fs "requirements.txt" = Some (unlines specs)) :
  get_deps fs false = Ok specs.
Proof.
  unfold get_deps, get_deps_from_requirements, read_file.
  rewrite Hfile. simpl. now rewrite splitlines_unlines.
Qed.

Lemma requirements_round_trip_witness :
  get_deps (requirements_only (unlines ["requests==2.0"; ""; "flask>=1.0"])) false
  = Ok ["requests==2.0"; ""; "flask>=1.0"].
Proof.
  apply (requirements_round_trip
           (requirements_only (unlines ["requests==2.0"; ""; "flask>=1.0"]))
           ["requests==2.0"; ""; "flask>=1.0"]);
    reflexivity.
Defined.

(** ** The package mapper, further *)

Lemma filter_nodup {A : Type} (f : A -> bool) (xs : list A) :
  NoDup xs -> NoDup (filter f xs).
Proof.
  induction 1 as [|x xs Hnot Hnd IH]; simpl; [constructor|].
  destruct (f x); [|exact IH].
  constructor; [|exact IH]. intros Hin. apply filter_In in Hin as [Hin _].
  contradiction.
Qed.

(** X5: when the package finder lists no name twice under a root, no name
    is twice in the [packages] the main block gives to [setup]: a name
    found under both roots is listed once, as a source package. *)
Theorem packages_listed_once (find_namespace_packages : string -> list string)
    (Hsrc : NoDup (find_namespace_packages SRC_FOLDER))
    (Hres : NoDup (find_namespace_packages RESOURCES_FOLDER)) :
  NoDup (packages (package_configuration find_namespace_packages))
  /\ forall name,
      In name (packages (package_configuration find_namespace_packages))
      <-> In name (find_namespace_packages SRC_FOLDER)
          \/ In name (find_namespace_packages RESOURCES_FOLDER).
Proof.
  cbn [packages package_configuration]. split.
  - apply NoDup_app.
    + exact Hsrc.
    + unfold find_resources_packages. now apply filter_nodup.
    + intros name Hin Hin'. apply find_resources_packages_spec in Hin' as [_ Hnot].
      contradiction.
  - intros name. rewrite in_app_iff, find_resources_packages_spec.
    destruct (in_dec string_dec name (find_namespace_packages SRC_FOLDER));
      tauto.
Qed.

Lemma packages_listed_once_witness :
  NoDup (packages (package_configuration sample_packages)).
Proof.
  apply (packages_listed_once sample_packages).
  - repeat constructor; simpl; intuition discriminate.
  - repeat constructor; simpl; intuition discriminate.
Defined.

(** X6: in the [package_dir] of the main block the empty name stands for
    the source folder, and every other name has the directory it has in
    the resources map; so a source package has no entry of its own. *)
Theorem package_dir_entries (find_namespace_packages : string -> list string) :
  let cfg := package_configuration find_namespace_packages in
  Dict.get "" (package_dir cfg) = Some SRC_FOLDER
  /\ (forall name, name <> "" ->
        Dict.get name (package_dir cfg) = Dict.get name (resources_packages_dir cfg))
  /\ (forall name, name <> "" ->
        In name (src_packages cfg) -> Dict.get name (package_dir cfg) = None).
Proof.
  cbn [package_dir resources_packages_dir src_packages package_configuration].
  unfold Dict.update. cbn [fold_left fst snd].
  split; [apply dict_get_set_same|].
  split.
  - intros name Hname. now apply dict_get_set_other.
  - intros name Hname Hsrc. rewrite dict_get_set_other by exact Hname.
    apply to_packages_dir_keys. rewrite find_resources_packages_spec. tauto.
Qed.

Lemma replace_from_char (old new : ascii) (s : string) :
  forall fuel, String.length s <= fuel ->
    Str.replace_from fuel (String old "") (String new "") s = subst_char old new s.
Proof.
  induction s as [|c r IH]; intros fuel Hfuel.
  - destruct fuel; reflexivity.
  - destruct fuel as [|fuel']; simpl in Hfuel; [lia|].
    simpl. destruct (Ascii.eqb old c); simpl; rewrite IH by lia; reflexivity.
Qed.

Lemma replace_char (old new : ascii) (s : string) :
  Str.replace (String old "") (String new "") s = subst_char old new s.
Proof.
  unfold Str.replace. simpl. now apply replace_from_char.
Qed.

Lemma split_from_char (sep : ascii) (s : string) :
  forall fuel cur, String.length s <= fuel ->
    Str.split_from fuel (String sep "") cur s = split_char sep cur s.
Proof.
  induction s as [|c r IH]; intros fuel cur Hfuel.
  - destruct fuel; simpl; [now rewrite string_append_empty | reflexivity].
  - destruct fuel as [|fuel']; simpl in Hfuel; [lia|].
    simpl. destruct (Ascii.eqb sep c); simpl; rewrite IH by lia; reflexivity.
Qed.

Lemma string_append_assoc (a b c : string) : (a +++ b) +++ c = a +++ b +++ c.
Proof. induction a as [|x a IH]; simpl; [reflexivity | now rewrite IH]. Qed.

Lemma subst_char_append (old new : ascii) (a b : string) :
  subst_char old new (a +++ b) = subst_char old new a +++ subst_char old new b.
Proof. induction a as [|c a IH]; simpl; [reflexivity | now rewrite IH]. Qed.

Lemma subst_char_absent (old new : ascii) (s : string) :
  Str.contains old s = false -> subst_char old new s = s.
Proof.
  induction s as [|c r IH]; simpl; [reflexivity|].
  intros H. apply orb_false_iff in H as [Hc Hr]. now rewrite Hc, IH.
Qed.

Lemma split_char_piece (sep : ascii) (piece : string) :
  Str.contains sep piece = false ->
  forall cur,
    split_char sep cur piece = [cur +++ piece]
    /\ forall rest,
        split_char sep cur (piece +++ String sep rest)
        = (cur +++ piece) :: split_char sep "" rest.
Proof.
  induction piece as [|c r IH]; intros Hsep cur.
  - simpl. rewrite Ascii.eqb_refl, string_append_empty. now split.
  - simpl in Hsep. apply orb_false_iff in Hsep as [Hc Hr].
    simpl. rewrite Hc.
    destruct (IH Hr (cur +++ String c "")) as [Hlast Hnext].
    rewrite string_append_assoc in Hlast. simpl in Hlast.
    split; [exact Hlast|].
    intros rest. rewrite Hnext, string_append_assoc. reflexivity.
Qed.

Lemma is_segment_spec (s : string) :
  is_segment s = true ->
  s <> "" /\ Str.contains "." s = false /\ Str.contains "/" s = false.
Proof.
  unfold is_segment. intros H.
  apply andb_true_iff in H as [H Hslash]. apply andb_true_iff in H as [Hne Hdot].
  apply negb_true_iff in Hslash, Hdot.
  repeat split; try assumption.
  intros ->. discriminate.
Qed.

Lemma subst_dotted (segments : list string) :
  forallb is_segment segments = true ->
  subst_char "." "/" (dotted segments) = Str.join "/" segments.
Proof.
  unfold dotted.
  induction segments as [|seg rest IH]; intros Hsegs; [reflexivity|].
  simpl in Hsegs. apply andb_true_iff in Hsegs as [Hseg Hrest].
  apply is_segment_spec in Hseg as [_ [Hdot _]].
  destruct rest as [|seg' rest'].
  - simpl. now apply subst_char_absent.
  - change (Str.join "." (seg :: seg' :: rest'))
      with (seg +++ "." +++ Str.join "." (seg' :: rest')).
    change (Str.join "/" (seg :: seg' :: rest'))
      with (seg +++ "/" +++ Str.join "/" (seg' :: rest')).
    rewrite subst_char_append, (subst_char_absent _ _ _ Hdot).
    rewrite <- (IH Hrest). reflexivity.
Qed.

Lemma split_joined (segments : list string) :
  forallb is_segment segments = true ->
  segments <> [] ->
  split_char "/" "" (Str.join "/" segments) = segments.
Proof.
  induction segments as [|seg rest IH]; intros Hsegs Hne; [contradiction|].
  simpl in Hsegs. apply andb_true_iff in Hsegs as [Hseg Hrest].
  apply is_segment_spec in Hseg as [_ [_ Hslash]].
  destruct (split_char_piece "/" seg Hslash "") as [Hlast Hnext].
  destruct rest as [|seg' rest'].
  - simpl. exact Hlast.
  - change (Str.join "/" (seg :: seg' :: rest'))
      with (seg +++ String "/" (Str.join "/" (seg' :: rest'))).
    rewrite Hnext. simpl String.append. f_equal.
    apply IH; [exact Hrest | discriminate].
Qed.

Lemma filter_segments (segments : list string) :
  forallb is_segment segments = true ->
  filter Path.is_component segments = segments.
Proof.
  induction segments as [|seg rest IH]; intros Hsegs; [reflexivity|].
  simpl in Hsegs. apply andb_true_iff in Hsegs as [Hseg Hrest].
  apply is_segment_spec in Hseg as [Hne [Hdot _]].
  simpl. unfold Path.is_component at 1.
  assert (Hnot : String.eqb seg "." = false).
  { apply String.eqb_neq. intros ->. discriminate. }
  rewrite Hnot. destruct seg; [contradiction|]. simpl. now rewrite IH.
Qed.

(** The path of a relative string of segments joined by slashes. *)
Lemma path_of_segments (segments : list string) :
  forallb is_segment segments = true ->
  Path.of_string (Str.join "/" segments)
  = {| Path.root := ""; Path.names := segments |}.
Proof.
  intros Hsegs. destruct segments as [|seg rest]; [reflexivity|].
  assert (Hjoin : split_char "/" "" (Str.join "/" (seg :: rest)) = seg :: rest).
  { apply split_joined; [exact Hsegs | discriminate]. }
  unfold Path.of_string.
  assert (Hroot : Path.splitroot (Str.join "/" (seg :: rest))
                  = ("", Str.join "/" (seg :: rest))).
  { simpl in Hsegs. apply andb_true_iff in Hsegs as [Hseg _].
    apply is_segment_spec in Hseg as [Hne [_ Hslash]].
    destruct seg as [|c seg']; [contradiction|].
    simpl in Hslash. apply orb_false_iff in Hslash as [Hc _].
    unfold Path.splitroot.
    assert (Hhead : exists tail, Str.join "/" (String c seg' :: rest) = String c tail).
    { destruct rest; simpl; eexists; reflexivity. }
    destruct Hhead as [tail ->].
    destruct c as [[] [] [] [] [] [] [] []]; try reflexivity.
    discriminate. }
  rewrite Hroot. unfold Path.sep.
  rewrite split_from_char by lia. rewrite Hjoin.
  now rewrite filter_segments.
Qed.

Lemma dict_get_of_keys {V : Type} (f : string -> V) (keys : list string) (k : string) :
  In k keys ->
  Dict.get k (Dict.of_items (map (fun key => (key, f key)) keys)) = Some (f k).
Proof.
  unfold Dict.of_items, Dict.update. generalize (@nil (string * V)).
  induction keys as [|key rest IH]; intros d Hin; [contradiction|].
  simpl. destruct (in_dec string_dec k rest) as [Hrest|Hrest].
  - now apply IH.
  - destruct Hin as [->|Hin]; [|contradiction].
    change (Dict.get k (Dict.update (Dict.set k (f k) d)
                          (map (fun key => (key, f key)) rest)) = Some (f k)).
    rewrite dict_get_update_absent.
    + apply dict_get_set_same.
    + unfold Dict.keys. rewrite map_map. simpl. now rewrite map_id.
Qed.

(** X7: the directory of a package is path arithmetic on its name: for a
    package named by the segments [segments], [to_packages_dir] gives the
    folder followed by the segments, joined by slashes. *)
Theorem to_packages_dir_path (folder_path : string) (pkgs segments : list string)
    (Hsegments : forallb is_segment segments = true)
    (Hpkg : In (dotted segments) pkgs) :
  Dict.get (dotted segments) (to_packages_dir folder_path pkgs)
  = Some (Path.to_string
            {| Path.root := Path.root (Path.of_string folder_path);
               Path.names := Path.names (Path.of_string folder_path) ++ segments |}).
Proof.
  unfold to_packages_dir.
  rewrite (dict_get_of_keys
             (fun pkg => Path.as_posix
                           (Path.joinpath (Path.of_string folder_path)
                                          (Str.replace "." "/" pkg)))
             pkgs _ Hpkg).
  f_equal. unfold Path.as_posix. f_equal.
  change (Str.replace "." "/" (dotted segments))
    with (Str.replace (String "." "") (String "/" "") (dotted segments)).
  rewrite replace_char, subst_dotted by exact Hsegments.
  unfold Path.joinpath. now rewrite path_of_segments.
Qed.

Lemma to_packages_dir_path_witness :
  Dict.get "conf.db" (to_packages_dir RESOURCES_FOLDER ["conf"; "conf.db"])
  = Some "src/main/resources/conf/db".
Proof.
  apply (to_packages_dir_path RESOURCES_FOLDER ["conf"; "conf.db"] ["conf"; "db"]).
  - reflexivity.
  - right. now left.
Defined.

(** ** The module search path, further *)

Lemma configure_sys_path_app (cwd : string) (sys_path : list string) :
  configure_sys_path cwd sys_path = sys_path ++ layout_roots cwd.
Proof.
  unfold configure_sys_path, list_append, layout_roots.
  now repeat rewrite <- app_assoc.
Qed.

Lemma splitroot_absolute (rest : string) :
  fst (Path.splitroot (String "/" rest)) = "/"
  \/ fst (Path.splitroot (String "/" rest)) = "//".
Proof.
  unfold Path.splitroot.
  destruct (Nat.eqb _ 2); [right | left]; reflexivity.
Qed.

(** X8: in an absolute working directory the four entries added to
    [sys.path] are absolute: each is the working directory followed by
    the components of its folder. *)
Theorem layout_roots_absolute (cwd_tail : string) (sys_path : list string)
    (entry : string)
    (Hentry : In entry (layout_roots (String "/" cwd_tail))) :
  (exists tail, entry = String "/" tail)
  /\ In entry (configure_sys_path (String "/" cwd_tail) sys_path)
  /\ exists components,
      In components [["src"; "main"; "python"]; ["src"; "main"; "resources"];
                     ["src"; "test"; "python"]; ["src"; "test"; "resources"]]
      /\ entry
         = Path.to_string
             {| Path.root := Path.root (Path.of_string (String "/" cwd_tail));
                Path.names := Path.names (Path.of_string (String "/" cwd_tail))
                              ++ components |}.
Proof.
  set (cwd := String "/" cwd_tail) in *.
  assert (Hroot : exists r, Path.root (Path.of_string cwd) = String "/" r).
  { unfold Path.of_string.
    pose proof (splitroot_absolute cwd_tail) as H. fold cwd in H.
    destruct (Path.splitroot cwd) as [r rel]. simpl in *.
    destruct H as [-> | ->]; eexists; reflexivity. }
  destruct Hroot as [r Hr].
  assert (Hshape : forall folder components,
             Path.of_string folder = {| Path.root := ""; Path.names := components |} ->
             layout_root cwd folder
             = Path.to_string
                 {| Path.root := Path.root (Path.of_string cwd);
                    Path.names := Path.names (Path.of_string cwd) ++ components |}).
  { intros folder components Hfolder.
    unfold layout_root, Path.as_posix, Path.absolute. now rewrite Hfolder. }
  assert (Habs : forall components,
             exists tail,
               Path.to_string
                 {| Path.root := Path.root (Path.of_string cwd);
                    Path.names := Path.names (Path.of_string cwd) ++ components |}
               = String "/" tail).
  { intros components. unfold Path.to_string. simpl. rewrite Hr. simpl.
    eexists. reflexivity. }
  split; [|split].
  - unfold layout_roots in Hentry.
    destruct Hentry as [<-|[<-|[<-|[<-|[]]]]];
      erewrite Hshape by reflexivity; apply Habs.
  - rewrite configure_sys_path_app. apply in_or_app. now right.
  - unfold layout_roots in Hentry.
    destruct Hentry as [<-|[<-|[<-|[<-|[]]]]];
      eexists; (split; [|apply Hshape; reflexivity]); simpl; tauto.
Qed.

Lemma layout_roots_absolute_witness :
  exists tail, "/home/dev/project/src/test/python" = String "/" tail.
Proof.
  apply (layout_roots_absolute "home/dev/project" ["/usr/lib/python3"]
           "/home/dev/project/src/test/python").
  right. right. now left.
Defined.

(** ** The clean command, further *)

(** X9: [finalize_options] turns no flag off, [all] included, changes
    nothing when a flag other than [all] is the only choice made, and
    changes nothing when applied again. *)
Theorem clean_finalize_selection (self : CleanCommand.t) :
  CleanCommand.finalize_options (CleanCommand.finalize_options self)
  = CleanCommand.finalize_options self
  /\ (CleanCommand.all self = false ->
      CleanCommand.build self || CleanCommand.dist self
      || CleanCommand.egg_info self = true ->
      CleanCommand.finalize_options self = self)
  /\ (CleanCommand.build self = true ->
      CleanCommand.build (CleanCommand.finalize_options self) = true)
  /\ (CleanCommand.dist self = true ->
      CleanCommand.dist (CleanCommand.finalize_options self) = true)
  /\ (CleanCommand.egg_info self = true ->
      CleanCommand.egg_info (CleanCommand.finalize_options self) = true)
  /\ (CleanCommand.all self = true ->
      CleanCommand.all (CleanCommand.finalize_options self) = true).
Proof.
  destruct self as [[] [] [] []]; repeat split; intros; try reflexivity;
    discriminate.
Qed.

Lemma kind_at_cons (fs : FS.t) (x : string) (names : list string) :
  kind_at fs (x :: names)
  = match Dict.get x fs with
    | Some (Dir children) => kind_at children names
    | Some File => match names with [] => Some IsFile | _ :: _ => None end
    | None => None
    end.
Proof.
  unfold kind_at. simpl.
  destruct (Dict.get x fs) as [[|children]|]; try reflexivity.
  destruct names; reflexivity.
Qed.

(** Removing a directory leaves what is not below it as it is. *)
Lemma rmtree_names_keeps (names : list string) :
  forall entries entries' other,
    FS.rmtree_names names entries = Ok entries' ->
    (forall rest, other <> names ++ rest) ->
    other <> [] ->
    kind_at entries' other = kind_at entries other.
Proof.
  induction names as [|x rest IH]; intros entries entries' other Hrm Hout Hne;
    simpl in Hrm.
  - discriminate.
  - destruct (Dict.get x entries) as [[|children]|] eqn:Hx; try discriminate.
    destruct other as [|y other']; [contradiction|].
    rewrite !kind_at_cons.
    destruct rest as [|z rest'].
    + injection Hrm as <-.
      destruct (String.eqb y x) eqn:E.
      * apply String.eqb_eq in E. subst y. exfalso. now apply (Hout other').
      * apply String.eqb_neq in E. now rewrite dict_get_remove_other.
    + destruct (FS.rmtree_names (z :: rest') children) as [children'|] eqn:Hin;
        simpl in Hrm; [|discriminate].
      injection Hrm as <-.
      destruct (String.eqb y x) eqn:E.
      * apply String.eqb_eq in E. subst y.
        rewrite dict_get_set_same, Hx.
        destruct other' as [|w other''].
        -- reflexivity.
        -- apply (IH _ _ _ Hin); [|discriminate].
           intros r Heq. apply (Hout r). simpl. now rewrite Heq.
      * apply String.eqb_neq in E. now rewrite dict_get_set_other.
Qed.

Lemma rmdir_if_exists_keeps (dir_path : Path.t) (w w' : World) (other : list string) :
  CleanCommand._rmdir_if_exists dir_path w = Ok w' ->
  (forall rest, other <> Path.names dir_path ++ rest) ->
  other <> [] ->
  kind_at (files w') other = kind_at (files w) other.
Proof.
  unfold CleanCommand._rmdir_if_exists, FS.rmtree.
  destruct (FS.is_dir (files w) dir_path); [|now intros [= <-]].
  simpl.
  destruct (FS.rmtree_names (Path.names dir_path) (files w)) as [fs'|] eqn:Hrm;
    simpl; [|discriminate].
  intros [= <-] Hout Hne. simpl. exact (rmtree_names_keeps _ _ _ _ Hrm Hout Hne).
Qed.

Lemma for_each_rmdir_keeps (paths : list Path.t) (other : list string) :
  forall w w',
    for_each paths CleanCommand._rmdir_if_exists w = Ok w' ->
    (forall p rest, In p paths -> other <> Path.names p ++ rest) ->
    other <> [] ->
    kind_at (files w') other = kind_at (files w) other.
Proof.
  induction paths as [|p rest IH]; intros w w' Hrun Hout Hne; simpl in Hrun.
  - now injection Hrun as <-.
  - destruct (CleanCommand._rmdir_if_exists p w) as [w1|] eqn:Hstep;
      simpl in Hrun; [|discriminate].
    rewrite (IH _ _ Hrun) by (try assumption; intros; apply Hout; now right).
    apply (rmdir_if_exists_keeps _ _ _ _ Hstep); [|exact Hne].
    intros r. apply Hout. now left.
Qed.

Lemma rglob_paths_selected (fs : FS.t) (pattern : string) (p : Path.t) :
  In p (FS.rglob fs pattern) ->
  exists parent name,
    Path.names p = parent ++ [name] /\ FS.fnmatch pattern name = true.
Proof.
  unfold FS.rglob. intros Hp.
  apply in_map_iff in Hp as [names [<- Hnames]]. simpl.
  exact (rglob_names_selected _ _ _ Hnames).
Qed.

(** X10: [run] leaves alone whatever is not below a directory it is set
    to remove: a path that goes neither through [build] or [dist] at the
    top, when these flags are on, nor through a name matching the
    egg-info pattern, when that flag is on, is after the run what it was
    before, a directory, a file or nothing. *)
Theorem clean_keeps_others (self : CleanCommand.t) (w w' : World)
    (names : list string)
    (Hrun : CleanCommand.run self w = Ok w')
    (Hother : targeted self names = false) :
  kind_at (files w') names = kind_at (files w) names.
Proof.
  destruct names as [|first others]; [reflexivity|].
  unfold targeted in Hother.
  apply orb_false_iff in Hother as [Hother Hegg].
  apply orb_false_iff in Hother as [Hbuild Hdist].
  rewrite clean_run_unfold in Hrun.
  set (w0 := print "Running clean command..." w) in *.
  destruct (if CleanCommand.build self then _ else Ok w0) as [w1|] eqn:H1;
    simpl in Hrun; [|discriminate].
  destruct (if CleanCommand.dist self then _ else Ok w1) as [w2|] eqn:H2;
    simpl in Hrun; [|discriminate].
  destruct (if CleanCommand.egg_info self then _ else Ok w2) as [w3|] eqn:H3;
    simpl in Hrun; [|discriminate].
  injection Hrun as <-. simpl.
  assert (K1 : kind_at (files w1) (first :: others) = kind_at (files w) (first :: others)).
  { destruct (CleanCommand.build self); [|now injection H1 as <-].
    rewrite (rmdir_if_exists_keeps _ _ _ _ H1); [reflexivity | | discriminate].
    simpl. intros rest [= -> _]. discriminate. }
  assert (K2 : kind_at (files w2) (first :: others) = kind_at (files w1) (first :: others)).
  { destruct (CleanCommand.dist self); [|now injection H2 as <-].
    rewrite (rmdir_if_exists_keeps _ _ _ _ H2); [reflexivity | | discriminate].
    simpl. intros rest [= -> _]. discriminate. }
  assert (K3 : kind_at (files w3) (first :: others) = kind_at (files w2) (first :: others)).
  { destruct (CleanCommand.egg_info self); [|now injection H3 as <-].
    apply (for_each_rmdir_keeps _ _ _ _ H3); [|discriminate].
    intros p rest Hp Heq.
    destruct (rglob_paths_selected _ _ _ Hp) as [parent [name [Hnames Hsel]]].
    rewrite Heq, Hnames, !existsb_app in Hegg. cbn [existsb] in Hegg.
    rewrite Hsel in Hegg. cbn [orb andb] in Hegg.
    rewrite orb_true_r in Hegg. discriminate. }
  now rewrite K3, K2, K1.
Qed.

Lemma clean_keeps_others_witness :
  kind_at
    [("src", Dir [("main", Dir [("python", Dir [("app", Dir [("main.py", File)])])])]);
     ("notes.egg-info", File)]
    ["src"; "main"; "python"; "app"; "main.py"]
  = kind_at built_project ["src"; "main"; "python"; "app"; "main.py"].
Proof.
  apply (clean_keeps_others
           (CleanCommand.finalize_options CleanCommand.create)
           {| files := built_project; stdout := [] |}
           {| files := [("src", Dir [("main", Dir [("python",
                                       Dir [("app", Dir [("main.py", File)])])])]);
                        ("notes.egg-info", File)];
              stdout := ["Running clean command...";
                         " |- Remove build directory";
                         " |- Remove dist directory";
                         " |- Remove old.egg-info directory";
                         " |- Remove src/main/python/app.egg-info directory";
                         "Clean command done"] |});
    reflexivity.
Defined.

Lemma fnmatch_star_step (pattern name : string) :
  FS.fnmatch (String "*" pattern) name
  = FS.fnmatch pattern name
    || match name with
       | EmptyString => false
       | String _ name' => FS.fnmatch (String "*" pattern) name'
       end.
Proof. destruct name; reflexivity. Qed.

Lemma fnmatch_star (pattern name : string) :
  FS.fnmatch (String "*" pattern) name = true
  <-> exists skipped rest, name = skipped +++ rest /\ FS.fnmatch pattern rest = true.
Proof.
  induction name as [|c name' IH]; rewrite fnmatch_star_step.
  - rewrite orb_false_r. split.
    + intros H. now exists "", "".
    + intros [skipped [rest [Heq H]]].
      destruct skipped; [|discriminate]. simpl in Heq. now subst rest.
  - rewrite orb_true_iff, IH. split.
    + intros [H|[skipped [rest [-> H]]]].
      * now exists "", (String c name').
      * now exists (String c skipped), rest.
    + intros [skipped [rest [Heq H]]]. destruct skipped as [|d skipped'].
      * left. simpl in Heq. now subst rest.
      * right. injection Heq as -> ->. now exists skipped', rest.
Qed.

Lemma fnmatch_literal (pattern : string) :
  is_literal pattern = true ->
  forall name, FS.fnmatch pattern name = String.eqb pattern name.
Proof.
  induction pattern as [|c rest IH]; intros Hlit name.
  - destruct name; reflexivity.
  - simpl in Hlit. apply andb_true_iff in Hlit as [Hc Hrest].
    apply andb_true_iff in Hc as [Hstar Hany].
    assert (Hstep : FS.fnmatch (String c rest) name
                    = match name with
                      | EmptyString => false
                      | String d name' => Ascii.eqb c d && FS.fnmatch rest name'
                      end).
    { destruct c as [[] [] [] [] [] [] [] []]; try reflexivity; discriminate. }
    rewrite Hstep. destruct name as [|d name']; [reflexivity|].
    rewrite (IH Hrest). reflexivity.
Qed.

(** X11: a name matches the egg-info pattern exactly when it ends with
    [.egg-info]; a name that is [.egg-info] and no more matches too. *)
Theorem egg_info_pattern_suffix (name : string) :
  FS.fnmatch CleanCommand.EGG_INFO_PATTERN name = true
  <-> exists stem, name = stem +++ ".egg-info".
Proof.
  unfold CleanCommand.EGG_INFO_PATTERN. rewrite fnmatch_star. split.
  - intros [skipped [rest [-> H]]].
    rewrite fnmatch_literal in H by reflexivity.
    apply String.eqb_eq in H. subst rest. now exists skipped.
  - intros [stem ->]. exists stem, ".egg-info". split; [reflexivity|].
    rewrite fnmatch_literal by reflexivity. apply String.eqb_refl.
Qed.

Lemma egg_info_suffix_matches (stem : string) :
  FS.fnmatch CleanCommand.EGG_INFO_PATTERN (stem +++ ".egg-info") = true.
Proof.
  unfold CleanCommand.EGG_INFO_PATTERN. apply fnmatch_star.
  exists stem, ".egg-info". split; [reflexivity|].
  rewrite fnmatch_literal by reflexivity. apply String.eqb_refl.
Qed.

Lemma rglob_step_clears (pattern : string) (w w' : World) :
  for_each (FS.rglob (files w) pattern) CleanCommand._rmdir_if_exists w = Ok w' ->
  fs_le (files w') (files w)
  /\ no_selected_dir (FS.fnmatch pattern) (files w').
Proof.
  intros Hrun.
  destruct (for_each_rmdir_spec (FS.rglob (files w) pattern) w)
    as [w1 [Hrun1 [Hle Hgone]]].
  { intros p Hp. destruct (rglob_paths_selected _ _ _ Hp) as [parent [name [-> _]]].
    now destruct parent. }
  rewrite Hrun in Hrun1. injection Hrun1 as <-.
  split; [exact Hle|].
  intros parent name Hsel.
  destruct (FS.is_dir_names (files w') (parent ++ [name])) eqn:Hdir; [|reflexivity].
  pose proof (Hle _ Hdir) as Hdir0.
  pose proof (rglob_names_complete _ parent (files w) name Hsel Hdir0) as Hin.
  specialize (Hgone {| Path.root := ""; Path.names := parent ++ [name] |}).
  unfold FS.is_dir in Hgone. simpl in Hgone. rewrite <- Hgone, Hdir; [reflexivity|].
  unfold FS.rglob. apply in_map_iff. eexists. split; [reflexivity | exact Hin].
Qed.

Lemma rmdir_if_exists_result (dir_path : Path.t) (w w' : World) :
  Path.names dir_path <> [] ->
  CleanCommand._rmdir_if_exists dir_path w = Ok w' ->
  fs_le (files w') (files w) /\ FS.is_dir (files w') dir_path = false.
Proof.
  intros Hne Hrun.
  destruct (rmdir_if_exists_spec dir_path w Hne) as [w1 [Hrun1 H]].
  rewrite Hrun in Hrun1. now injection Hrun1 as <-.
Qed.

Lemma only_removes_refl (fs : FS.t) : only_removes fs fs.
Proof. intros names. now left. Qed.

Lemma only_removes_trans (fs'' fs' fs : FS.t) :
  only_removes fs'' fs' -> only_removes fs' fs -> only_removes fs'' fs.
Proof.
  intros Hlate Hearly names.
  destruct (Hlate names) as [Hsame|Hgone]; [|now right].
  rewrite Hsame. apply Hearly.
Qed.

(** Removing a directory puts nothing anywhere. *)
Lemma rmtree_names_only_removes (names : list string) :
  forall entries entries',
    FS.rmtree_names names entries = Ok entries' ->
    only_removes entries' entries.
Proof.
  induction names as [|x rest IH]; intros entries entries' Hrm other;
    simpl in Hrm.
  - discriminate.
  - destruct (Dict.get x entries) as [[|children]|] eqn:Hx; try discriminate.
    destruct other as [|y other']; [now left|].
    rewrite !kind_at_cons.
    destruct rest as [|z rest'].
    + injection Hrm as <-.
      destruct (String.eqb y x) eqn:E.
      * apply String.eqb_eq in E. subst y.
        right. now rewrite dict_get_remove_same.
      * apply String.eqb_neq in E. left. now rewrite dict_get_remove_other.
    + destruct (FS.rmtree_names (z :: rest') children) as [children'|] eqn:Hin;
        simpl in Hrm; [|discriminate].
      injection Hrm as <-.
      destruct (String.eqb y x) eqn:E.
      * apply String.eqb_eq in E. subst y.
        rewrite dict_get_set_same, Hx. exact (IH _ _ Hin other').
      * apply String.eqb_neq in E. left. now rewrite dict_get_set_other.
Qed.

Lemma rmdir_if_exists_only_removes (dir_path : Path.t) (w w' : World) :
  CleanCommand._rmdir_if_exists dir_path w = Ok w' ->
  only_removes (files w') (files w).
Proof.
  unfold CleanCommand._rmdir_if_exists, FS.rmtree.
  destruct (FS.is_dir (files w) dir_path);
    [|intros [= <-]; apply only_removes_refl].
  simpl.
  destruct (FS.rmtree_names (Path.names dir_path) (files w)) as [fs'|] eqn:Hrm;
    simpl; [|discriminate].
  intros [= <-]. simpl. exact (rmtree_names_only_removes _ _ _ Hrm).
Qed.

Lemma for_each_rmdir_only_removes (paths : list Path.t) :
  forall w w',
    for_each paths CleanCommand._rmdir_if_exists w = Ok w' ->
    only_removes (files w') (files w).
Proof.
  induction paths as [|p rest IH]; intros w w' Hrun; simpl in Hrun.
  - injection Hrun as <-. apply only_removes_refl.
  - destruct (CleanCommand._rmdir_if_exists p w) as [w1|] eqn:Hstep;
      simpl in Hrun; [|discriminate].
    apply (only_removes_trans _ (files w1)).
    + exact (IH _ _ Hrun).
    + exact (rmdir_if_exists_only_removes _ _ _ Hstep).
Qed.

(** X12: after [run], what the command was set to remove is gone: no
    directory [build], no directory [dist], and no directory anywhere
    whose name ends with [.egg-info], each when its flag is on; and the
    run has made nothing: whatever is at a path after the run, a
    directory or a file, was at that path before, as a directory or as a
    file alike. *)
Theorem clean_removes_targets (self : CleanCommand.t) (w w' : World)
    (Hrun : CleanCommand.run self w = Ok w') :
  (CleanCommand.build self = true ->
   FS.is_dir (files w') CleanCommand.BUILD_PATH = false)
  /\ (CleanCommand.dist self = true ->
      FS.is_dir (files w') CleanCommand.DIST_PATH = false)
  /\ (CleanCommand.egg_info self = true ->
      forall parent stem,
        FS.is_dir_names (files w') (parent ++ [stem +++ ".egg-info"]) = false)
  /\ (forall names,
        kind_at (files w') names = kind_at (files w) names
        \/ kind_at (files w') names = None).
Proof.
  rewrite clean_run_unfold in Hrun.
  set (w0 := print "Running clean command..." w) in *.
  destruct (if CleanCommand.build self then _ else Ok w0) as [w1|] eqn:H1;
    simpl in Hrun; [|discriminate].
  destruct (if CleanCommand.dist self then _ else Ok w1) as [w2|] eqn:H2;
    simpl in Hrun; [|discriminate].
  destruct (if CleanCommand.egg_info self then _ else Ok w2) as [w3|] eqn:H3;
    simpl in Hrun; [|discriminate].
  injection Hrun as <-. simpl.
  assert (O1 : only_removes (files w1) (files w)).
  { destruct (CleanCommand.build self).
    - exact (rmdir_if_exists_only_removes _ _ _ H1).
    - injection H1 as <-. apply only_removes_refl. }
  assert (O2 : only_removes (files w2) (files w1)).
  { destruct (CleanCommand.dist self).
    - exact (rmdir_if_exists_only_removes _ _ _ H2).
    - injection H2 as <-. apply only_removes_refl. }
  assert (O3 : only_removes (files w3) (files w2)).
  { destruct (CleanCommand.egg_info self).
    - exact (for_each_rmdir_only_removes _ _ _ H3).
    - injection H3 as <-. apply only_removes_refl. }
  assert (L1 : fs_le (files w1) (files w)
               /\ (CleanCommand.build self = true ->
                   FS.is_dir (files w1) CleanCommand.BUILD_PATH = false)).
  { destruct (CleanCommand.build self).
    - apply rmdir_if_exists_result in H1 as [Hle Hgone]; [|discriminate].
      split; [exact Hle | now intros _].
    - injection H1 as <-. split; [apply fs_le_refl | discriminate]. }
  assert (L2 : fs_le (files w2) (files w1)
               /\ (CleanCommand.dist self = true ->
                   FS.is_dir (files w2) CleanCommand.DIST_PATH = false)).
  { destruct (CleanCommand.dist self).
    - apply rmdir_if_exists_result in H2 as [Hle Hgone]; [|discriminate].
      split; [exact Hle | now intros _].
    - injection H2 as <-. split; [apply fs_le_refl | discriminate]. }
  assert (L3 : fs_le (files w3) (files w2)
               /\ (CleanCommand.egg_info self = true ->
                   no_selected_dir (FS.fnmatch CleanCommand.EGG_INFO_PATTERN)
                     (files w3))).
  { destruct (CleanCommand.egg_info self).
    - apply rglob_step_clears in H3 as [Hle Hclear].
      split; [exact Hle | now intros _].
    - injection H3 as <-. split; [apply fs_le_refl | discriminate]. }
  destruct L1 as [Hle1 Hb], L2 as [Hle2 Hd], L3 as [Hle3 He].
  split; [|split; [|split]].
  - intros Hflag. apply (fs_le_not_dir _ (files w1)); [|now apply Hb].
    eapply fs_le_trans; eassumption.
  - intros Hflag. apply (fs_le_not_dir _ (files w2)); [exact Hle3 | now apply Hd].
  - intros Hflag parent stem. apply (He Hflag).
    apply egg_info_suffix_matches.
  - apply (only_removes_trans _ (files w2)); [exact O3|].
    apply (only_removes_trans _ (files w1)); [exact O2|].
    unfold w0, print in O1. exact O1.
Qed.

Lemma clean_removes_targets_witness :
  FS.is_dir_names
    [("src", Dir [("main", Dir [("python", Dir [("app", Dir [("main.py", File)])])])]);
     ("notes.egg-info", File)]
    (["src"; "main"; "python"] ++ ["app" +++ ".egg-info"]) = false.
Proof.
  refine (proj1 (proj2 (proj2
            (clean_removes_targets
               (CleanCommand.finalize_options CleanCommand.create)
               {| files := built_project; stdout := [] |}
               {| files := [("src", Dir [("main", Dir [("python",
                                          Dir [("app", Dir [("main.py", File)])])])]);
                            ("notes.egg-info", File)];
                  stdout := ["Running clean command...";
                             " |- Remove build directory";
                             " |- Remove dist directory";
                             " |- Remove old.egg-info directory";
                             " |- Remove src/main/python/app.egg-info directory";
                             "Clean command done"] |}
               _))) _ ["src"; "main"; "python"] "app");
    reflexivity.
Defined.

(** ** The test command, further *)

(** The directory the command computes for a package is the test source
    folder followed by the segments of its name. *)
Lemma pkg_path_segments (self : TestCommand.t) (segments : list string) :
  forallb is_segment segments = true ->
  TestCommand.pkg_path self (dotted segments)
  = {| Path.root := Path.root (TestCommand.test_src_folder self);
       Path.names := Path.names (TestCommand.test_src_folder self) ++ segments |}.
Proof.
  intros Hsegments. unfold TestCommand.pkg_path.
  change (Str.replace "." "/" (dotted segments))
    with (Str.replace (String "." "") (String "/" "") (dotted segments)).
  rewrite replace_char, subst_dotted by exact Hsegments.
  unfold Path.joinpath. now rewrite path_of_segments.
Qed.

Lemma pkg_path_directory (self : TestCommand.t) (segments : list string) :
  forallb is_segment segments = true ->
  Path.as_posix (TestCommand.pkg_path self (dotted segments))
  = package_directory self segments.
Proof.
  intros Hsegments. now rewrite pkg_path_segments.
Qed.

(** The file the command tests for is the marker file of the package. *)
Lemma lacks_init_marker (env : TestEnv) (self : TestCommand.t)
    (segments : list string) :
  forallb is_segment segments = true ->
  TestCommand.lacks_init env self (dotted segments)
  = negb (env_is_file env (marker_file self segments)).
Proof.
  intros Hsegments. unfold TestCommand.lacks_init, marker_file.
  rewrite pkg_path_segments by exact Hsegments.
  unfold Path.joinpath.
  change (Path.of_string "__init__.py")
    with {| Path.root := ""; Path.names := ["__init__.py"] |}.
  cbn [Path.root Path.names Str.is_empty]. now rewrite <- app_assoc.
Qed.

Lemma marker_less_segments (env : TestEnv) (self : TestCommand.t)
    (pkgs : list (list string)) :
  forallb (forallb is_segment) pkgs = true ->
  filter (TestCommand.lacks_init env self) (map dotted pkgs)
  = map dotted (without_marker env self pkgs).
Proof.
  unfold without_marker.
  induction pkgs as [|segments rest IH]; intros Hpkgs; [reflexivity|].
  cbn [forallb] in Hpkgs. apply andb_true_iff in Hpkgs as [Hsegments Hrest].
  cbn [map filter]. rewrite (lacks_init_marker _ _ _ Hsegments).
  destruct (negb (env_is_file env (marker_file self segments)));
    cbn [map]; now rewrite IH.
Qed.

Lemma without_marker_segments (env : TestEnv) (self : TestCommand.t)
    (pkgs : list (list string)) :
  forallb (forallb is_segment) pkgs = true ->
  forallb (forallb is_segment) (without_marker env self pkgs) = true.
Proof.
  unfold without_marker. rewrite !forallb_forall.
  intros Hpkgs segments Hin. apply filter_In in Hin as [Hin _]. now apply Hpkgs.
Qed.

Lemma directories_of_segments (self : TestCommand.t) (pkgs : list (list string)) :
  forallb (forallb is_segment) pkgs = true ->
  map (fun pkg => Path.as_posix (TestCommand.pkg_path self pkg)) (map dotted pkgs)
  = map (package_directory self) pkgs.
Proof.
  induction pkgs as [|segments rest IH]; intros Hpkgs; [reflexivity|].
  cbn [forallb] in Hpkgs. apply andb_true_iff in Hpkgs as [Hsegments Hrest].
  cbn [map]. now rewrite pkg_path_directory, IH.
Qed.

Lemma discoveries_of_segments (env : TestEnv) (self : TestCommand.t)
    (pkgs : list (list string)) :
  forallb (forallb is_segment) pkgs = true ->
  mapM (discover_in env self) (map dotted pkgs)
  = mapM (fun segments => scoped_discovery env self (package_directory self segments))
      pkgs.
Proof.
  induction pkgs as [|segments rest IH]; intros Hpkgs; [reflexivity|].
  cbn [forallb] in Hpkgs. apply andb_true_iff in Hpkgs as [Hsegments Hrest].
  cbn [map mapM]. rewrite IH by exact Hrest.
  unfold discover_in at 1. rewrite pkg_path_directory by exact Hsegments.
  reflexivity.
Qed.

(** The version warning returns when the version string starts with
    numbers. *)
Lemma version_warning_parsed (env : TestEnv) (pkg : string) (r : TestRun)
    (first : string) (others : list string) (major minor : Z) :
  Str.split "." (py_version env) = Ok (first :: others) ->
  Str.int first = Ok major ->
  match others with second :: _ => Str.int second | [] => Ok 0%Z end = Ok minor ->
  exists r', TestCommand._namespace_pkg_workaround_version_warning env pkg r = Ok r'.
Proof.
  intros Hsplit Hmajor Hminor.
  unfold TestCommand._namespace_pkg_workaround_version_warning.
  rewrite Hsplit. cbn [bind]. rewrite Hmajor. cbn [bind]. rewrite Hminor.
  cbn [bind].
  destruct ((3 <? major)%Z || ((major =? 3)%Z && (11 <=? minor)%Z));
    eexists; reflexivity.
Qed.

(** C7: the package finder lists the packages below the test sources by
    their dotted names.  The workaround gives the loader, in order, the
    directory of every package listed whose [__init__.py] is missing, the
    test source folder followed by the segments of the name, as start and
    as top level, and adds the tests found there to the suite exactly when
    they count at least one test case.  So, when the version string of
    Python starts with numbers, the top-level discovery finds the test
    case [a] and the only package listed has no [__init__.py] and holds
    the test case [b], the loader is called on the test sources and on
    the directory of the package, and the suite given to the runner holds
    both test cases. *)
Theorem namespace_tests_merged (env : TestEnv) (self : TestCommand.t)
    (pkgs : list (list string))
    (Hlisted : env_find_namespace_packages env
                 (Path.to_string (TestCommand.test_src_folder self))
               = map dotted pkgs)
    (Hsegments : forallb (forallb is_segment) pkgs = true) :
  (forall r r',
      TestCommand._add_namespace_pkg_tests_workaround env self r = Ok r' ->
      discovered r'
      = discovered r ++ map (package_directory self) (without_marker env self pkgs)
      /\ exists found,
          mapM (fun segments =>
                  scoped_discovery env self (package_directory self segments))
            (without_marker env self pkgs) = Ok found
          /\ suite r'
             = suite r
               ++ concat (filter (fun ns => Nat.ltb 0 (countTestCases ns)) found))
  /\ (forall segments top ns a b first others major minor,
        pkgs = [segments] ->
        env_is_file env (marker_file self segments) = false ->
        Str.split "." (py_version env) = Ok (first :: others) ->
        Str.int first = Ok major ->
        match others with
        | second :: _ => Str.int second
        | [] => Ok 0%Z
        end = Ok minor ->
        scoped_discovery env self
          (Path.as_posix (TestCommand.test_src_folder self)) = Ok top ->
        scoped_discovery env self (package_directory self segments) = Ok ns ->
        In a (cases top) ->
        In b (cases ns) ->
        exists r,
          TestCommand.collect env self = Ok r
          /\ discovered r
             = [Path.as_posix (TestCommand.test_src_folder self);
                package_directory self segments]
          /\ suite r = top ++ ns
          /\ In a (cases (suite r))
          /\ In b (cases (suite r))
          /\ TestCommand.run env self
             = if env_run env (top ++ ns) then Ok r else Raise DistutilsError).
Proof.
  split.
  - intros r r' Hrun.
    unfold TestCommand._add_namespace_pkg_tests_workaround in Hrun.
    rewrite Hlisted in Hrun.
    destruct (workaround_loop env self _ r r' Hrun)
      as [Hdiscovered [found [Hfound Hsuite]]].
    rewrite marker_less_segments in Hdiscovered, Hfound by exact Hsegments.
    pose proof (without_marker_segments env self pkgs Hsegments) as Hkept.
    rewrite directories_of_segments in Hdiscovered by exact Hkept.
    rewrite discoveries_of_segments in Hfound by exact Hkept.
    split; [exact Hdiscovered|]. exists found. now split.
  - intros segments top ns a b first others major minor
      Hpkgs Hmarker Hsplit Hmajor Hminor Htop Hns Ha Hb.
    subst pkgs. cbn [forallb] in Hsegments. rewrite andb_true_r in Hsegments.
    cbn [map] in Hlisted.
    assert (Hcount : Nat.ltb 0 (countTestCases ns) = true).
    { apply Nat.ltb_lt. rewrite countTestCases_cases.
      destruct (cases ns); [contradiction | simpl; lia]. }
    destruct (version_warning_parsed env (dotted segments)
                {| suite := top;
                   discovered := [Path.as_posix (TestCommand.test_src_folder self)];
                   stderr := [] |} first others major minor Hsplit Hmajor Hminor)
      as [r1 Hwarn].
    destruct (version_warning_keeps _ _ _ _ Hwarn) as [Hs1 Hd1].
    cbn [suite discovered] in Hs1, Hd1.
    assert (Hcollect :
              TestCommand.collect env self
              = Ok {| suite := addTests (suite r1) ns;
                      discovered := discovered r1
                                    ++ [package_directory self segments];
                      stderr := stderr r1 |}).
    { unfold TestCommand.collect, TestCommand._discover.
      unfold scoped_discovery in Htop. rewrite Htop. cbn [bind].
      unfold TestCommand._add_namespace_pkg_tests_workaround.
      rewrite Hlisted. cbn [for_each].
      rewrite (lacks_init_marker _ _ _ Hsegments), Hmarker. cbn [negb].
      cbn [suite discovered stderr app]. rewrite Hwarn. cbn [bind].
      unfold TestCommand._discover.
      rewrite (pkg_path_directory _ _ Hsegments).
      unfold scoped_discovery in Hns. rewrite Hns. cbn [bind].
      cbn [suite discovered stderr]. rewrite Hcount. reflexivity. }
    rewrite addTests_app, Hs1, Hd1 in Hcollect. cbn [app] in Hcollect.
    eexists. split; [exact Hcollect|]. cbn [suite discovered].
    split; [reflexivity|]. split; [reflexivity|].
    rewrite cases_app.
    split; [apply in_or_app; now left|].
    split; [apply in_or_app; now right|].
    unfold TestCommand.run. rewrite Hcollect. reflexivity.
Qed.

Lemma namespace_tests_merged_witness :
  (exists r,
      TestCommand.collect layered_test_env
        (test_command_class_factory TEST_SRC_FOLDER DEFAULT_TEST_FILE_PATTERN) = Ok r
      /\ discovered r
         = ["src/test/python"; "src/test/python/ns"; "src/test/python/ns/deep";
            "src/test/python/empty"]
      /\ cases (suite r)
         = ["test_app.AppTest.test_main"; "core.test_core.CoreTest.test_core";
            "test_ns.NsTest.test_ns"; "test_deep.DeepTest.test_deep"])
  /\ (exists r,
        TestCommand.collect sample_test_env
          (test_command_class_factory TEST_SRC_FOLDER DEFAULT_TEST_FILE_PATTERN) = Ok r
        /\ discovered r = ["src/test/python"; "src/test/python/ns"]
        /\ In "test_app.AppTest.test_main" (cases (suite r))
        /\ In "test_ns.NsTest.test_ns" (cases (suite r))).
Proof.
  split.
  - destruct (namespace_tests_merged layered_test_env
                (test_command_class_factory TEST_SRC_FOLDER DEFAULT_TEST_FILE_PATTERN)
                [["core"]; ["ns"]; ["ns"; "deep"]; ["empty"]] eq_refl eq_refl)
      as [Hloop _].
    destruct (Hloop
                {| suite := [Suite [Suite [TestCase "test_app.AppTest.test_main"]];
                             Suite [Suite [TestCase "core.test_core.CoreTest.test_core"]]];
                   discovered := ["src/test/python"]; stderr := [] |}
                {| suite := [Suite [Suite [TestCase "test_app.AppTest.test_main"]];
                             Suite [Suite [TestCase "core.test_core.CoreTest.test_core"]];
                             Suite [Suite [TestCase "test_ns.NsTest.test_ns"]];
                             Suite [Suite [TestCase "test_deep.DeepTest.test_deep"]]];
                   discovered := ["src/test/python"; "src/test/python/ns";
                                  "src/test/python/ns/deep"; "src/test/python/empty"];
                   stderr := [] |} eq_refl)
      as [Hdiscovered _].
    eexists. split; [reflexivity|]. split; [exact Hdiscovered | reflexivity].
  - destruct (namespace_tests_merged sample_test_env
                (test_command_class_factory TEST_SRC_FOLDER DEFAULT_TEST_FILE_PATTERN)
                [["ns"]] eq_refl eq_refl)
      as [_ Hscenario].
    destruct (Hscenario ["ns"]
                [Suite [Suite [TestCase "test_app.AppTest.test_main"]]]
                [Suite [Suite [TestCase "test_ns.NsTest.test_ns"]]]
                "test_app.AppTest.test_main" "test_ns.NsTest.test_ns"
                "3" ["10"; "4 (main, Jun 29 2022, 12:14:53) [GCC 11"; "2"; "0]"]
                3%Z 10%Z eq_refl eq_refl eq_refl eq_refl eq_refl eq_refl eq_refl
                ltac:(simpl; now left) ltac:(simpl; now left))
      as [r [Hr [Hd [_ [Ha [Hb _]]]]]].
    exists r. repeat split; assumption.
Defined.

Lemma workaround_all_classic (env : TestEnv) (self : TestCommand.t)
    (pkgs : list string) (body_state : TestRun) :
  filter (TestCommand.lacks_init env self) pkgs = [] ->
  for_each pkgs
    (fun pkg r =>
       if TestCommand.lacks_init env self pkg then
         r <- TestCommand._namespace_pkg_workaround_version_warning env pkg r ;;
         '(namespace_suite, r) <-
            TestCommand._discover env self (Some (TestCommand.pkg_path self pkg)) r ;;
         if Nat.ltb 0 (countTestCases namespace_suite)
         then Ok {| suite := addTests (suite r) namespace_suite;
                    discovered := discovered r; stderr := stderr r |}
         else Ok r
       else Ok r)
    body_state = Ok body_state.
Proof.
  induction pkgs as [|pkg rest IH]; intros Hnone; [reflexivity|].
  simpl in Hnone. simpl.
  destruct (TestCommand.lacks_init env self pkg); [discriminate|].
  simpl. now apply IH.
Qed.

(** X13: when every package below the test sources has [__init__.py],
    the workaround does nothing, whatever the Python version: the loader
    is called once, on the test sources, nothing is written to
    [sys.stderr], and the command succeeds exactly when the runner
    reports success on what that call found. *)
Theorem test_run_classic_packages (env : TestEnv) (self : TestCommand.t)
    (top : TestSuite)
    (Hclassic : marker_less env self = [])
    (Htop : env_discover env
              (Path.as_posix (TestCommand.test_src_folder self))
              (Path.as_posix (TestCommand.test_src_folder self))
              (TestCommand.test_file_pattern self) = Ok top) :
  TestCommand.run env self
  = if env_run env top
    then Ok {| suite := top;
               discovered := [Path.as_posix (TestCommand.test_src_folder self)];
               stderr := [] |}
    else Raise DistutilsError.
Proof.
  unfold TestCommand.run, TestCommand.collect, TestCommand._discover.
  rewrite Htop. simpl.
  unfold TestCommand._add_namespace_pkg_tests_workaround.
  rewrite workaround_all_classic by exact Hclassic.
  reflexivity.
Qed.

Lemma test_run_classic_packages_witness :
  TestCommand.run classic_test_env
    (test_command_class_factory TEST_SRC_FOLDER DEFAULT_TEST_FILE_PATTERN)
  = Ok {| suite := [Suite [TestCase "pkg.test_a.ATest.test_a"]];
          discovered := ["src/test/python"];
          stderr := [] |}.
Proof.
  apply (test_run_classic_packages classic_test_env
           (test_command_class_factory TEST_SRC_FOLDER DEFAULT_TEST_FILE_PATTERN)
           [Suite [TestCase "pkg.test_a.ATest.test_a"]]);
    reflexivity.
Defined.

Lemma version_warning_stderr (env : TestEnv) (pkg : string) (r r' : TestRun)
    (first : string) (others : list string) (major minor : Z) :
  Str.split "." (py_version env) = Ok (first :: others) ->
  Str.int first = Ok major ->
  match others with second :: _ => Str.int second | [] => Ok 0%Z end = Ok minor ->
  TestCommand._namespace_pkg_workaround_version_warning env pkg r = Ok r' ->
  stderr r'
  = stderr r
    ++ (if (3 <? major)%Z || ((major =? 3)%Z && (11 <=? minor)%Z)
        then [TestCommand.warning_message pkg] else []).
Proof.
  intros Hsplit Hmajor Hminor.
  unfold TestCommand._namespace_pkg_workaround_version_warning.
  rewrite Hsplit. simpl. rewrite Hmajor. simpl. rewrite Hminor. simpl.
  destruct ((3 <? major)%Z || ((major =? 3)%Z && (11 <=? minor)%Z));
    intros [= <-]; simpl; [reflexivity | now rewrite app_nil_r].
Qed.

Lemma workaround_loop_stderr (env : TestEnv) (self : TestCommand.t)
    (first : string) (others : list string) (major minor : Z)
    (pkgs : list string) :
  Str.split "." (py_version env) = Ok (first :: others) ->
  Str.int first = Ok major ->
  match others with second :: _ => Str.int second | [] => Ok 0%Z end = Ok minor ->
  forall r r',
    for_each pkgs
      (fun pkg r =>
         if TestCommand.lacks_init env self pkg then
           r <- TestCommand._namespace_pkg_workaround_version_warning env pkg r ;;
           '(namespace_suite, r) <-
              TestCommand._discover env self (Some (TestCommand.pkg_path self pkg)) r ;;
           if Nat.ltb 0 (countTestCases namespace_suite)
           then Ok {| suite := addTests (suite r) namespace_suite;
                      discovered := discovered r; stderr := stderr r |}
           else Ok r
         else Ok r)
      r = Ok r' ->
    stderr r'
    = stderr r
      ++ (if (3 <? major)%Z || ((major =? 3)%Z && (11 <=? minor)%Z)
          then map TestCommand.warning_message
                 (filter (TestCommand.lacks_init env self) pkgs)
          else []).
Proof.
  intros Hsplit Hmajor Hminor.
  induction pkgs as [|pkg rest IH]; intros r r' Hrun; simpl in Hrun.
  - injection Hrun as <-. simpl.
    destruct (_ || _); now rewrite app_nil_r.
  - simpl. destruct (TestCommand.lacks_init env self pkg) eqn:Hlacks.
    + destruct (TestCommand._namespace_pkg_workaround_version_warning env pkg r)
        as [r1|] eqn:Hwarn; simpl in Hrun; [|discriminate].
      pose proof (version_warning_stderr _ _ _ _ _ _ _ _ Hsplit Hmajor Hminor Hwarn)
        as Hstderr.
      unfold TestCommand._discover in Hrun.
      destruct (env_discover env _ _ _) as [ns|]; simpl in Hrun; [|discriminate].
      destruct (Nat.ltb 0 (countTestCases ns)); simpl in Hrun;
        apply IH in Hrun; simpl in Hrun; rewrite Hrun, Hstderr;
        destruct (_ || _); simpl; rewrite <- ?app_assoc; reflexivity.
    + simpl in Hrun. now apply IH.
Qed.

(** X14: the workaround writes to [sys.stderr] one warning for each
    package without [__init__.py], in order and naming the package, when
    the version of Python is 3.11 or later, and nothing for an earlier
    version; packages with [__init__.py] are never warned about. *)
Theorem workaround_warnings (env : TestEnv) (self : TestCommand.t)
    (first : string) (others : list string) (major minor : Z) (r r' : TestRun)
    (Hsplit : Str.split "." (py_version env) = Ok (first :: others))
    (Hmajor : Str.int first = Ok major)
    (Hminor : match others with
              | second :: _ => Str.int second
              | [] => Ok 0%Z
              end = Ok minor)
    (Hrun : TestCommand._add_namespace_pkg_tests_workaround env self r = Ok r') :
  stderr r'
  = stderr r
    ++ (if (3 <? major)%Z || ((major =? 3)%Z && (11 <=? minor)%Z)
        then map TestCommand.warning_message (marker_less env self)
        else []).
Proof.
  exact (workaround_loop_stderr env self first others major minor _
           Hsplit Hmajor Hminor r r' Hrun).
Qed.

Lemma workaround_warnings_witness :
  exists r',
    TestCommand._add_namespace_pkg_tests_workaround python312_test_env
      (test_command_class_factory TEST_SRC_FOLDER DEFAULT_TEST_FILE_PATTERN)
      {| suite := []; discovered := []; stderr := [] |} = Ok r'
    /\ stderr r' = [TestCommand.warning_message "ns"].
Proof.
  eexists. split; [reflexivity|].
  apply (workaround_warnings python312_test_env
           (test_command_class_factory TEST_SRC_FOLDER DEFAULT_TEST_FILE_PATTERN)
           "3" ["12"; "1 (main, Dec  8 2023, 05:40:51) [GCC 11"; "4"; "0]"]
           3%Z 12%Z {| suite := []; discovered := []; stderr := [] |});
    reflexivity.
Defined.

(** X15: when the version string of Python does not start with a number,
    the first package without [__init__.py] makes the workaround raise
    [ValueError], before the loader is called for it. *)
Theorem workaround_version_unreadable (env : TestEnv) (self : TestCommand.t)
    (first : string) (others : list string) (r : TestRun)
    (Hsplit : Str.split "." (py_version env) = Ok (first :: others))
    (Hmajor : Str.int first = Raise ValueError)
    (Hpkg : marker_less env self <> []) :
  TestCommand._add_namespace_pkg_tests_workaround env self r = Raise ValueError.
Proof.
  unfold TestCommand._add_namespace_pkg_tests_workaround, marker_less in *.
  induction (env_find_namespace_packages env
               (Path.to_string (TestCommand.test_src_folder self)))
    as [|pkg rest IH]; [contradiction|].
  simpl in Hpkg. simpl.
  destruct (TestCommand.lacks_init env self pkg).
  - unfold TestCommand._namespace_pkg_workaround_version_warning.
    rewrite Hsplit. simpl. rewrite Hmajor. reflexivity.
  - simpl. now apply IH.
Qed.

Lemma workaround_version_unreadable_witness :
  TestCommand._add_namespace_pkg_tests_workaround
    {| env_find_namespace_packages := env_find_namespace_packages sample_test_env;
       env_is_file := env_is_file sample_test_env;
       env_discover := env_discover sample_test_env;
       env_run := env_run sample_test_env;
       py_version := "unknown" |}
    (test_command_class_factory TEST_SRC_FOLDER DEFAULT_TEST_FILE_PATTERN)
    {| suite := []; discovered := []; stderr := [] |}
  = Raise ValueError
  /\ TestCommand._add_namespace_pkg_tests_workaround
       {| env_find_namespace_packages := env_find_namespace_packages sample_test_env;
          env_is_file := env_is_file sample_test_env;
          env_discover := env_discover sample_test_env;
          env_run := env_run sample_test_env;
          py_version := String (ascii_of_nat 28) "3.11" |}
       (test_command_class_factory TEST_SRC_FOLDER DEFAULT_TEST_FILE_PATTERN)
       {| suite := []; discovered := []; stderr := [] |}
     = Raise ValueError.
Proof.
  split.
  - apply (workaround_version_unreadable _ _ "unknown" []);
      try reflexivity. discriminate.
  - apply (workaround_version_unreadable _ _ (String (ascii_of_nat 28) "3") ["11"]);
      try reflexivity. discriminate.
Defined.

(** ** The configuration resolver, further *)

Lemma replace_pairs_doubled (v : string) :
  forall fuel, String.length (double_dollars v) <= fuel ->
    Str.replace_from fuel "$$" "" (double_dollars v) = without_dollars v.
Proof.
  induction v as [|c r IH]; intros fuel Hfuel.
  - destruct fuel; reflexivity.
  - cbn [double_dollars without_dollars] in *.
    destruct (Ascii.eqb c "$") eqn:E.
    + destruct fuel as [|fuel]; [simpl in Hfuel; lia|].
      cbn [Str.replace_from Str.startswith]. rewrite !Ascii.eqb_refl.
      cbn [andb String.append String.length Str.drop].
      apply IH. simpl in Hfuel. lia.
    + destruct fuel as [|fuel]; [simpl in Hfuel; lia|].
      cbn [Str.replace_from Str.startswith]. rewrite Ascii.eqb_sym, E.
      cbn [andb]. rewrite IH by (simpl in Hfuel; lia). reflexivity.
Qed.

Lemma without_dollars_clean (v : string) :
  Str.contains "$" (without_dollars v) = false.
Proof.
  induction v as [|c r IH]; [reflexivity|].
  cbn [without_dollars]. destruct (Ascii.eqb c "$") eqn:E; [exact IH|].
  cbn [Str.contains]. now rewrite Ascii.eqb_sym, E, IH.
Qed.

Lemma keycre_match_dollar (s : string) :
  (forall tail, s <> String "$" tail) -> ConfigParser.keycre_match s = None.
Proof.
  intros Hhead. destruct s as [|c r]; [reflexivity|].
  destruct (Ascii.eqb c "$") eqn:E.
  - apply Ascii.eqb_eq in E. subst c. now destruct (Hhead r).
  - unfold ConfigParser.keycre_match.
    destruct c as [[] [] [] [] [] [] [] []]; try reflexivity.
    discriminate.
Qed.

Lemma keycre_strip_clean (fuel : nat) :
  forall s, Str.contains "$" s = false ->
    ConfigParser.keycre_strip fuel s = s.
Proof.
  induction fuel as [|fuel IH]; intros s Hclean; [reflexivity|].
  destruct s as [|c r]; [reflexivity|].
  cbn [ConfigParser.keycre_strip].
  cbn [Str.contains] in Hclean. apply orb_false_iff in Hclean as [Hc Hr].
  rewrite keycre_match_dollar.
  - now rewrite (IH r Hr).
  - intros tail [= -> _]. now rewrite Ascii.eqb_refl in Hc.
Qed.

(** A value with its dollars doubled passes the check [set] makes. *)
Lemma before_set_doubled (v : string) :
  ConfigParser.before_set (double_dollars v) = Ok (double_dollars v).
Proof.
  unfold ConfigParser.before_set, Str.replace. cbn [Str.is_empty].
  rewrite replace_pairs_doubled by lia.
  rewrite keycre_strip_clean by apply without_dollars_clean.
  now rewrite without_dollars_clean.
Qed.

Lemma settable_doubled (v : string) : settable (double_dollars v) = true.
Proof.
  unfold settable. rewrite before_set_doubled. apply orb_true_r.
Qed.

Lemma set_returns (parser : ConfigParser.t) (section key value : string)
    (sectdict : dict string) :
  section <> "" -> section <> ConfigParser.default_section ->
  settable value = true ->
  Dict.get section (ConfigParser._sections parser) = Some sectdict ->
  ConfigParser.set parser section key value
  = Ok {| ConfigParser._defaults := ConfigParser._defaults parser;
          ConfigParser._sections :=
            Dict.set section
              (Dict.set (ConfigParser.optionxform key) value sectdict)
              (ConfigParser._sections parser) |}.
Proof.
  intros Hne Hnd Hvalue Hsect. unfold ConfigParser.set.
  assert (Hcheck : (if Str.is_empty value then Ok value
                    else ConfigParser.before_set value) = Ok value).
  { unfold settable in Hvalue. destruct (Str.is_empty value); [reflexivity|].
    simpl in Hvalue. unfold ConfigParser.before_set in *.
    destruct (Str.contains _ _); [discriminate | reflexivity]. }
  rewrite Hcheck. simpl. rewrite regular_section by assumption.
  now rewrite Hsect.
Qed.

Lemma added_cons_iff (e e' : ConfigParser.element)
    (elements : list ConfigParser.element) :
  ConfigParser.added e (e' :: elements)
  = ConfigParser.element_eqb e e' || ConfigParser.added e elements.
Proof. reflexivity. Qed.

Lemma element_eqb_option (section a b : string) :
  ConfigParser.element_eqb (section, Some a) (section, Some b) = String.eqb a b.
Proof.
  unfold ConfigParser.element_eqb. simpl. now rewrite String.eqb_refl.
Qed.

Lemma dict_set_set {V : Type} (k : string) (a b : V) (d : dict V) :
  Dict.set k a (Dict.set k b d) = Dict.set k a d.
Proof.
  induction d as [|[k' v'] rest IH]; simpl.
  - now rewrite String.eqb_refl.
  - destruct (String.eqb k k') eqn:E; simpl; rewrite E; [reflexivity|].
    now rewrite IH.
Qed.

Lemma dict_set_get {V : Type} (k : string) (v : V) (d : dict V) :
  Dict.get k d = Some v -> Dict.set k v d = d.
Proof.
  induction d as [|[k' v'] rest IH]; simpl; [discriminate|].
  destruct (String.eqb k k') eqn:E.
  - now intros [= ->].
  - intros H. now rewrite IH.
Qed.

(** [read_dict] on options that are new to a section, and distinct once
    lower-cased, adds them to the section in order and touches nothing
    else. *)
Lemma read_keys_appends (section : string) (keys : dict string) :
  section <> "" -> section <> ConfigParser.default_section ->
  forall parser elements sectdict,
    Dict.get section (ConfigParser._sections parser) = Some sectdict ->
    (forall name, ConfigParser.added (section, Some name) elements = true ->
                  In name (Dict.keys sectdict)) ->
    NoDup (Dict.keys sectdict
           ++ map ConfigParser.optionxform (Dict.keys keys)) ->
    forallb (fun kv => settable (snd kv)) keys = true ->
    exists parser' elements',
      ConfigParser.read_keys section keys (parser, elements) = Ok (parser', elements')
      /\ ConfigParser._defaults parser' = ConfigParser._defaults parser
      /\ Dict.get section (ConfigParser._sections parser')
         = Some (sectdict
                 ++ map (fun kv => (ConfigParser.optionxform (fst kv), snd kv)) keys)
      /\ forall other, other <> section ->
           Dict.get other (ConfigParser._sections parser')
           = Dict.get other (ConfigParser._sections parser).
Proof.
  intros Hne Hnd.
  induction keys as [|[key value] rest IH];
    intros parser elements sectdict Hsect Hadded Hfresh Hvalues.
  - exists parser, elements. cbn [map]. rewrite app_nil_r. now repeat split.
  - simpl in Hvalues. apply andb_true_iff in Hvalues as [Hvalue Hvalues].
    assert (Hnew : ~ In (ConfigParser.optionxform key) (Dict.keys sectdict)).
    { simpl in Hfresh. apply NoDup_remove_2 in Hfresh.
      intros Hin. apply Hfresh. apply in_or_app. now left. }
    assert (Hkey : ConfigParser.added (section, Some (ConfigParser.optionxform key))
                     elements = false).
    { destruct (ConfigParser.added _ elements) eqn:E; [|reflexivity].
      exfalso. apply Hnew. now apply Hadded. }
    pose proof (set_returns parser section (ConfigParser.optionxform key) value
                  sectdict Hne Hnd Hvalue Hsect) as Hset.
    rewrite optionxform_idempotent in Hset.
    rewrite (dict_set_absent (ConfigParser.optionxform key) value sectdict Hnew)
      in Hset.
    match type of Hset with
    | _ = Ok ?p1 =>
        destruct (IH p1
                    ((section, Some (ConfigParser.optionxform key)) :: elements)
                    (sectdict ++ [(ConfigParser.optionxform key, value)]))
          as [parser' [elements' [Hrest [Hdefaults [Hsection Hothers]]]]]
    end.
    + simpl. apply dict_get_set_same.
    + intros name. rewrite added_cons_iff, element_eqb_option.
      unfold Dict.keys. rewrite map_app, in_app_iff. simpl.
      intros H. apply orb_true_iff in H as [H|H].
      * apply String.eqb_eq in H. right. now left.
      * left. now apply Hadded.
    + unfold Dict.keys in *. rewrite map_app. simpl. rewrite <- app_assoc.
      exact Hfresh.
    + exact Hvalues.
    + exists parser', elements'. split; [|split; [|split]].
      * unfold ConfigParser.read_keys. cbn [for_each fst snd].
        rewrite Hkey, Hset. exact Hrest.
      * exact Hdefaults.
      * rewrite Hsection. cbn [map fst snd]. now rewrite <- app_assoc.
      * intros other Hother. rewrite (Hothers other Hother). simpl.
        now apply dict_get_set_other.
Qed.

Lemma setitem_creates (parser : ConfigParser.t) (section : string)
    (value : dict string) :
  section <> "" -> section <> ConfigParser.default_section ->
  NoDup (map ConfigParser.optionxform (Dict.keys value)) ->
  forallb (fun kv => settable (snd kv)) value = true ->
  exists cfg,
    ConfigParser.setitem parser section value = Ok cfg
    /\ ConfigParser._defaults cfg = ConfigParser._defaults parser
    /\ Dict.get section (ConfigParser._sections cfg)
       = Some (map (fun kv => (ConfigParser.optionxform (fst kv), snd kv)) value)
    /\ forall other, other <> section ->
         Dict.get other (ConfigParser._sections cfg)
         = Dict.get other (ConfigParser._sections parser).
Proof.
  intros Hne Hnd Hkeys Hvalues.
  unfold ConfigParser.setitem, ConfigParser.read_dict.
  apply String.eqb_neq in Hnd as Hnd'. rewrite Hnd'.
  cbn [for_each fst snd].
  set (cleared := if Dict.mem section (ConfigParser._sections parser)
                  then {| ConfigParser._defaults := ConfigParser._defaults parser;
                          ConfigParser._sections :=
                            Dict.set section [] (ConfigParser._sections parser) |}
                  else parser).
  set (ready := {| ConfigParser._defaults := ConfigParser._defaults parser;
                   ConfigParser._sections :=
                     Dict.set section [] (ConfigParser._sections parser) |}).
  assert (Hready :
            match ConfigParser.add_section cleared section with
            | Ok parser' => Ok parser'
            | Raise e =>
                if ConfigParser.added (section, None) [] then Raise e else Ok cleared
            end = Ok ready).
  { unfold ConfigParser.add_section, cleared. rewrite Hnd'.
    destruct (Dict.mem section (ConfigParser._sections parser)) eqn:Hmem.
    - simpl. unfold Dict.mem. rewrite dict_get_set_same. reflexivity.
    - rewrite Hmem. reflexivity. }
  rewrite Hready. cbn [bind].
  destruct (read_keys_appends section value Hne Hnd ready [(section, None)] [])
    as [cfg [elements' [Hrun [Hdefaults [Hsection Hothers]]]]].
  - simpl. apply dict_get_set_same.
  - intros name H. unfold ConfigParser.added, ConfigParser.element_eqb in H.
    simpl in H. rewrite andb_false_r in H. discriminate.
  - exact Hkeys.
  - exact Hvalues.
  - exists cfg. split.
    { assert (Hbind : forall x : result (ConfigParser.t * list ConfigParser.element),
                 x = Ok (cfg, elements') ->
                 (state <- (s' <- x ;; Ok s') ;; Ok (fst state)) = Ok cfg)
        by (intros x ->; reflexivity).
      apply Hbind. exact Hrun. }
    split; [exact Hdefaults|]. split; [exact Hsection|].
    intros other Hother. rewrite (Hothers other Hother). simpl.
    now apply dict_get_set_other.
Qed.

Lemma esc_env_vars_items (os_environ : dict string) :
  NoDup (Dict.keys os_environ) ->
  esc_env_vars os_environ
  = map (fun kv => (fst kv, double_dollars (snd kv))) os_environ.
Proof.
  intros Hkeys. unfold esc_env_vars.
  rewrite dict_of_items_fresh.
  - apply map_ext. intros [k v]. simpl. now rewrite replace_dollar_doubles.
  - unfold Dict.keys. now rewrite map_map.
Qed.

Lemma nodup_map_source {A B : Type} (f : A -> B) (xs : list A) :
  NoDup (map f xs) -> NoDup xs.
Proof.
  induction xs as [|x rest IH]; intros H; [constructor|].
  simpl in H. inversion H as [|? ? Hnot Hnd]; subst.
  constructor; [|now apply IH]. intros Hin. apply Hnot. now apply in_map.
Qed.

(** X16: for an environment section whose name is neither empty nor
    [DEFAULT], as [ENV] in the main block: when the file has no such
    section, or is not there, and no two variables of the environment have
    the same name once lower-cased, [load_project_ini_file] returns; the
    section it adds holds the variables in order, names lower-cased and
    dollars doubled, and the defaults and the other sections are those of
    the file. *)
Theorem load_creates_environment_section (inis : IniFiles) (os_environ : dict string)
    (path section : string)
    (Hnonempty : section <> "")
    (Hregular : section <> ConfigParser.default_section)
    (Habsent : ConfigParser.has_section (read inis path) section = false)
    (Hnames : NoDup (map ConfigParser.optionxform (Dict.keys os_environ))) :
  exists cfg,
    load_project_ini_file inis os_environ path section = Ok cfg
    /\ Dict.get section (ConfigParser._sections cfg)
       = Some (environment_section os_environ)
    /\ ConfigParser._defaults cfg = ConfigParser._defaults (read inis path)
    /\ forall other, other <> section ->
         Dict.get other (ConfigParser._sections cfg)
         = Dict.get other (ConfigParser._sections (read inis path)).
Proof.
  unfold load_project_ini_file. rewrite Habsent.
  pose proof (nodup_map_source _ _ Hnames) as Hkeys.
  rewrite (esc_env_vars_items _ Hkeys).
  destruct (setitem_creates (read inis path) section
              (map (fun kv => (fst kv, double_dollars (snd kv))) os_environ)
              Hnonempty Hregular)
    as [cfg [Hload [Hdefaults [Hsection Hothers]]]].
  - unfold Dict.keys in *. rewrite !map_map. rewrite map_map in Hnames.
    exact Hnames.
  - rewrite forallb_forall. intros kv Hin.
    apply in_map_iff in Hin as [[k v] [<- _]]. apply settable_doubled.
  - exists cfg. split; [exact Hload|]. split.
    + rewrite Hsection. unfold environment_section. rewrite map_map. reflexivity.
    + now split.
Qed.

Lemma load_creates_environment_section_witness :
  exists cfg,
    load_project_ini_file (fun _ => None) sample_environ PROJECT_INI_FILE_PATH
      INIT_ENV_VAR_SECTION = Ok cfg
    /\ Dict.get INIT_ENV_VAR_SECTION (ConfigParser._sections cfg)
       = Some [("home", "/home/dev"); ("http_proxy", "http://proxy.from.env:8080");
               ("ps1", "\u$$ ")].
Proof.
  destruct (load_creates_environment_section (fun _ => None) sample_environ
              PROJECT_INI_FILE_PATH INIT_ENV_VAR_SECTION)
    as [cfg [Hload [Hsection _]]];
    try discriminate; try reflexivity.
  - repeat constructor; simpl; intuition discriminate.
  - exists cfg. now split.
Defined.

Lemma set_frame (parser parser' : ConfigParser.t) (section key value : string) :
  section <> "" -> section <> ConfigParser.default_section ->
  ConfigParser.set parser section key value = Ok parser' ->
  ConfigParser._defaults parser' = ConfigParser._defaults parser
  /\ Dict.mem section (ConfigParser._sections parser') = true
  /\ forall other, other <> section ->
       Dict.get other (ConfigParser._sections parser')
       = Dict.get other (ConfigParser._sections parser).
Proof.
  intros Hne Hnd. unfold ConfigParser.set.
  destruct (if Str.is_empty value then Ok value else ConfigParser.before_set value)
    as [r|]; simpl; [|discriminate].
  rewrite regular_section by assumption.
  destruct (Dict.get section (ConfigParser._sections parser)) as [sectdict|];
    [|discriminate].
  intros [= <-]. simpl. split; [reflexivity|]. split.
  - unfold Dict.mem. now rewrite dict_get_set_same.
  - intros other Hother. now apply dict_get_set_other.
Qed.

Lemma read_keys_frame (section : string) (keys : dict string) :
  section <> "" -> section <> ConfigParser.default_section ->
  forall parser elements parser' elements',
    ConfigParser.read_keys section keys (parser, elements) = Ok (parser', elements') ->
    ConfigParser._defaults parser' = ConfigParser._defaults parser
    /\ (Dict.mem section (ConfigParser._sections parser) = true ->
        Dict.mem section (ConfigParser._sections parser') = true)
    /\ forall other, other <> section ->
         Dict.get other (ConfigParser._sections parser')
         = Dict.get other (ConfigParser._sections parser).
Proof.
  intros Hne Hnd.
  induction keys as [|[key value] rest IH];
    intros parser elements parser' elements' Hrun.
  - injection Hrun as <- <-. now repeat split.
  - unfold ConfigParser.read_keys in Hrun. simpl in Hrun.
    destruct (ConfigParser.added (section, Some (ConfigParser.optionxform key)) elements);
      [discriminate|].
    destruct (ConfigParser.set parser section (ConfigParser.optionxform key) value)
      as [parser1|] eqn:Hset; simpl in Hrun; [|discriminate].
    fold (ConfigParser.read_keys section rest
            (parser1, (section, Some (ConfigParser.optionxform key)) :: elements))
      in Hrun.
    destruct (IH _ _ _ _ Hrun) as [Hd [Hm Ho]].
    destruct (set_frame _ _ _ _ _ Hne Hnd Hset) as [Hd1 [Hm1 Ho1]].
    split; [congruence|]. split.
    + intros _. now apply Hm.
    + intros other Hother. rewrite (Ho other Hother). now apply Ho1.
Qed.

Lemma setitem_frame (parser cfg : ConfigParser.t) (section : string)
    (value : dict string) :
  section <> "" -> section <> ConfigParser.default_section ->
  ConfigParser.setitem parser section value = Ok cfg ->
  ConfigParser._defaults cfg = ConfigParser._defaults parser
  /\ ConfigParser.has_section cfg section = true
  /\ forall other, other <> section ->
       Dict.get other (ConfigParser._sections cfg)
       = Dict.get other (ConfigParser._sections parser).
Proof.
  intros Hne Hnd Hset.
  unfold ConfigParser.setitem, ConfigParser.read_dict in Hset.
  apply String.eqb_neq in Hnd as Hnd'. rewrite Hnd' in Hset.
  cbn [for_each fst snd] in Hset.
  set (cleared := if Dict.mem section (ConfigParser._sections parser)
                  then {| ConfigParser._defaults := ConfigParser._defaults parser;
                          ConfigParser._sections :=
                            Dict.set section [] (ConfigParser._sections parser) |}
                  else parser) in *.
  set (ready := {| ConfigParser._defaults := ConfigParser._defaults parser;
                   ConfigParser._sections :=
                     Dict.set section [] (ConfigParser._sections parser) |}).
  assert (Hready :
            match ConfigParser.add_section cleared section with
            | Ok parser' => Ok parser'
            | Raise e =>
                if ConfigParser.added (section, None) [] then Raise e else Ok cleared
            end = Ok ready).
  { unfold ConfigParser.add_section, cleared. rewrite Hnd'.
    destruct (Dict.mem section (ConfigParser._sections parser)) eqn:Hmem.
    - simpl. unfold Dict.mem. rewrite dict_get_set_same. reflexivity.
    - rewrite Hmem. reflexivity. }
  rewrite Hready in Hset. cbn [bind] in Hset.
  match type of Hset with
  | context [ConfigParser.read_keys ?s ?ks ?st] =>
      destruct (ConfigParser.read_keys s ks st) as [[p2 els2]|] eqn:Hkeys;
        simpl in Hset; [|discriminate]
  end.
  injection Hset as <-.
  destruct (read_keys_frame _ _ Hne Hnd _ _ _ _ Hkeys) as [Hd [Hm Ho]].
  split; [exact Hd|]. split.
  - apply Hm. simpl. unfold Dict.mem. now rewrite dict_get_set_same.
  - intros other Hother. rewrite (Ho other Hother). simpl.
    now apply dict_get_set_other.
Qed.

(** X17: for an environment section whose name is neither empty nor
    [DEFAULT], as [ENV] in the main block: a configuration that
    [load_project_ini_file] returns has the environment section, and has
    the defaults and every other section as the file has them: loading
    touches the environment section only. *)
Theorem load_touches_environment_only (inis : IniFiles) (os_environ : dict string)
    (path section : string) (cfg : ConfigParser.t)
    (Hnonempty : section <> "")
    (Hregular : section <> ConfigParser.default_section)
    (Hload : load_project_ini_file inis os_environ path section = Ok cfg) :
  ConfigParser.has_section cfg section = true
  /\ ConfigParser._defaults cfg = ConfigParser._defaults (read inis path)
  /\ forall other, other <> section ->
       Dict.get other (ConfigParser._sections cfg)
       = Dict.get other (ConfigParser._sections (read inis path)).
Proof.
  unfold load_project_ini_file in Hload.
  destruct (ConfigParser.has_section (read inis path) section).
  - destruct (ConfigParser.section_to_dict (read inis path) section)
      as [from_file|]; simpl in Hload; [|discriminate].
    destruct (setitem_frame _ _ _ _ Hnonempty Hregular Hload) as [Hd [Hs Ho]].
    now repeat split.
  - destruct (setitem_frame _ _ _ _ Hnonempty Hregular Hload) as [Hd [Hs Ho]].
    now repeat split.
Qed.

Lemma load_touches_environment_only_witness :
  exists cfg,
    load_project_ini_file sample_inis sample_environ PROJECT_INI_FILE_PATH
      INIT_ENV_VAR_SECTION = Ok cfg
    /\ ConfigParser.has_section cfg INIT_ENV_VAR_SECTION = true
    /\ Dict.get INI_PROJECT_SECTION (ConfigParser._sections cfg)
       = Some [("name", "demo"); ("home", "${ENV:home}/demo")].
Proof.
  eexists. split; [reflexivity|].
  match goal with
  | |- ConfigParser.has_section ?c _ = true /\ _ =>
      destruct (load_touches_environment_only sample_inis sample_environ
                  PROJECT_INI_FILE_PATH INIT_ENV_VAR_SECTION c)
        as [Hhas [_ Hothers]]
  end; try discriminate; try reflexivity.
  split; [exact Hhas|].
  rewrite Hothers by discriminate. reflexivity.
Defined.

Lemma read_keys_distinct (section : string) (keys : dict string) :
  forall parser elements parser' elements',
    ConfigParser.read_keys section keys (parser, elements) = Ok (parser', elements') ->
    NoDup (map ConfigParser.optionxform (Dict.keys keys))
    /\ forall key, In key (Dict.keys keys) ->
         ConfigParser.added (section, Some (ConfigParser.optionxform key)) elements
         = false.
Proof.
  induction keys as [|[key value] rest IH];
    intros parser elements parser' elements' Hrun.
  - split; [constructor | contradiction].
  - unfold ConfigParser.read_keys in Hrun. simpl in Hrun.
    destruct (ConfigParser.added (section, Some (ConfigParser.optionxform key)) elements)
      eqn:Hkey; [discriminate|].
    destruct (ConfigParser.set parser section (ConfigParser.optionxform key) value)
      as [parser1|]; simpl in Hrun; [|discriminate].
    fold (ConfigParser.read_keys section rest
            (parser1, (section, Some (ConfigParser.optionxform key)) :: elements))
      in Hrun.
    destruct (IH _ _ _ _ Hrun) as [Hnd Hfresh].
    split.
    + simpl. constructor; [|exact Hnd].
      intros Hin. apply in_map_iff in Hin as [key' [Heq Hin]].
      specialize (Hfresh key' Hin).
      rewrite added_cons_iff, element_eqb_option, Heq, String.eqb_refl in Hfresh.
      discriminate.
    + intros key' [<-|Hin]; [exact Hkey|].
      specialize (Hfresh key' Hin).
      rewrite added_cons_iff in Hfresh. now apply orb_false_iff in Hfresh as [_ H].
Qed.

Lemma setitem_distinct (parser cfg : ConfigParser.t) (section : string)
    (value : dict string) :
  ConfigParser.setitem parser section value = Ok cfg ->
  NoDup (map ConfigParser.optionxform (Dict.keys value)).
Proof.
  intros Hset.
  unfold ConfigParser.setitem, ConfigParser.read_dict in Hset. simpl in Hset.
  match type of Hset with
  | context [ConfigParser.add_section ?p section] =>
      destruct (ConfigParser.add_section p section) as [p1|e]; simpl in Hset
  end;
    match type of Hset with
    | context [ConfigParser.read_keys ?s ?ks ?st] =>
        destruct (ConfigParser.read_keys s ks st) as [[p2 els2]|] eqn:Hkeys;
          simpl in Hset; [|discriminate]
    end;
    exact (proj1 (read_keys_distinct _ _ _ _ _ _ Hkeys)).
Qed.

Lemma nodup_map_injective {A B : Type} (f : A -> B) (xs : list A) (a b : A) :
  NoDup (map f xs) -> In a xs -> In b xs -> f a = f b -> a = b.
Proof.
  induction xs as [|x rest IH]; intros Hnd Ha Hb Heq; [contradiction|].
  simpl in Hnd. inversion Hnd as [|? ? Hnot Hnd']; subst.
  destruct Ha as [->|Ha], Hb as [->|Hb]; try reflexivity.
  - exfalso. apply Hnot. rewrite Heq. now apply in_map.
  - exfalso. apply Hnot. rewrite <- Heq. now apply in_map.
  - now apply IH.
Qed.

Lemma dict_update_keys_left {V : Type} (k : string) (other d : dict V) :
  In k (Dict.keys d) -> In k (Dict.keys (Dict.update d other)).
Proof.
  unfold Dict.update. revert d.
  induction other as [|[k' v'] rest IH]; intros d Hin; simpl; [exact Hin|].
  apply IH. rewrite dict_set_keys. destruct (Dict.mem k' d); [exact Hin|].
  apply in_or_app. now left.
Qed.

Lemma dict_update_keys_right {V : Type} (k : string) (other d : dict V) :
  In k (Dict.keys other) -> In k (Dict.keys (Dict.update d other)).
Proof.
  unfold Dict.update. revert d.
  induction other as [|[k' v'] rest IH]; intros d Hin; simpl; [contradiction|].
  destruct Hin as [Heq|Hin]; [|now apply IH].
  simpl in Heq. subst k'.
  change (In k (Dict.keys (Dict.update (Dict.set k v' d) rest))).
  apply dict_update_keys_left. rewrite dict_set_keys. unfold Dict.mem.
  destruct (Dict.get k d) eqn:Hget.
  - now apply dict_get_in_keys in Hget.
  - apply in_or_app. right. now left.
Qed.

(** X18: two variables of the environment whose names differ by case
    only make [load_project_ini_file] raise, whatever the file holds:
    both names lower-case to one option, which a strict parser refuses
    to read twice. *)
Theorem load_refuses_case_twins (inis : IniFiles) (os_environ : dict string)
    (path section name name' : string)
    (Hname : In name (Dict.keys os_environ))
    (Hname' : In name' (Dict.keys os_environ))
    (Hdiffer : name <> name')
    (Htwins : ConfigParser.optionxform name = ConfigParser.optionxform name') :
  is_ok (load_project_ini_file inis os_environ path section) = false.
Proof.
  destruct (load_project_ini_file inis os_environ path section) as [cfg|] eqn:Hload;
    [|reflexivity].
  exfalso. apply Hdiffer.
  assert (Hesc : forall n, In n (Dict.keys os_environ) ->
                           In n (Dict.keys (esc_env_vars os_environ))).
  { intros n Hn. unfold esc_env_vars, Dict.of_items.
    apply dict_update_keys_right. unfold Dict.keys. rewrite map_map. exact Hn. }
  unfold load_project_ini_file in Hload.
  destruct (ConfigParser.has_section (read inis path) section).
  - destruct (ConfigParser.section_to_dict (read inis path) section)
      as [from_file|]; simpl in Hload; [|discriminate].
    apply setitem_distinct in Hload.
    apply (nodup_map_injective _ _ _ _ Hload); try assumption;
      apply dict_update_keys_right; now apply Hesc.
  - apply setitem_distinct in Hload.
    apply (nodup_map_injective _ _ _ _ Hload); try assumption; now apply Hesc.
Qed.

Lemma load_refuses_case_twins_witness :
  is_ok (load_project_ini_file sample_inis twin_environ PROJECT_INI_FILE_PATH
           INIT_ENV_VAR_SECTION) = false.
Proof.
  apply (load_refuses_case_twins sample_inis twin_environ PROJECT_INI_FILE_PATH
           INIT_ENV_VAR_SECTION "Path" "PATH").
  - now left.
  - right. now left.
  - discriminate.
  - reflexivity.
Defined.

Lemma mapM_section_pairs (parser : ConfigParser.t) (section : string)
    (keys : list string) :
  forall pairs,
    mapM (fun key =>
            if ConfigParser.has_option parser section key
            then value <- ConfigParser.get parser section key ;; Ok (key, value)
            else Raise KeyError)
         keys = Ok pairs ->
    Dict.keys pairs = keys
    /\ forall key value, In (key, value) pairs ->
         ConfigParser.get parser section key = Ok value.
Proof.
  induction keys as [|key rest IH]; intros pairs Hrun; simpl in Hrun.
  - injection Hrun as <-. split; [reflexivity | contradiction].
  - destruct (ConfigParser.has_option parser section key); [|discriminate].
    destruct (ConfigParser.get parser section key) as [value|] eqn:Hget;
      simpl in Hrun; [|discriminate].
    destruct (mapM _ rest) as [pairs'|] eqn:Hrest; simpl in Hrun; [|discriminate].
    injection Hrun as <-.
    destruct (IH pairs' eq_refl) as [Hkeys Hvalues].
    split; [simpl; now rewrite Hkeys|].
    intros key' value' [[= <- <-]|Hin]; [exact Hget | now apply Hvalues].
Qed.

(** What [dict(parser[section])] holds: the options of the section, each
    with the value [get] gives for it. *)
Lemma section_to_dict_spec (parser : ConfigParser.t) (section : string)
    (sectiondict from_file : dict string) :
  section <> ConfigParser.default_section ->
  Dict.get section (ConfigParser._sections parser) = Some sectiondict ->
  ConfigParser.section_to_dict parser section = Ok from_file ->
  (forall key, In key (Dict.keys sectiondict) -> In key (Dict.keys from_file))
  /\ (NoDup (Dict.keys sectiondict) ->
      forall key, In key (Dict.keys sectiondict) ->
        exists value,
          ConfigParser.get parser section key = Ok value
          /\ Dict.get key from_file = Some value).
Proof.
  intros Hnd Hsect Hdict. unfold ConfigParser.section_to_dict in Hdict.
  apply String.eqb_neq in Hnd. rewrite Hnd in Hdict.
  unfold ConfigParser.has_section, Dict.mem, ConfigParser.options in Hdict.
  rewrite Hsect in Hdict. cbn [negb andb bind] in Hdict.
  destruct (mapM _ _) as [pairs|] eqn:Hpairs; simpl in Hdict; [|discriminate].
  injection Hdict as <-.
  destruct (mapM_section_pairs _ _ _ _ Hpairs) as [Hkeys Hvalues].
  split.
  - intros key Hkey. unfold Dict.of_items. apply dict_update_keys_right.
    rewrite Hkeys. now apply dict_update_keys_left.
  - intros Hnodup key Hkey.
    assert (Hin : In key (Dict.keys pairs)).
    { rewrite Hkeys. now apply dict_update_keys_left. }
    assert (Hpn : NoDup (Dict.keys pairs)).
    { rewrite Hkeys. now apply dict_update_nodup. }
    destruct (dict_in_keys_get _ _ Hin) as [value Hvalue].
    exists value. split.
    + apply Hvalues. now apply dict_get_In.
    + now apply dict_of_items_get.
Qed.

(** X19: a key of the environment section of the file and a variable of
    the environment that differ by case only make
    [load_project_ini_file] raise: the merged dictionary holds both
    names, and they lower-case to one option. *)
Theorem load_refuses_file_twin (inis : IniFiles) (os_environ : dict string)
    (path section key name file_value : string)
    (Hregular : section <> ConfigParser.default_section)
    (Hkey : stored (read inis path) section key = Some file_value)
    (Hname : In name (Dict.keys os_environ))
    (Hdiffer : name <> key)
    (Htwins : ConfigParser.optionxform name = ConfigParser.optionxform key) :
  is_ok (load_project_ini_file inis os_environ path section) = false.
Proof.
  destruct (load_project_ini_file inis os_environ path section) as [cfg|] eqn:Hload;
    [|reflexivity].
  exfalso. apply Hdiffer.
  unfold stored in Hkey.
  destruct (Dict.get section (ConfigParser._sections (read inis path)))
    as [sectiondict|] eqn:Hsect; [|discriminate].
  unfold load_project_ini_file, ConfigParser.has_section, Dict.mem in Hload.
  rewrite Hsect in Hload.
  destruct (ConfigParser.section_to_dict (read inis path) section)
    as [from_file|] eqn:Hdict; simpl in Hload; [|discriminate].
  destruct (section_to_dict_spec _ _ _ _ Hregular Hsect Hdict) as [Hkeys _].
  apply setitem_distinct in Hload.
  apply (nodup_map_injective _ _ _ _ Hload); try assumption.
  - apply dict_update_keys_right. unfold esc_env_vars, Dict.of_items.
    apply dict_update_keys_right. unfold Dict.keys. rewrite map_map. exact Hname.
  - apply dict_update_keys_left. apply Hkeys. now apply (dict_get_in_keys _ file_value).
Qed.

Lemma load_refuses_file_twin_witness :
  is_ok (load_project_ini_file home_ini home_environ PROJECT_INI_FILE_PATH
           INIT_ENV_VAR_SECTION) = false.
Proof.
  apply (load_refuses_file_twin home_ini home_environ PROJECT_INI_FILE_PATH
           INIT_ENV_VAR_SECTION "home" "HOME" "/srv/demo").
  - discriminate.
  - reflexivity.
  - now left.
  - discriminate.
  - reflexivity.
Defined.

Lemma dict_update_keys_inv {V : Type} (k : string) (other d : dict V) :
  In k (Dict.keys (Dict.update d other)) ->
  In k (Dict.keys d) \/ In k (Dict.keys other).
Proof.
  unfold Dict.update. revert d.
  induction other as [|[k' v'] rest IH]; intros d Hin; simpl in *; [now left|].
  apply IH in Hin as [Hin|Hin]; [|right; now right].
  rewrite dict_set_keys in Hin. destruct (Dict.mem k' d); [now left|].
  apply in_app_or in Hin as [Hin|[<-|[]]]; [now left | right; now left].
Qed.

Lemma break_at_absent (c : ascii) (s : string) :
  Str.contains c s = false -> Str.break_at c s = (s, "").
Proof.
  induction s as [|d r IH]; simpl; [reflexivity|].
  intros H. apply orb_false_iff in H as [Hd Hr].
  now rewrite Hd, (IH Hr).
Qed.

(** A value without a dollar is read as it is. *)
Lemma before_get_plain (parser : ConfigParser.t) (section value : string)
    (map : string -> option string) :
  Str.contains "$" value = false ->
  ConfigParser.before_get parser section value map = Ok value.
Proof.
  intros Hplain. unfold ConfigParser.before_get. simpl.
  destruct value as [|c r]; [reflexivity|].
  cbn [String.length ConfigParser._interpolate_loop].
  now rewrite (break_at_absent _ _ Hplain).
Qed.

(** X20: a key of the environment section of the file that is no
    variable of the environment is kept: the configuration returned
    stores for it the value [get] gave on the file, that is the value of
    the file after interpolation; when that value holds no dollar, [get]
    gives it again on the configuration returned. *)
Theorem load_keeps_file_keys (inis : IniFiles) (os_environ : dict string)
    (path section key : string) (sectiondict : dict string) (cfg : ConfigParser.t)
    (Hnonempty : section <> "")
    (Hregular : section <> ConfigParser.default_section)
    (Hsection : Dict.get section (ConfigParser._sections (read inis path))
                = Some sectiondict)
    (Hkeys : NoDup (Dict.keys sectiondict))
    (Hkey : In key (Dict.keys sectiondict))
    (Hlower : ConfigParser.optionxform key = key)
    (Hfile_only : ~ In key (Dict.keys os_environ))
    (Hload : load_project_ini_file inis os_environ path section = Ok cfg) :
  exists value,
    ConfigParser.get (read inis path) section key = Ok value
    /\ stored cfg section key = Some value
    /\ (Str.contains "$" value = false ->
        ConfigParser.get cfg section key = Ok value).
Proof.
  unfold load_project_ini_file, ConfigParser.has_section, Dict.mem in Hload.
  rewrite Hsection in Hload.
  destruct (ConfigParser.section_to_dict (read inis path) section)
    as [from_file|] eqn:Hdict; simpl in Hload; [|discriminate].
  destruct (section_to_dict_spec _ _ _ _ Hregular Hsection Hdict) as [_ Hvalues].
  destruct (Hvalues Hkeys key Hkey) as [value [Hget Hfrom]].
  exists value. split; [exact Hget|].
  assert (Hstored : stored cfg section key = Some value).
  { rewrite <- Hlower. eapply setitem_stores; try eassumption.
    apply dict_get_In. rewrite dict_get_update_absent; [exact Hfrom|].
    intros Hin. apply Hfile_only.
    unfold esc_env_vars, Dict.of_items in Hin.
    apply dict_update_keys_inv in Hin as [[]|Hin].
    unfold Dict.keys in Hin. now rewrite map_map in Hin. }
  split; [exact Hstored|].
  intros Hplain. unfold stored in Hstored.
  unfold ConfigParser.get, ConfigParser._unify_values.
  destruct (Dict.get section (ConfigParser._sections cfg)) as [d|]; [|discriminate].
  simpl. rewrite Hlower, Hstored. now apply before_get_plain.
Qed.

Lemma load_keeps_file_keys_witness :
  exists cfg,
    load_project_ini_file home_ini proxy_environ PROJECT_INI_FILE_PATH
      INIT_ENV_VAR_SECTION = Ok cfg
    /\ ConfigParser.get cfg INIT_ENV_VAR_SECTION "home" = Ok "/srv/demo".
Proof.
  assert (Hkeys : NoDup (Dict.keys [("home", "/srv/demo")])).
  { repeat constructor. intros []. }
  assert (Hfile_only : ~ In "home" (Dict.keys proxy_environ)).
  { simpl. intuition discriminate. }
  eexists. split; [reflexivity|].
  match goal with
  | |- ConfigParser.get ?c _ _ = _ =>
      destruct (load_keeps_file_keys home_ini proxy_environ PROJECT_INI_FILE_PATH
                  INIT_ENV_VAR_SECTION "home" [("home", "/srv/demo")] c
                  ltac:(discriminate) ltac:(discriminate) eq_refl Hkeys
                  (or_introl eq_refl) eq_refl Hfile_only eq_refl)
        as [value [Hfile [_ Hget]]]
  end.
  injection Hfile as <-. now apply Hget.
Defined.

Lemma contains_append (c : ascii) (a b : string) :
  Str.contains c (a +++ b) = Str.contains c a || Str.contains c b.
Proof.
  induction a as [|d a IH]; simpl; [reflexivity|].
  now rewrite IH, orb_assoc.
Qed.

Lemma break_at_prefix (c : ascii) (before tail : string) :
  Str.contains c before = false ->
  Str.break_at c (before +++ String c tail) = (before, String c tail).
Proof.
  induction before as [|d r IH]; simpl.
  - now rewrite Ascii.eqb_refl.
  - intros H. apply orb_false_iff in H as [Hd Hr]. now rewrite Hd, (IH Hr).
Qed.

Lemma keycre_match_reference (group tail : string) :
  group <> "" ->
  Str.contains "}" group = false ->
  ConfigParser.keycre_match ("${" +++ group +++ "}" +++ tail) = Some (group, tail).
Proof.
  intros Hne Hclean. unfold ConfigParser.keycre_match.
  cbn [String.append].
  change (group +++ String "}" tail) with (group +++ String "}" tail).
  rewrite (break_at_prefix "}" group tail Hclean).
  destruct group; [contradiction | reflexivity].
Qed.

Lemma double_dollars_plain (value : string) :
  Str.contains "$" (double_dollars value) = false -> double_dollars value = value.
Proof.
  induction value as [|c r IH]; [reflexivity|].
  cbn [double_dollars]. destruct (Ascii.eqb c "$") eqn:E.
  - cbn [Str.contains]. rewrite Ascii.eqb_refl. discriminate.
  - cbn [Str.contains]. intros H. apply orb_false_iff in H as [_ H].
    now rewrite (IH H).
Qed.

Lemma interpolate_loop_plain
    (deeper : string -> string -> (string -> option string) -> result string)
    (parser : ConfigParser.t) (section : string) (map : string -> option string)
    (fuel : nat) (text : string) :
  Str.contains "$" text = false ->
  String.length text <= fuel ->
  ConfigParser._interpolate_loop deeper parser section map fuel text = Ok text.
Proof.
  intros Hplain Hfuel. destruct fuel as [|fuel].
  - destruct text; [reflexivity | simpl in Hfuel; lia].
  - cbn [ConfigParser._interpolate_loop]. now rewrite (break_at_absent _ _ Hplain).
Qed.

(** A reference to a stored value with doubled dollars, between plain
    text, reads as the text around the value. *)
Lemma interpolate_loop_reference
    (deeper : string -> string -> (string -> option string) -> result string)
    (cfg : ConfigParser.t)
    (current section name before after value : string)
    (map : string -> option string) (fuel : nat) :
  (forall map', deeper (double_dollars value) section map' = Ok value) ->
  Str.contains "$" before = false ->
  Str.contains "$" after = false ->
  Str.contains "}" section = false ->
  Str.contains "}" name = false ->
  Str.contains ":" section = false ->
  Str.contains ":" name = false ->
  stored cfg section (ConfigParser.optionxform name) = Some (double_dollars value) ->
  String.length (before +++ reference section name +++ after) <= fuel ->
  ConfigParser._interpolate_loop deeper cfg current map fuel
    (before +++ reference section name +++ after)
  = Ok (before +++ value +++ after).
Proof.
  intros Hdeeper Hbefore Hafter Hsect_brace Hname_brace Hsect_colon Hname_colon
    Hstored Hfuel.
  set (group := section +++ ":" +++ name).
  assert (Hgroup_brace : Str.contains "}" group = false).
  { unfold group. rewrite !contains_append, Hsect_brace, Hname_brace. reflexivity. }
  assert (Hgroup_ne : group <> "").
  { unfold group. destruct section; discriminate. }
  assert (Htext : before +++ reference section name +++ after
                  = before +++ String "$" (String "{" (group +++ "}" +++ after))).
  { unfold reference, group. cbn [String.append].
    repeat (rewrite !string_append_assoc; cbn [String.append]). reflexivity. }
  rewrite Htext in *.
  assert (Hlen : String.length after + 4 <= fuel).
  { rewrite !string_length_append in Hfuel. simpl in Hfuel.
    rewrite !string_length_append in Hfuel. simpl in Hfuel.
    assert (0 < String.length group)
      by (destruct group; [contradiction | simpl; lia]).
    lia. }
  destruct fuel as [|fuel]; [lia|].
  cbn [ConfigParser._interpolate_loop].
  rewrite (break_at_prefix "$" before _ Hbefore).
  change (String "$" (String "{" (group +++ "}" +++ after)))
    with ("${" +++ group +++ "}" +++ after).
  rewrite (keycre_match_reference group after Hgroup_ne Hgroup_brace).
  cbn [String.append].
  assert (Hpath : Str.split_from (String.length group) ":" "" group = [section; name]).
  { change ":" with (String ":" "") at 1. rewrite split_from_char by lia.
    unfold group.
    destruct (split_char_piece ":" section Hsect_colon "") as [_ Hnext].
    change (section +++ ":" +++ name) with (section +++ String ":" name).
    rewrite Hnext.
    destruct (split_char_piece ":" name Hname_colon "") as [Hlast _].
    now rewrite Hlast. }
  rewrite Hpath.
  assert (Hraw : ConfigParser.get_raw cfg section (ConfigParser.optionxform name)
                 = Ok (double_dollars value)).
  { unfold ConfigParser.get_raw, ConfigParser._unify_values.
    unfold stored in Hstored.
    destruct (Dict.get section (ConfigParser._sections cfg)) as [d|]; [|discriminate].
    simpl. now rewrite optionxform_idempotent, Hstored. }
  rewrite Hraw. cbn [bind].
  assert (Hitems : exists d, ConfigParser.section_items cfg section = Ok d).
  { unfold ConfigParser.section_items. unfold stored in Hstored.
    destruct (Dict.get section (ConfigParser._sections cfg)) as [d|];
      [|discriminate].
    eexists. reflexivity. }
  destruct Hitems as [d Hd]. rewrite Hd. cbn [bind]. rewrite Hdeeper.
  destruct (Str.contains "$" (double_dollars value)) eqn:Hdollar; cbn [bind];
    rewrite interpolate_loop_plain by (try assumption; lia); cbn [bind].
  - reflexivity.
  - now rewrite (double_dollars_plain _ Hdollar).
Qed.

Lemma before_get_reference (cfg : ConfigParser.t)
    (current section name before after value : string)
    (map : string -> option string) :
  Str.contains "$" before = false ->
  Str.contains "$" after = false ->
  Str.contains "}" section = false ->
  Str.contains "}" name = false ->
  Str.contains ":" section = false ->
  Str.contains ":" name = false ->
  stored cfg section (ConfigParser.optionxform name) = Some (double_dollars value) ->
  ConfigParser.before_get cfg current (before +++ reference section name +++ after) map
  = Ok (before +++ value +++ after).
Proof.
  intros. unfold ConfigParser.before_get, ConfigParser.MAX_INTERPOLATION_DEPTH.
  cbn [ConfigParser._interpolate_some].
  apply interpolate_loop_reference; try assumption; [|lia].
  intros map'. cbn [ConfigParser._interpolate_some].
  now apply interpolate_loop_doubled.
Qed.

Lemma load_frame (inis : IniFiles) (os_environ : dict string)
    (path section other : string) (cfg : ConfigParser.t) :
  section <> "" -> section <> ConfigParser.default_section ->
  other <> section ->
  load_project_ini_file inis os_environ path section = Ok cfg ->
  Dict.get other (ConfigParser._sections cfg)
  = Dict.get other (ConfigParser._sections (read inis path)).
Proof.
  intros Hne Hnd Hother Hload. unfold load_project_ini_file in Hload.
  destruct (ConfigParser.has_section (read inis path) section).
  - destruct (ConfigParser.section_to_dict (read inis path) section)
      as [from_file|]; simpl in Hload; [|discriminate].
    now apply (setitem_frame _ _ _ _ Hne Hnd Hload).
  - now apply (setitem_frame _ _ _ _ Hne Hnd Hload).
Qed.

(** X21: what the environment section is for: a value of another section
    of the file that is plain text around one reference to a variable of
    the environment, written [${SECTION:NAME}] in any case of the name,
    reads in the configuration returned as the text around the value the
    variable has in the environment, dollars included. *)
Theorem env_placeholder_resolves (inis : IniFiles) (os_environ : dict string)
    (path section other key name ref before after value : string)
    (cfg : ConfigParser.t)
    (Hnonempty : section <> "")
    (Hregular : section <> ConfigParser.default_section)
    (Hother : other <> section)
    (Hkeys : NoDup (Dict.keys os_environ))
    (Hvar : Dict.get name os_environ = Some value)
    (Hcase : ConfigParser.optionxform ref = ConfigParser.optionxform name)
    (Hfile : stored (read inis path) other (ConfigParser.optionxform key)
             = Some (before +++ reference section ref +++ after))
    (Hbefore : Str.contains "$" before = false)
    (Hafter : Str.contains "$" after = false)
    (Hsection : Str.contains "}" section || Str.contains ":" section = false)
    (Href : Str.contains "}" ref || Str.contains ":" ref = false)
    (Hload : load_project_ini_file inis os_environ path section = Ok cfg) :
  ConfigParser.get cfg other key = Ok (before +++ value +++ after).
Proof.
  apply orb_false_iff in Hsection as [Hsb Hsc], Href as [Hrb Hrc].
  pose proof (load_env_value _ _ _ _ _ _ _ Hnonempty Hregular Hkeys Hvar Hload)
    as Hstored.
  rewrite <- Hcase in Hstored.
  pose proof (load_frame _ _ _ _ _ _ Hnonempty Hregular Hother Hload) as Hframe.
  unfold stored in Hfile. rewrite <- Hframe in Hfile.
  unfold ConfigParser.get, ConfigParser._unify_values.
  destruct (Dict.get other (ConfigParser._sections cfg)) as [d|]; [|discriminate].
  cbn [bind]. rewrite Hfile.
  now apply before_get_reference.
Qed.

Lemma env_placeholder_resolves_witness :
  exists cfg,
    load_project_ini_file sample_inis sample_environ PROJECT_INI_FILE_PATH
      INIT_ENV_VAR_SECTION = Ok cfg
    /\ ConfigParser.get cfg INI_PROJECT_SECTION "home" = Ok "/home/dev/demo".
Proof.
  assert (Hkeys : NoDup (Dict.keys sample_environ)).
  { repeat constructor; simpl; intuition discriminate. }
  eexists. split; [reflexivity|].
  exact (env_placeholder_resolves sample_inis sample_environ PROJECT_INI_FILE_PATH
           INIT_ENV_VAR_SECTION INI_PROJECT_SECTION "home" "HOME" "home" "" "/demo"
           "/home/dev" _
           ltac:(discriminate) ltac:(discriminate) ltac:(discriminate)
           Hkeys eq_refl eq_refl eq_refl eq_refl eq_refl eq_refl eq_refl eq_refl).
Defined.

(** ** The main block *)

Lemma load_defaults (inis : IniFiles) (os_environ : dict string)
    (path section : string) (cfg : ConfigParser.t) :
  section <> "" -> section <> ConfigParser.default_section ->
  load_project_ini_file inis os_environ path section = Ok cfg ->
  ConfigParser._defaults cfg = ConfigParser._defaults (read inis path).
Proof.
  intros Hne Hnd Hload. unfold load_project_ini_file in Hload.
  destruct (ConfigParser.has_section (read inis path) section).
  - destruct (ConfigParser.section_to_dict (read inis path) section)
      as [from_file|]; simpl in Hload; [|discriminate].
    now apply (setitem_frame _ _ _ _ Hne Hnd Hload).
  - now apply (setitem_frame _ _ _ _ Hne Hnd Hload).
Qed.

(** The options of a section other than the environment section are
    looked up in the configuration loaded as in the file. *)
Lemma unify_frame (inis : IniFiles) (os_environ : dict string)
    (path section other : string) (cfg : ConfigParser.t) :
  section <> "" -> section <> ConfigParser.default_section ->
  other <> section ->
  load_project_ini_file inis os_environ path section = Ok cfg ->
  ConfigParser._unify_values cfg other
  = ConfigParser._unify_values (read inis path) other.
Proof.
  intros Hne Hnd Hother Hload. unfold ConfigParser._unify_values.
  rewrite (load_frame _ _ _ _ _ _ Hne Hnd Hother Hload).
  rewrite (load_defaults _ _ _ _ _ Hne Hnd Hload). reflexivity.
Qed.

Lemma project_unify (p : Project) (cfg : ConfigParser.t) :
  load_project_ini_file (ini_files p) (os_environ p)
    PROJECT_INI_FILE_PATH INIT_ENV_VAR_SECTION = Ok cfg ->
  ConfigParser._unify_values cfg INI_PROJECT_SECTION
  = ConfigParser._unify_values (read (ini_files p) PROJECT_INI_FILE_PATH)
      INI_PROJECT_SECTION.
Proof.
  intros Hload.
  apply (unify_frame (ini_files p) (os_environ p) PROJECT_INI_FILE_PATH
           INIT_ENV_VAR_SECTION INI_PROJECT_SECTION cfg);
    [discriminate | discriminate | discriminate | exact Hload].
Qed.

(** A plain value of the project section is what [get] with a fallback
    returns, and [None] is returned for a missing one. *)
Lemma get_fallback_plain (p : Project) (cfg : ConfigParser.t) (key : string) :
  load_project_ini_file (ini_files p) (os_environ p)
    PROJECT_INI_FILE_PATH INIT_ENV_VAR_SECTION = Ok cfg ->
  (forall v, project_value (read (ini_files p) PROJECT_INI_FILE_PATH) key = Some v ->
             Str.contains "$" v = false) ->
  get_fallback cfg INI_PROJECT_SECTION key
  = Ok (project_value (read (ini_files p) PROJECT_INI_FILE_PATH) key).
Proof.
  intros Hload Hplain. unfold get_fallback, project_value in *.
  rewrite (project_unify _ _ Hload).
  unfold ConfigParser._unify_values in *.
  destruct (Dict.get INI_PROJECT_SECTION
              (ConfigParser._sections (read (ini_files p) PROJECT_INI_FILE_PATH)))
    as [sectiondict|]; [|reflexivity].
  destruct (match Dict.get (ConfigParser.optionxform key) sectiondict with
            | Some value => Some value
            | None => Dict.get (ConfigParser.optionxform key)
                        (ConfigParser._defaults
                           (read (ini_files p) PROJECT_INI_FILE_PATH))
            end) as [v|]; [|reflexivity].
  now rewrite (before_get_plain _ _ _ _ (Hplain v eq_refl)).
Qed.

Lemma get_project_plain (p : Project) (cfg : ConfigParser.t) (key v : string) :
  load_project_ini_file (ini_files p) (os_environ p)
    PROJECT_INI_FILE_PATH INIT_ENV_VAR_SECTION = Ok cfg ->
  project_value (read (ini_files p) PROJECT_INI_FILE_PATH) key = Some v ->
  Str.contains "$" v = false ->
  ConfigParser.get cfg INI_PROJECT_SECTION key = Ok v.
Proof.
  intros Hload Hvalue Hplain. unfold ConfigParser.get, project_value in *.
  rewrite (project_unify _ _ Hload).
  destruct (ConfigParser._unify_values (read (ini_files p) PROJECT_INI_FILE_PATH)
              INI_PROJECT_SECTION) as [d|]; [|discriminate].
  cbn [bind]. rewrite Hvalue. now apply before_get_plain.
Qed.

Lemma lower_char_dollar (c : ascii) :
  Ascii.eqb "$" (Str.lower_char c) = Ascii.eqb "$" c.
Proof. destruct c as [[] [] [] [] [] [] [] []]; reflexivity. Qed.

Lemma contains_dollar_lower (s : string) :
  Str.contains "$" (Str.lower s) = Str.contains "$" s.
Proof.
  induction s as [|c r IH]; [reflexivity|].
  cbn [Str.lower Str.contains]. now rewrite lower_char_dollar, IH.
Qed.

(** The spellings of a boolean hold no dollar. *)
Lemma boolean_plain (spelled : string) (b : bool) :
  Dict.get (Str.lower spelled) BOOLEAN_STATES = Some b ->
  Str.contains "$" spelled = false.
Proof.
  intros Hstate. rewrite <- contains_dollar_lower.
  apply dict_get_in_keys in Hstate.
  unfold BOOLEAN_STATES, Dict.keys in Hstate. cbn [map fst In] in Hstate.
  repeat (destruct Hstate as [<-|Hstate]; [reflexivity|]). contradiction.
Qed.

(** One step of the main block that went well. *)
Ltac main_step H :=
  match type of H with
  | bind ?m _ = Ok _ =>
      let E := fresh "Hstep" in
      destruct m eqn:E; [cbn [bind] in H | discriminate H]
  end.

(** When the file is absent, the loader returns a configuration whose
    only section is the environment section. *)
Lemma load_without_file (inis : IniFiles) (os_environ : dict string)
    (path section : string) :
  section <> "" -> section <> ConfigParser.default_section ->
  inis path = None ->
  NoDup (map ConfigParser.optionxform (Dict.keys os_environ)) ->
  exists cfg,
    load_project_ini_file inis os_environ path section = Ok cfg
    /\ ConfigParser._defaults cfg = []
    /\ forall other, other <> section ->
         Dict.get other (ConfigParser._sections cfg) = None.
Proof.
  intros Hne Hnd Hini Hnames. unfold load_project_ini_file, read.
  rewrite Hini. cbn [ConfigParser.has_section ConfigParser.empty
                     ConfigParser._sections Dict.mem Dict.get].
  pose proof (nodup_map_source _ _ Hnames) as Hkeys.
  rewrite (esc_env_vars_items _ Hkeys).
  destruct (setitem_creates ConfigParser.empty section
              (map (fun kv => (fst kv, double_dollars (snd kv))) os_environ)
              Hne Hnd)
    as [cfg [Hload [Hdefaults [_ Hothers]]]].
  - unfold Dict.keys in *. rewrite !map_map. rewrite map_map in Hnames.
    exact Hnames.
  - rewrite forallb_forall. intros kv Hin.
    apply in_map_iff in Hin as [[k v] [<- _]]. apply settable_doubled.
  - exists cfg. split; [exact Hload|]. split; [exact Hdefaults|].
    intros other Hother. now rewrite (Hothers other Hother).
Qed.

(** X22: a project without [project.ini], with environment variables
    whose names differ by more than their case: the main block calls [setup]
    without metadata, with the content of [README.md] as the long
    description in markdown, the packages found, the dependencies of the
    lock file, no entry point and the default pattern of the test files. *)
Theorem main_without_ini (p : Project) (readme : string) (deps : list string)
    (Hini : ini_files p PROJECT_INI_FILE_PATH = None)
    (Hnames : NoDup (map ConfigParser.optionxform (Dict.keys (os_environ p))))
    (Hreadme : read_text (project_files p) DEFAULT_LONG_DESCRIPTION_FILE = Some readme)
    (Hdeps : get_deps (project_files p) true = Ok deps) :
  snd (main p)
  = Ok {| Setup.name := None; Setup.version := None; Setup.author := None;
          Setup.url := None; Setup.author_email := None;
          Setup.description := None;
          Setup.long_description := readme;
          Setup.long_description_content_type := "text/markdown";
          Setup.license := None;
          Setup.packages := packages (package_configuration (find_packages p));
          Setup.package_dir := package_dir (package_configuration (find_packages p));
          Setup.package_data := [("", ["*"])];
          Setup.include_package_data := true;
          Setup.install_requires := deps;
          Setup.entry_points := None;
          Setup.test_command :=
            test_command_class_factory TEST_SRC_FOLDER "*[Tt]est*.py" |}.
Proof.
  destruct (load_without_file (ini_files p) (os_environ p) PROJECT_INI_FILE_PATH
              INIT_ENV_VAR_SECTION ltac:(discriminate) ltac:(discriminate)
              Hini Hnames) as [cfg [Hload [Hdefaults Hothers]]].
  assert (Hget : forall key, get_fallback cfg INI_PROJECT_SECTION key = Ok None).
  { intros key. unfold get_fallback, ConfigParser._unify_values.
    now rewrite (Hothers INI_PROJECT_SECTION ltac:(discriminate)). }
  assert (Hbool : getboolean_fallback cfg INI_PROJECT_SECTION "use_pipenv"
                    DEFAULT_USE_PIPENV = Ok true).
  { unfold getboolean_fallback, ConfigParser.get, ConfigParser._unify_values.
    now rewrite (Hothers INI_PROJECT_SECTION ltac:(discriminate)). }
  assert (Hentry : load_entry_points cfg INI_ENTRY_POINT_SECTION = Ok None).
  { unfold load_entry_points, ConfigParser.has_section, Dict.mem.
    now rewrite (Hothers INI_ENTRY_POINT_SECTION ltac:(discriminate)). }
  unfold main. cbn [snd]. rewrite Hload. cbn [bind].
  rewrite !Hget. cbn [bind or_fallback].
  unfold read_file at 1. rewrite Hreadme. cbn [bind].
  rewrite Hbool. cbn [bind]. rewrite Hdeps. cbn [bind].
  rewrite Hentry. reflexivity.
Qed.

Lemma main_without_ini_witness :
  exists args,
    snd (main bare_project) = Ok args
    /\ Setup.long_description args = "# demo"
    /\ Setup.install_requires args = ["requests==2.0"].
Proof.
  eexists. split.
  - apply (main_without_ini bare_project "# demo" ["requests==2.0"]).
    + reflexivity.
    + repeat constructor; simpl; intuition discriminate.
    + reflexivity.
    + reflexivity.
  - split; reflexivity.
Defined.
(** What a call of [setup] by the main block went through. *)
Ltac main_inversion H :=
  unfold main in H; cbn [snd] in H; repeat main_step H;
  injection H as <-.

(** X23: [use_pipenv], in the project section of [project.ini] or in its
    defaults, spelled as one of the eight boolean words in any case: when
    the main block calls [setup], the requirements it gives are those of
    the lock file for a true word and the lines of [requirements.txt] for
    a false one, whatever the environment holds. *)
Theorem main_use_pipenv_spelling (p : Project) (spelled : string) (b : bool)
    (args : Setup.t)
    (Hvalue : project_value (read (ini_files p) PROJECT_INI_FILE_PATH) "use_pipenv"
              = Some spelled)
    (Hstate : Dict.get (Str.lower spelled) BOOLEAN_STATES = Some b)
    (Hmain : snd (main p) = Ok args) :
  get_deps (project_files p) b = Ok (Setup.install_requires args).
Proof.
  main_inversion Hmain. cbn [Setup.install_requires].
  match goal with
  | Hload : load_project_ini_file _ _ _ _ = Ok ?cfg,
    Hbool : getboolean_fallback ?cfg _ _ _ = Ok ?use,
    Hdeps : get_deps _ ?use = Ok _ |- _ =>
      unfold getboolean_fallback in Hbool;
      rewrite (get_project_plain p cfg _ spelled Hload Hvalue
                 (boolean_plain _ _ Hstate)) in Hbool;
      unfold _convert_to_boolean in Hbool; rewrite Hstate in Hbool;
      injection Hbool as <-; exact Hdeps
  end.
Qed.

Lemma main_use_pipenv_spelling_witness :
  exists args,
    snd (main requirements_project) = Ok args
    /\ get_deps (project_files requirements_project) false
       = Ok (Setup.install_requires args)
    /\ Setup.install_requires args = ["flask>=1.0"].
Proof.
  eexists. split; [reflexivity|]. split.
  - apply (main_use_pipenv_spelling requirements_project "No" false);
      reflexivity.
  - reflexivity.
Defined.

(** X24: [use_pipenv] set in [project.ini] to a plain text that is not
    one of the eight boolean words: the main block never calls [setup]. *)
Theorem main_rejects_unknown_boolean (p : Project) (spelled : string)
    (Hvalue : project_value (read (ini_files p) PROJECT_INI_FILE_PATH) "use_pipenv"
              = Some spelled)
    (Hplain : Str.contains "$" spelled = false)
    (Hunknown : Dict.get (Str.lower spelled) BOOLEAN_STATES = None) :
  is_ok (snd (main p)) = false.
Proof.
  destruct (snd (main p)) as [args|] eqn:Hmain; [|reflexivity].
  exfalso. main_inversion Hmain.
  match goal with
  | Hload : load_project_ini_file _ _ _ _ = Ok ?cfg,
    Hbool : getboolean_fallback ?cfg _ _ _ = Ok _ |- _ =>
      unfold getboolean_fallback in Hbool;
      rewrite (get_project_plain p cfg _ spelled Hload Hvalue Hplain) in Hbool;
      unfold _convert_to_boolean in Hbool; rewrite Hunknown in Hbool;
      discriminate Hbool
  end.
Qed.

Lemma main_rejects_unknown_boolean_witness :
  is_ok (snd (main undecided_project)) = false.
Proof.
  apply (main_rejects_unknown_boolean undecided_project "maybe"); reflexivity.
Defined.

(** X25: the long description is mandatory: when the file named by
    [long_description_file] in plain text, [README.md] when the option is
    missing, cannot be read, the main block never calls [setup]. *)
Theorem main_needs_long_description (p : Project)
    (Hplain : forall file,
        project_value (read (ini_files p) PROJECT_INI_FILE_PATH)
          "long_description_file" = Some file ->
        Str.contains "$" file = false)
    (Hmissing : read_text (project_files p)
                  (or_fallback DEFAULT_LONG_DESCRIPTION_FILE
                     (project_value (read (ini_files p) PROJECT_INI_FILE_PATH)
                        "long_description_file")) = None) :
  is_ok (snd (main p)) = false.
Proof.
  destruct (snd (main p)) as [args|] eqn:Hmain; [|reflexivity].
  exfalso. main_inversion Hmain.
  match goal with
  | Hload : load_project_ini_file _ _ _ _ = Ok ?cfg,
    Hget : get_fallback ?cfg _ "long_description_file" = Ok ?file,
    Hread : read_file _ (or_fallback _ ?file) = Ok _ |- _ =>
      rewrite (get_fallback_plain p cfg _ Hload Hplain) in Hget;
      injection Hget as <-;
      unfold read_file in Hread; rewrite Hmissing in Hread;
      discriminate Hread
  end.
Qed.

Lemma main_needs_long_description_witness :
  is_ok (snd (main undocumented_project)) = false.
Proof.
  apply (main_needs_long_description undocumented_project).
  - intros file Hfile. discriminate Hfile.
  - reflexivity.
Defined.

(** X26: when the main block calls [setup], [entry_points] is [None]
    exactly when [project.ini] has no entry point section: the environment
    cannot bring one, and an empty section still gives a dictionary. *)
Theorem main_entry_points_iff (p : Project) (args : Setup.t)
    (Hmain : snd (main p) = Ok args) :
  Setup.entry_points args = None
  <-> ConfigParser.has_section (read (ini_files p) PROJECT_INI_FILE_PATH)
        INI_ENTRY_POINT_SECTION = false.
Proof.
  main_inversion Hmain. cbn [Setup.entry_points].
  match goal with
  | Hload : load_project_ini_file _ _ _ _ = Ok ?cfg,
    Hentry : load_entry_points ?cfg _ = Ok _ |- _ =>
      unfold load_entry_points, ConfigParser.has_section, Dict.mem in Hentry;
      rewrite (load_frame (ini_files p) (os_environ p) PROJECT_INI_FILE_PATH
                 INIT_ENV_VAR_SECTION INI_ENTRY_POINT_SECTION cfg
                 ltac:(discriminate) ltac:(discriminate) ltac:(discriminate)
                 Hload) in Hentry;
      unfold ConfigParser.has_section, Dict.mem;
      destruct (Dict.get INI_ENTRY_POINT_SECTION
                  (ConfigParser._sections
                     (read (ini_files p) PROJECT_INI_FILE_PATH)));
      cbn [negb] in Hentry
  end.
  - match goal with
    | Hentry : bind ?m _ = Ok _ |- _ =>
        destruct m; cbn [bind] in Hentry; [|discriminate Hentry];
        injection Hentry as <-
    end.
    split; discriminate.
  - match goal with
    | Hentry : Ok None = Ok _ |- _ => injection Hentry as <-
    end.
    now split.
Qed.

Lemma main_entry_points_iff_witness :
  exists args,
    snd (main entry_points_project) = Ok args
    /\ Setup.entry_points args
       = Some [("console_scripts", [""; "demo = demo.main:run"])]
    /\ (Setup.entry_points args = None
        <-> ConfigParser.has_section
              (read (ini_files entry_points_project) PROJECT_INI_FILE_PATH)
              INI_ENTRY_POINT_SECTION = false).
Proof.
  eexists. split; [reflexivity|]. split; [reflexivity|].
  apply (main_entry_points_iff entry_points_project). reflexivity.
Defined.

(** X27: when the values of the project section of [project.ini], its
    defaults included, are plain text, the metadata the main block gives to
    [setup] are these values, [None] for a missing one, and the read-me, its
    content type and the pattern of the test files are the ones the file
    names, or the defaults: no environment variable changes them. *)
Theorem main_metadata_from_file (p : Project) (args : Setup.t)
    (Hplain : forall key v,
        project_value (read (ini_files p) PROJECT_INI_FILE_PATH) key = Some v ->
        Str.contains "$" v = false)
    (Hmain : snd (main p) = Ok args) :
  let value := project_value (read (ini_files p) PROJECT_INI_FILE_PATH) in
  Setup.name args = value "name"
  /\ Setup.version args = value "version"
  /\ Setup.author args = value "author"
  /\ Setup.url args = value "url"
  /\ Setup.author_email args = value "email"
  /\ Setup.description args = value "description"
  /\ Setup.license args = value "license"
  /\ read_text (project_files p)
       (or_fallback DEFAULT_LONG_DESCRIPTION_FILE (value "long_description_file"))
     = Some (Setup.long_description args)
  /\ Setup.long_description_content_type args
     = or_fallback DEFAULT_LONG_DESCRIPTION_CONTENT_TYPE
         (value "long_description_content_type")
  /\ TestCommand.test_file_pattern (Setup.test_command args)
     = or_fallback DEFAULT_TEST_FILE_PATTERN (value "test_file_pattern").
Proof.
  intros value. main_inversion Hmain.
  match goal with
  | Hload : load_project_ini_file _ _ _ _ = Ok ?cfg |- _ =>
      repeat match goal with
             | Hget : get_fallback cfg _ ?key = Ok _ |- _ =>
                 rewrite (get_fallback_plain p cfg key Hload (Hplain key)) in Hget;
                 injection Hget as <-
             end
  end.
  cbn [Setup.name Setup.version Setup.author Setup.url Setup.author_email
       Setup.description Setup.license Setup.long_description
       Setup.long_description_content_type Setup.test_command].
  subst value. cbn beta. repeat split.
  match goal with
  | Hread : read_file _ _ = Ok ?content |- _ =>
      unfold read_file in Hread;
      destruct (read_text (project_files p)
                  (or_fallback DEFAULT_LONG_DESCRIPTION_FILE
                     (project_value (read (ini_files p) PROJECT_INI_FILE_PATH)
                        "long_description_file"))); [|discriminate Hread];
      now injection Hread as <-
  end.
Qed.

Lemma requirements_project_plain (key v : string) :
  project_value (read (ini_files requirements_project) PROJECT_INI_FILE_PATH) key
  = Some v ->
  Str.contains "$" v = false.
Proof.
  unfold project_value.
  change (ConfigParser._unify_values
            (read (ini_files requirements_project) PROJECT_INI_FILE_PATH)
            INI_PROJECT_SECTION)
    with (Ok (fun name =>
                match Dict.get name [("name", "demo"); ("use_pipenv", "No")] with
                | Some value => Some value
                | None => Dict.get name (@nil (string * string))
                end)).
  cbn [Dict.get].
  destruct (String.eqb (ConfigParser.optionxform key) "name");
    [intros [= <-]; reflexivity|].
  destruct (String.eqb (ConfigParser.optionxform key) "use_pipenv");
    [intros [= <-]; reflexivity|].
  discriminate.
Qed.

Lemma main_metadata_from_file_witness :
  exists args,
    snd (main requirements_project) = Ok args
    /\ Setup.name args = Some "demo"
    /\ Setup.version args = None
    /\ read_text (project_files requirements_project) "README.md"
       = Some (Setup.long_description args).
Proof.
  eexists. split; [reflexivity|].
  destruct (main_metadata_from_file requirements_project _
              requirements_project_plain eq_refl)
    as [Hname [Hversion [_ [_ [_ [_ [_ [Hreadme _]]]]]]]].
  split; [exact Hname|]. split; [exact Hversion|]. exact Hreadme.
Defined.
